(** * FinMate: the analytics engine ([src/utils/analytics.ts])

    A shallow embedding of [AnalyticsEngine] and of the little of the
    JavaScript runtime it stands on, followed by the properties of the
    engine's period summaries, comparisons, trend series and health score.
    It is followed by what the components that read the engine compute
    from its results (the dashboard, the analytics page and the insights)
    and by the store the transactions come from.

    Conventions of the embedding.

    - A JavaScript [number] that carries money, a percentage or a score is a
      rational ([Q]) in the engine and in the components that read it:
      arithmetic is exact.  The code computes with IEEE 754 doubles, which
      round the result of every operation and overflow to an infinity.
      [Binary64] embeds the period summaries once more on binary64 numbers,
      and what rounding and overflow change in them is shown there.
    - A [Date] is its time value, an integer number of milliseconds since
      the epoch ([Z]); the calendar functions are those of ECMA-262
      (section 21.4.1), with the local time zone taken to be UTC and without
      the clipping of time values to +-8.64e15.
    - [new Date(string)] and [Math.sqrt] are runtime builtins: they are
      parameters of the engine ([Date_parse], [Math_sqrt]).
    - The wall clock read by every query ([new Date()]) is the explicit
      argument [now].
    - Arrays live in a heap of array objects, since the constructor sorts
      the array it is given in place and keeps a reference to it. *)

From Stdlib Require Import ZArith QArith Qabs Qround Qminmax.
From Stdlib Require Import List String Ascii Bool DecimalString.
From Stdlib Require Import Lia Lqa Permutation Sorted.
From Stdlib Require Import Floats Uint63.
Import ListNotations.

(* A decimal literal of type [float] stands for the nearest double, as a
   number literal of JavaScript does. *)
Set Warnings "-inexact-float".

Local Open Scope Z_scope.

(** ** The time functions of ECMA-262 *)

Module JSDate.

Definition msPerDay : Z := 86400000.

Definition Day (t : Z) : Z := t / msPerDay.

Definition TimeWithinDay (t : Z) : Z := t mod msPerDay.

Definition DaysInYear (y : Z) : Z :=
  if negb (y mod 4 =? 0) then 365
  else if negb (y mod 100 =? 0) then 366
  else if negb (y mod 400 =? 0) then 365
  else 366.

Definition DayFromYear (y : Z) : Z :=
  365 * (y - 1970) + (y - 1969) / 4 - (y - 1901) / 100 + (y - 1601) / 400.

Definition TimeFromYear (y : Z) : Z := msPerDay * DayFromYear y.

(** ECMA-262 defines [YearFromTime t] as the largest [y] with
    [TimeFromYear y <= t].  It is computed here from the mean length of a
    Gregorian year (146097 days in 400 years), which is off by at most one
    year, and then adjusted; [YearFromTime_largest] below shows that the
    result is the year ECMA-262 means. *)
Definition YearFromDay (d : Z) : Z :=
  let y := 1970 + (400 * d) / 146097 in
  if d <? DayFromYear y then y - 1
  else if DayFromYear (y + 1) <=? d then y + 1
  else y.

Definition YearFromTime (t : Z) : Z := YearFromDay (Day t).

(** 1 in a leap year, 0 otherwise. *)
Definition InLeapYear (t : Z) : Z :=
  if DaysInYear (YearFromTime t) =? 366 then 1 else 0.

Definition DayWithinYear (t : Z) : Z := Day t - DayFromYear (YearFromTime t).

(** The day of the year on which month [m] (0 = January) starts, in a year
    with [leap] leap days. *)
Definition MonthStartDay (m leap : Z) : Z :=
  match m with
  | 0 => 0
  | 1 => 31
  | 2 => 59 + leap
  | 3 => 90 + leap
  | 4 => 120 + leap
  | 5 => 151 + leap
  | 6 => 181 + leap
  | 7 => 212 + leap
  | 8 => 243 + leap
  | 9 => 273 + leap
  | 10 => 304 + leap
  | _ => 334 + leap
  end.

Definition MonthFromTime (t : Z) : Z :=
  let d := DayWithinYear t in
  let leap := InLeapYear t in
  if d <? 31 then 0
  else if d <? 59 + leap then 1
  else if d <? 90 + leap then 2
  else if d <? 120 + leap then 3
  else if d <? 151 + leap then 4
  else if d <? 181 + leap then 5
  else if d <? 212 + leap then 6
  else if d <? 243 + leap then 7
  else if d <? 273 + leap then 8
  else if d <? 304 + leap then 9
  else if d <? 334 + leap then 10
  else 11.

Definition DateFromTime (t : Z) : Z :=
  DayWithinYear t - MonthStartDay (MonthFromTime t) (InLeapYear t) + 1.

Definition WeekDay (t : Z) : Z := (Day t + 4) mod 7.

Definition MakeTime (hour min sec ms : Z) : Z :=
  hour * 3600000 + min * 60000 + sec * 1000 + ms.

(** ECMA-262: the day number of the first of month [month mod 12] of year
    [year + floor(month / 12)], plus [date - 1]. *)
Definition MakeDay (year month date : Z) : Z :=
  let ym := year + month / 12 in
  let mn := month mod 12 in
  let leap := if DaysInYear ym =? 366 then 1 else 0 in
  DayFromYear ym + MonthStartDay mn leap + date - 1.

Definition MakeDate (day time : Z) : Z := day * msPerDay + time.

(** [new Date(year, monthIndex, day)]: a year from 0 to 99 means 1900 + year. *)
Definition ofYMD (year month date : Z) : Z :=
  let yr := if (0 <=? year) && (year <=? 99) then 1900 + year else year in
  MakeDate (MakeDay yr month date) (MakeTime 0 0 0 0).

Definition getFullYear (t : Z) : Z := YearFromTime t.
Definition getMonth (t : Z) : Z := MonthFromTime t.
Definition getDate (t : Z) : Z := DateFromTime t.
Definition getDay (t : Z) : Z := WeekDay t.

(** [d.setDate(date)] and [d.setHours(h, m, s, ms)] return the new time value
    of the Date they update. *)
Definition setDate (t date : Z) : Z :=
  MakeDate (MakeDay (YearFromTime t) (MonthFromTime t) date) (TimeWithinDay t).

Definition setHours (t hour min sec ms : Z) : Z :=
  MakeDate (Day t) (MakeTime hour min sec ms).

(** [toLocaleDateString('en-US', { month: 'short', year: '2-digit' })]. *)
Definition monthShort (m : Z) : string :=
  match m with
  | 0 => "Jan" | 1 => "Feb" | 2 => "Mar" | 3 => "Apr"
  | 4 => "May" | 5 => "Jun" | 6 => "Jul" | 7 => "Aug"
  | 8 => "Sep" | 9 => "Oct" | 10 => "Nov" | _ => "Dec"
  end%string.

Definition decimal (n : Z) : string := NilZero.string_of_int (Z.to_int n).

Definition twoDigits (n : Z) : string :=
  if n <? 10 then ("0" ++ decimal n)%string else decimal n.

Definition toShortMonthYear (t : Z) : string :=
  (monthShort (getMonth t) ++ " " ++ twoDigits (getFullYear t mod 100))%string.

(** The date-only form [YYYY-MM-DD] of the ISO format, which [Date.parse]
    reads as midnight UTC: the one form the application writes
    ([toISOString().split('T')[0]]).  A day up to 31 is read in every month
    and runs over into the next one, as V8 reads it: [2024-02-30] is
    1 March.  It serves as the parser of the concrete runs below. *)
Definition digit (c : ascii) : option Z :=
  let n := Z.of_nat (nat_of_ascii c) in
  if (48 <=? n) && (n <=? 57) then Some (n - 48) else None.

Definition parseISODate (s : string) : option Z :=
  match s with
  | String y1 (String y2 (String y3 (String y4 (String "-"
      (String m1 (String m2 (String "-" (String d1 (String d2 EmptyString))))))))) =>
      match digit y1, digit y2, digit y3, digit y4, digit m1, digit m2, digit d1, digit d2 with
      | Some a, Some b, Some c, Some d, Some e, Some f, Some g, Some h =>
          let year := 1000 * a + 100 * b + 10 * c + d in
          let month := 10 * e + f in
          let date := 10 * g + h in
          if (1 <=? month) && (month <=? 12) && (1 <=? date) && (date <=? 31)
          then Some (MakeDate (MakeDay year (month - 1) date) 0)
          else None
      | _, _, _, _, _, _, _, _ => None
      end
  | _ => None
  end.

End JSDate.


(** ** Numbers *)

Local Open Scope Q_scope.

Definition Qltb (x y : Q) : bool := (Qnum x * QDen y <? Qnum y * QDen x)%Z.

(** [Math.round]: the nearest integer, a tie going up. *)
Definition Math_round (x : Q) : Q := inject_Z (Qfloor (x + (1 # 2))).

Definition Math_ceil (x : Q) : Q := inject_Z (Qceiling x).

(** [x.toFixed(1)]: the sign, then the nearest number of tenths (the larger
    one on a tie) written with one decimal. *)
Definition toFixed1 (x : Q) : string :=
  let negative := Qltb x 0 in
  let n := Qfloor ((if negative then - x else x) * 10 + (1 # 2)) in
  ((if negative then "-" else "")
     ++ JSDate.decimal (n / 10) ++ "." ++ JSDate.decimal (n mod 10))%string.

(** [array.sort(compare)]: the sort is stable, and [compare a b > 0] puts
    [a] after [b].  For a comparator that is a consistent ordering every
    stable sort returns the list computed here. *)
Fixpoint Array_insert {A : Type} (compare : A -> A -> Q) (a : A) (sorted : list A)
    : list A :=
  match sorted with
  | [] => [a]
  | b :: rest =>
      if Qltb 0 (compare a b) then b :: Array_insert compare a rest
      else a :: b :: rest
  end.

Definition Array_sort {A : Type} (compare : A -> A -> Q) (array : list A) : list A :=
  fold_right (Array_insert compare) [] array.

(** A [Map] keeps its keys in insertion order; [set] on a key that is
    present replaces its value in place. *)
Fixpoint Map_get {V : Type} (m : list (string * V)) (key : string) : option V :=
  match m with
  | [] => None
  | (k, v) :: rest => if String.eqb k key then Some v else Map_get rest key
  end.

Fixpoint Map_set {V : Type} (m : list (string * V)) (key : string) (value : V)
    : list (string * V) :=
  match m with
  | [] => [(key, value)]
  | (k, v) :: rest =>
      if String.eqb k key then (k, value) :: rest
      else (k, v) :: Map_set rest key value
  end.

(** [new Set(array)], then [Array.from]: the distinct elements, each at the
    place of its first occurrence. *)
Definition Set_add (s : list string) (x : string) : list string :=
  if existsb (String.eqb x) s then s else s ++ [x].

Definition Set_from (array : list string) : list string :=
  fold_left Set_add array [].

(** ** The data model *)

Inductive TransactionType := Income | Expense.

Definition TransactionType_eqb (a b : TransactionType) : bool :=
  match a, b with
  | Income, Income | Expense, Expense => true
  | _, _ => false
  end.

Module Transaction.
Record t := mk {
  id : string;
  amount : Q;
  category : string;
  description : string;
  date : string;
  type : TransactionType;
  source : option string
}.
End Transaction.

Module CategorySummary.
Record t := mk {
  category : string;
  amount : Q;
  count : Z;
  percentage : Q
}.
End CategorySummary.

Module TimeBasedAnalytics.
Record t := mk {
  period : string;
  totalIncome : Q;
  totalExpenses : Q;
  netAmount : Q;
  transactionCount : nat;
  topCategories : list CategorySummary.t;
  averageDaily : Q;
  savingsRate : Q
}.
End TimeBasedAnalytics.

Module Growth.
Record t := mk {
  income : Q;
  expenses : Q;
  savings : Q
}.
End Growth.

Module MonthlyComparison.
Record t := mk {
  current : TimeBasedAnalytics.t;
  previous : TimeBasedAnalytics.t;
  growth : Growth.t
}.
End MonthlyComparison.

Module TrendPoint.
Record t := mk {
  month : string;
  income : Q;
  expenses : Q;
  savings : Q
}.
End TrendPoint.

Module CategoryChange.
Record t := mk {
  category : string;
  currentMonth : Q;
  previousMonth : Q;
  change : Q
}.
End CategoryChange.

Inductive Impact := positive | negative | neutral.

Module Factor.
Record t := mk {
  name : string;
  score : Q;
  impact : Impact;
  description : string
}.
End Factor.

Module HealthScore.
Record t := mk {
  score : Q;
  factors : list Factor.t
}.
End HealthScore.

(** The entry of [categoryMap]. *)
Module CategoryData.
Record t := mk {
  amount : Q;
  count : Z
}.
End CategoryData.

(** The heap of array objects: a reference is an index into it.  Reading a
    reference that was never allocated gives the empty array. *)
Definition Heap := list (list Transaction.t).

Definition deref (h : Heap) (r : nat) : list Transaction.t := nth r h [].

Fixpoint assign (h : Heap) (r : nat) (array : list Transaction.t) : Heap :=
  match h, r with
  | [], _ => []
  | _ :: rest, O => array :: rest
  | a :: rest, S r' => a :: assign rest r' array
  end.

(** The engine object: [this.transactions] is a reference. *)
Module AnalyticsEngine.
Record t := mk {
  transactions : nat
}.
End AnalyticsEngine.

(** [TimePeriod] of [TimePeriodContext]. *)
Inductive TimePeriod := weekly | monthly | half_yearly | yearly.

(** ** The engine *)

Section Engine.

(** [new Date(s).getTime()] for a date string [s], [None] when the string
    does not parse (an Invalid Date, whose time value is [NaN]). *)
Variable Date_parse : string -> option Z.

Variable Math_sqrt : Q -> Q.

(** The comparator of the constructor's sort,
    [new Date(b.date).getTime() - new Date(a.date).getTime()]; a [NaN]
    result counts as 0 in [Array.prototype.sort]. *)
Definition compareByDateDesc (a b : Transaction.t) : Q :=
  match Date_parse (Transaction.date b), Date_parse (Transaction.date a) with
  | Some tb, Some ta => inject_Z (tb - ta)
  | _, _ => 0
  end.

(** [new AnalyticsEngine(transactions)]: [sort] reorders the array object
    it is called on and returns that same object, which the engine keeps. *)
Definition constructor (h : Heap) (transactions : nat) : Heap * AnalyticsEngine.t :=
  (assign h transactions (Array_sort compareByDateDesc (deref h transactions)),
   AnalyticsEngine.mk transactions).

Definition inPeriod (startDate endDate : Z) (transaction : Transaction.t) : bool :=
  match Date_parse (Transaction.date transaction) with
  | Some transactionDate =>
      (startDate <=? transactionDate)%Z && (transactionDate <=? endDate)%Z
  | None => false
  end.

Definition getTransactionsInPeriod (h : Heap) (this : AnalyticsEngine.t)
    (startDate endDate : Z) : list Transaction.t :=
  filter (inPeriod startDate endDate) (deref h (AnalyticsEngine.transactions this)).

Definition hasType (ty : TransactionType) (t : Transaction.t) : bool :=
  TransactionType_eqb (Transaction.type t) ty.

(** [.reduce((sum, t) => sum + Math.abs(t.amount), 0)] *)
Definition sumAbsAmount (transactions : list Transaction.t) : Q :=
  fold_left (fun sum t => sum + Qabs (Transaction.amount t)) transactions 0.

(** The callback of the [forEach] that fills [categoryMap]. *)
Definition tally (categoryMap : list (string * CategoryData.t)) (t : Transaction.t)
    : list (string * CategoryData.t) :=
  let existing :=
    match Map_get categoryMap (Transaction.category t) with
    | Some data => data
    | None => CategoryData.mk 0 0
    end in
  Map_set categoryMap (Transaction.category t)
    (CategoryData.mk
       (CategoryData.amount existing + Qabs (Transaction.amount t))
       (CategoryData.count existing + 1)).

(** The callback of the [map] over [categoryMap.entries()]; [expenses] is
    the variable of [calculatePeriodAnalytics] it closes over. *)
Definition toSummary (expenses : Q) (entry : string * CategoryData.t)
    : CategorySummary.t :=
  let (category, data) := entry in
  CategorySummary.mk category
    (CategoryData.amount data)
    (CategoryData.count data)
    (if Qltb 0 expenses then (CategoryData.amount data / expenses) * 100 else 0).

Definition calculatePeriodAnalytics (transactions : list Transaction.t)
    (periodName : string) (days : Q) : TimeBasedAnalytics.t :=
  let income := sumAbsAmount (filter (hasType Income) transactions) in
  let expenses := sumAbsAmount (filter (hasType Expense) transactions) in
  let netAmount := income - expenses in
  let savingsRate := if Qltb 0 income then (netAmount / income) * 100 else 0 in
  let averageDaily := expenses / days in
  let categoryMap := fold_left tally (filter (hasType Expense) transactions) [] in
  let topCategories :=
    firstn 5
      (Array_sort
         (fun a b => CategorySummary.amount b - CategorySummary.amount a)
         (map (toSummary expenses) categoryMap)) in
  TimeBasedAnalytics.mk periodName income expenses netAmount
    (List.length transactions) topCategories averageDaily savingsRate.

Definition getWeeklyAnalytics (h : Heap) (this : AnalyticsEngine.t) (now : Z)
    : TimeBasedAnalytics.t :=
  let startOfWeek := now in
  let startOfWeek := JSDate.setDate startOfWeek (JSDate.getDate now - JSDate.getDay now) in
  let startOfWeek := JSDate.setHours startOfWeek 0 0 0 0 in
  let endOfWeek := startOfWeek in
  let endOfWeek := JSDate.setDate endOfWeek (JSDate.getDate startOfWeek + 6) in
  let endOfWeek := JSDate.setHours endOfWeek 23 59 59 999 in
  let weeklyTransactions := getTransactionsInPeriod h this startOfWeek endOfWeek in
  calculatePeriodAnalytics weeklyTransactions "This Week" 7.

Definition getMonthlyAnalytics (h : Heap) (this : AnalyticsEngine.t) (now : Z)
    : TimeBasedAnalytics.t :=
  let startOfMonth := JSDate.ofYMD (JSDate.getFullYear now) (JSDate.getMonth now) 1 in
  let endOfMonth := JSDate.ofYMD (JSDate.getFullYear now) (JSDate.getMonth now + 1) 0 in
  let endOfMonth := JSDate.setHours endOfMonth 23 59 59 999 in
  let monthlyTransactions := getTransactionsInPeriod h this startOfMonth endOfMonth in
  let daysInMonth := JSDate.getDate endOfMonth in
  calculatePeriodAnalytics monthlyTransactions "This Month" (inject_Z daysInMonth).

Definition getHalfYearlyAnalytics (h : Heap) (this : AnalyticsEngine.t) (now : Z)
    : TimeBasedAnalytics.t :=
  let startOfHalfYear :=
    JSDate.ofYMD (JSDate.getFullYear now) (JSDate.getMonth now / 6 * 6) 1 in
  let endOfHalfYear :=
    JSDate.ofYMD (JSDate.getFullYear now) (JSDate.getMonth now / 6 * 6 + 6) 0 in
  let endOfHalfYear := JSDate.setHours endOfHalfYear 23 59 59 999 in
  let halfYearlyTransactions :=
    getTransactionsInPeriod h this startOfHalfYear endOfHalfYear in
  let days :=
    Math_ceil (inject_Z (endOfHalfYear - startOfHalfYear)
               / inject_Z (1000 * 60 * 60 * 24)) in
  calculatePeriodAnalytics halfYearlyTransactions "This Half Year" days.

Definition getAnnualAnalytics (h : Heap) (this : AnalyticsEngine.t) (now : Z)
    : TimeBasedAnalytics.t :=
  let startOfYear := JSDate.ofYMD (JSDate.getFullYear now) 0 1 in
  let endOfYear := JSDate.ofYMD (JSDate.getFullYear now) 11 31 in
  let endOfYear := JSDate.setHours endOfYear 23 59 59 999 in
  let annualTransactions := getTransactionsInPeriod h this startOfYear endOfYear in
  let isLeapYear := (Z.rem (JSDate.getFullYear now) 4 =? 0)%Z in
  let daysInYear := if isLeapYear then 366 else 365 in
  calculatePeriodAnalytics annualTransactions "This Year" daysInYear.

(** The closure [calculateGrowth], written out alike in each of the four
    comparison queries. *)
Definition calculateGrowth (current previous : Q) : Q :=
  if Qeq_bool previous 0 then (if Qltb 0 current then 100 else 0)
  else ((current - previous) / previous) * 100.

Definition growthOf (current previous : TimeBasedAnalytics.t) : Growth.t :=
  Growth.mk
    (calculateGrowth (TimeBasedAnalytics.totalIncome current)
                     (TimeBasedAnalytics.totalIncome previous))
    (calculateGrowth (TimeBasedAnalytics.totalExpenses current)
                     (TimeBasedAnalytics.totalExpenses previous))
    (calculateGrowth (TimeBasedAnalytics.netAmount current)
                     (TimeBasedAnalytics.netAmount previous)).

Definition getMonthlyComparison (h : Heap) (this : AnalyticsEngine.t) (now : Z)
    : MonthlyComparison.t :=
  let startOfCurrentMonth := JSDate.ofYMD (JSDate.getFullYear now) (JSDate.getMonth now) 1 in
  let endOfCurrentMonth := JSDate.ofYMD (JSDate.getFullYear now) (JSDate.getMonth now + 1) 0 in
  let endOfCurrentMonth := JSDate.setHours endOfCurrentMonth 23 59 59 999 in
  let startOfPreviousMonth :=
    JSDate.ofYMD (JSDate.getFullYear now) (JSDate.getMonth now - 1) 1 in
  let endOfPreviousMonth := JSDate.ofYMD (JSDate.getFullYear now) (JSDate.getMonth now) 0 in
  let endOfPreviousMonth := JSDate.setHours endOfPreviousMonth 23 59 59 999 in
  let currentTransactions :=
    getTransactionsInPeriod h this startOfCurrentMonth endOfCurrentMonth in
  let previousTransactions :=
    getTransactionsInPeriod h this startOfPreviousMonth endOfPreviousMonth in
  let current :=
    calculatePeriodAnalytics currentTransactions "Current Month"
      (inject_Z (JSDate.getDate endOfCurrentMonth)) in
  let previous :=
    calculatePeriodAnalytics previousTransactions "Previous Month"
      (inject_Z (JSDate.getDate endOfPreviousMonth)) in
  MonthlyComparison.mk current previous (growthOf current previous).

Definition getWeeklyComparison (h : Heap) (this : AnalyticsEngine.t) (now : Z)
    : MonthlyComparison.t :=
  let startOfCurrentWeek := now in
  let startOfCurrentWeek :=
    JSDate.setDate startOfCurrentWeek (JSDate.getDate now - JSDate.getDay now) in
  let startOfCurrentWeek := JSDate.setHours startOfCurrentWeek 0 0 0 0 in
  let endOfCurrentWeek := startOfCurrentWeek in
  let endOfCurrentWeek :=
    JSDate.setDate endOfCurrentWeek (JSDate.getDate startOfCurrentWeek + 6) in
  let endOfCurrentWeek := JSDate.setHours endOfCurrentWeek 23 59 59 999 in
  let startOfPreviousWeek := startOfCurrentWeek in
  let startOfPreviousWeek :=
    JSDate.setDate startOfPreviousWeek (JSDate.getDate startOfCurrentWeek - 7) in
  let endOfPreviousWeek := startOfPreviousWeek in
  let endOfPreviousWeek :=
    JSDate.setDate endOfPreviousWeek (JSDate.getDate startOfPreviousWeek + 6) in
  let endOfPreviousWeek := JSDate.setHours endOfPreviousWeek 23 59 59 999 in
  let currentTransactions :=
    getTransactionsInPeriod h this startOfCurrentWeek endOfCurrentWeek in
  let previousTransactions :=
    getTransactionsInPeriod h this startOfPreviousWeek endOfPreviousWeek in
  let current := calculatePeriodAnalytics currentTransactions "Current Week" 7 in
  let previous := calculatePeriodAnalytics previousTransactions "Previous Week" 7 in
  MonthlyComparison.mk current previous (growthOf current previous).

Definition getHalfYearlyComparison (h : Heap) (this : AnalyticsEngine.t) (now : Z)
    : MonthlyComparison.t :=
  let currentHalfStart := (JSDate.getMonth now / 6 * 6)%Z in
  let startOfCurrentHalf := JSDate.ofYMD (JSDate.getFullYear now) currentHalfStart 1 in
  let endOfCurrentHalf := JSDate.ofYMD (JSDate.getFullYear now) (currentHalfStart + 6) 0 in
  let endOfCurrentHalf := JSDate.setHours endOfCurrentHalf 23 59 59 999 in
  let prevHalfStart := (currentHalfStart - 6)%Z in
  let startOfPreviousHalf :=
    JSDate.ofYMD
      (if (prevHalfStart <? 0)%Z then JSDate.getFullYear now - 1 else JSDate.getFullYear now)
      (if (prevHalfStart <? 0)%Z then prevHalfStart + 12 else prevHalfStart)
      1 in
  let endOfPreviousHalf :=
    JSDate.ofYMD
      (if (prevHalfStart <? 0)%Z then JSDate.getFullYear now - 1 else JSDate.getFullYear now)
      ((if (prevHalfStart <? 0)%Z then prevHalfStart + 12 else prevHalfStart) + 6)
      0 in
  let endOfPreviousHalf := JSDate.setHours endOfPreviousHalf 23 59 59 999 in
  let currentTransactions :=
    getTransactionsInPeriod h this startOfCurrentHalf endOfCurrentHalf in
  let previousTransactions :=
    getTransactionsInPeriod h this startOfPreviousHalf endOfPreviousHalf in
  let currentDays :=
    Math_ceil (inject_Z (endOfCurrentHalf - startOfCurrentHalf)
               / inject_Z (1000 * 60 * 60 * 24)) in
  let previousDays :=
    Math_ceil (inject_Z (endOfPreviousHalf - startOfPreviousHalf)
               / inject_Z (1000 * 60 * 60 * 24)) in
  let current :=
    calculatePeriodAnalytics currentTransactions "Current Half Year" currentDays in
  let previous :=
    calculatePeriodAnalytics previousTransactions "Previous Half Year" previousDays in
  MonthlyComparison.mk current previous (growthOf current previous).

Definition getYearlyComparison (h : Heap) (this : AnalyticsEngine.t) (now : Z)
    : MonthlyComparison.t :=
  let startOfCurrentYear := JSDate.ofYMD (JSDate.getFullYear now) 0 1 in
  let endOfCurrentYear := JSDate.ofYMD (JSDate.getFullYear now) 11 31 in
  let endOfCurrentYear := JSDate.setHours endOfCurrentYear 23 59 59 999 in
  let startOfPreviousYear := JSDate.ofYMD (JSDate.getFullYear now - 1) 0 1 in
  let endOfPreviousYear := JSDate.ofYMD (JSDate.getFullYear now - 1) 11 31 in
  let endOfPreviousYear := JSDate.setHours endOfPreviousYear 23 59 59 999 in
  let currentTransactions :=
    getTransactionsInPeriod h this startOfCurrentYear endOfCurrentYear in
  let previousTransactions :=
    getTransactionsInPeriod h this startOfPreviousYear endOfPreviousYear in
  let currentIsLeapYear := (Z.rem (JSDate.getFullYear now) 4 =? 0)%Z in
  let previousIsLeapYear := (Z.rem (JSDate.getFullYear now - 1) 4 =? 0)%Z in
  let currentDays := if currentIsLeapYear then 366 else 365 in
  let previousDays := if previousIsLeapYear then 366 else 365 in
  let current :=
    calculatePeriodAnalytics currentTransactions "Current Year" currentDays in
  let previous :=
    calculatePeriodAnalytics previousTransactions "Previous Year" previousDays in
  MonthlyComparison.mk current previous (growthOf current previous).

(** The loop runs [i] from 5 down to 0 and pushes one point per turn. *)
Definition getSpendingTrends (h : Heap) (this : AnalyticsEngine.t) (now : Z)
    : list TrendPoint.t :=
  map
    (fun i : Z =>
       let monthDate := JSDate.ofYMD (JSDate.getFullYear now) (JSDate.getMonth now - i) 1 in
       let startOfMonth :=
         JSDate.ofYMD (JSDate.getFullYear monthDate) (JSDate.getMonth monthDate) 1 in
       let endOfMonth :=
         JSDate.ofYMD (JSDate.getFullYear monthDate) (JSDate.getMonth monthDate + 1) 0 in
       let endOfMonth := JSDate.setHours endOfMonth 23 59 59 999 in
       let monthTransactions := getTransactionsInPeriod h this startOfMonth endOfMonth in
       let income := sumAbsAmount (filter (hasType Income) monthTransactions) in
       let expenses := sumAbsAmount (filter (hasType Expense) monthTransactions) in
       TrendPoint.mk (JSDate.toShortMonthYear monthDate) income expenses (income - expenses))
    [5; 4; 3; 2; 1; 0]%Z.

(** The expression bound to [change] in [getCategoryComparison]. *)
Definition categoryChange (currentAmount previousAmount : Q) : Q :=
  if Qltb 0 previousAmount
  then ((currentAmount - previousAmount) / previousAmount) * 100
  else if Qltb 0 currentAmount then 100 else 0.

Definition getCategoryComparison (h : Heap) (this : AnalyticsEngine.t) (now : Z)
    : list CategoryChange.t :=
  let startOfCurrentMonth := JSDate.ofYMD (JSDate.getFullYear now) (JSDate.getMonth now) 1 in
  let endOfCurrentMonth := JSDate.ofYMD (JSDate.getFullYear now) (JSDate.getMonth now + 1) 0 in
  let endOfCurrentMonth := JSDate.setHours endOfCurrentMonth 23 59 59 999 in
  let startOfPreviousMonth :=
    JSDate.ofYMD (JSDate.getFullYear now) (JSDate.getMonth now - 1) 1 in
  let endOfPreviousMonth := JSDate.ofYMD (JSDate.getFullYear now) (JSDate.getMonth now) 0 in
  let endOfPreviousMonth := JSDate.setHours endOfPreviousMonth 23 59 59 999 in
  let currentTransactions :=
    filter (hasType Expense)
      (getTransactionsInPeriod h this startOfCurrentMonth endOfCurrentMonth) in
  let previousTransactions :=
    filter (hasType Expense)
      (getTransactionsInPeriod h this startOfPreviousMonth endOfPreviousMonth) in
  let allCategories :=
    Set_from (map Transaction.category currentTransactions
              ++ map Transaction.category previousTransactions) in
  Array_sort
    (fun a b => CategoryChange.currentMonth b - CategoryChange.currentMonth a)
    (map
       (fun category =>
          let currentAmount :=
            sumAbsAmount
              (filter (fun t => String.eqb (Transaction.category t) category)
                 currentTransactions) in
          let previousAmount :=
            sumAbsAmount
              (filter (fun t => String.eqb (Transaction.category t) category)
                 previousTransactions) in
          let change := categoryChange currentAmount previousAmount in
          CategoryChange.mk category currentAmount previousAmount change)
       allCategories).

Definition calculateVariation (values : list Q) : Q :=
  if (List.length values =? 0)%nat then 0
  else
    let mean :=
      fold_left (fun sum val => sum + val) values 0
      / inject_Z (Z.of_nat (List.length values)) in
    let variance :=
      fold_left (fun sum val => sum + Qpower (val - mean) 2) values 0
      / inject_Z (Z.of_nat (List.length values)) in
    let standardDeviation := Math_sqrt variance in
    if Qltb 0 mean then (standardDeviation / mean) * 100 else 0.

(** [Math.max(...percentages)] of a non-empty array is the maximum of its
    elements; the empty array returns before it. *)
Definition calculateCategoryBalance (categories : list CategorySummary.t) : Q :=
  match map CategorySummary.percentage categories with
  | [] => 100
  | p :: percentages =>
      let maxPercentage := fold_left Qmax percentages p in
      if Qltb 50 maxPercentage then 30
      else if Qltb 40 maxPercentage then 50
      else if Qltb 30 maxPercentage then 70
      else 90
  end.

Definition getFinancialHealthScore (h : Heap) (this : AnalyticsEngine.t) (now : Z)
    : HealthScore.t :=
  let monthlyAnalytics := getMonthlyAnalytics h this now in
  let factors := [] in
  let totalScore := 0 in
  (* Savings Rate Factor (30% weight) *)
  let savingsScore := Qmin (TimeBasedAnalytics.savingsRate monthlyAnalytics * 2) 100 in
  let factors := factors ++ [
    Factor.mk "Savings Rate" savingsScore
      (if Qle_bool 60 savingsScore then positive
       else if Qle_bool 30 savingsScore then neutral else negative)
      ("You're saving "
         ++ toFixed1 (TimeBasedAnalytics.savingsRate monthlyAnalytics)
         ++ "% of your income")%string ] in
  let totalScore := totalScore + savingsScore * (3 # 10) in
  (* Expense Consistency Factor (25% weight) *)
  let trends := getSpendingTrends h this now in
  let expenseVariation := calculateVariation (map TrendPoint.expenses trends) in
  let consistencyScore := Qmax 0 (100 - expenseVariation) in
  let factors := factors ++ [
    Factor.mk "Spending Consistency" consistencyScore
      (if Qle_bool 70 consistencyScore then positive
       else if Qle_bool 40 consistencyScore then neutral else negative)
      ("Your spending pattern is "
         ++ (if Qle_bool 70 consistencyScore then "consistent" else "variable"))%string ] in
  let totalScore := totalScore + consistencyScore * (25 # 100) in
  (* Income Growth Factor (20% weight) *)
  let comparison := getMonthlyComparison h this now in
  let incomeGrowth := Growth.income (MonthlyComparison.growth comparison) in
  let incomeGrowthScore := Qmin (Qmax (50 + incomeGrowth) 0) 100 in
  let factors := factors ++ [
    Factor.mk "Income Growth" incomeGrowthScore
      (if Qltb 5 incomeGrowth then positive
       else if Qltb incomeGrowth (-5) then negative else neutral)
      ("Income "
         ++ (if Qle_bool 0 incomeGrowth then "increased" else "decreased")
         ++ " by " ++ toFixed1 (Qabs incomeGrowth) ++ "%")%string ] in
  let totalScore := totalScore + incomeGrowthScore * (2 # 10) in
  (* Category Balance Factor (25% weight) *)
  let categoryBalance :=
    calculateCategoryBalance (TimeBasedAnalytics.topCategories monthlyAnalytics) in
  let factors := factors ++ [
    Factor.mk "Expense Balance" categoryBalance
      (if Qle_bool 70 categoryBalance then positive
       else if Qle_bool 40 categoryBalance then neutral else negative)
      ("Your expenses are "
         ++ (if Qle_bool 70 categoryBalance then "well distributed" else "concentrated")
         ++ " across categories")%string ] in
  let totalScore := totalScore + categoryBalance * (25 # 100) in
  HealthScore.mk (Math_round totalScore) factors.

(** The two [switch (timePeriod)] of [Dashboard.tsx]. *)
Definition periodData (h : Heap) (this : AnalyticsEngine.t) (now : Z)
    (timePeriod : TimePeriod) : TimeBasedAnalytics.t :=
  match timePeriod with
  | weekly => getWeeklyAnalytics h this now
  | monthly => getMonthlyAnalytics h this now
  | half_yearly => getHalfYearlyAnalytics h this now
  | yearly => getAnnualAnalytics h this now
  end.

Definition comparison (h : Heap) (this : AnalyticsEngine.t) (now : Z)
    (timePeriod : TimePeriod) : MonthlyComparison.t :=
  match timePeriod with
  | weekly => getWeeklyComparison h this now
  | monthly => getMonthlyComparison h this now
  | half_yearly => getHalfYearlyComparison h this now
  | yearly => getYearlyComparison h this now
  end.

End Engine.

(** ** A concrete runtime and concrete runs *)

(** A square root to six decimal places (rounded down), for the runs. *)
Definition sqrt6 (x : Q) : Q :=
  inject_Z (Z.sqrt (Qfloor (x * 1000000000000))) / 1000000.

(** A transaction as the form stores it: the amount of an expense is
    negative. *)
Definition tx (id : string) (amount : Q) (category : string) (date : string)
    (type : TransactionType) : Transaction.t :=
  Transaction.mk id
    (match type with Income => amount | Expense => - amount end)
    category "" date type None.

(** 2024-03-15T10:30:00Z, a Friday. *)
Definition mid_march_2024 : Z := 1710498600000.

Definition engine0 : AnalyticsEngine.t := AnalyticsEngine.mk 0.

Definition sample : list Transaction.t :=
  [ tx "1" 5000 "Salary" "2024-03-01" Income;
    tx "2" 2000 "Food" "2024-03-05" Expense ].

(** Expenses above the income of the month. *)
Definition overspent : list Transaction.t :=
  [ tx "1" 1000 "Salary" "2024-03-01" Income;
    tx "2" 2000 "Rent" "2024-03-05" Expense ].

(** A month in deficit followed by a month in surplus. *)
Definition recovery : list Transaction.t :=
  [ tx "1" 3000 "Salary" "2024-03-01" Income;
    tx "2" 1000 "Rent" "2024-03-05" Expense;
    tx "3" 1000 "Salary" "2024-02-01" Income;
    tx "4" 2000 "Rent" "2024-02-05" Expense ].

(** An array that is not in the engine's order: the older record first. *)
Definition oldest_first : list Transaction.t :=
  [ tx "1" 2000 "Food" "2024-03-05" Expense;
    tx "2" 5000 "Salary" "2024-03-10" Income ].

(** Two top categories, the larger with 60 percent. *)
Definition two_categories : list CategorySummary.t :=
  [ CategorySummary.mk "Rent" 1200 1 60; CategorySummary.mk "Food" 800 4 40 ].

(** ** The vocabulary of the statements *)

Definition Qsum (l : list Q) : Q := fold_right Qplus 0 l.

Definition absAmount (t : Transaction.t) : Q := Qabs (Transaction.amount t).

Definition entryAmount (entry : string * CategoryData.t) : Q :=
  CategoryData.amount (snd entry).

Definition getOrZero (m : list (string * CategoryData.t)) (k : string) : CategoryData.t :=
  match Map_get m k with
  | Some data => data
  | None => CategoryData.mk 0 0
  end.

(** The total of the expenses of a list, the category map
    [calculatePeriodAnalytics] builds from it, and the summaries it sorts. *)
Definition expenseTotal (transactions : list Transaction.t) : Q :=
  sumAbsAmount (filter (hasType Expense) transactions).

Definition categoryMapOf (transactions : list Transaction.t)
    : list (string * CategoryData.t) :=
  fold_left tally (filter (hasType Expense) transactions) [].

Definition summariesOf (transactions : list Transaction.t) : list CategorySummary.t :=
  map (toSummary (expenseTotal transactions)) (categoryMapOf transactions).

(** The order of a list sorted from the largest key to the smallest. *)
Definition descending {A : Type} (key : A -> Q) (a b : A) : Prop := key b <= key a.

(** The leap days of year [y]: 1 or 0. *)
Definition leapDays (y : Z) : Z := if (JSDate.DaysInYear y =? 366)%Z then 1%Z else 0%Z.

(** Midnight at the start of month [m] of year [y]; months are counted from
    January of [y] on, so [m = 12] is January of [y + 1] and [m = -1] is
    December of [y - 1]. *)
Definition monthStart (y m : Z) : Z := JSDate.MakeDate (JSDate.MakeDay y m 1) 0.

(** The label of that month, as in [Mar 24]. *)
Definition monthLabel (y m : Z) : string :=
  (JSDate.monthShort (m mod 12) ++ " " ++ JSDate.twoDigits ((y + m / 12) mod 100))%string.

(** The window [(startDate, endDate)] of each period query. *)
Definition periodWindow (timePeriod : TimePeriod) (now : Z) : Z * Z :=
  let year := JSDate.getFullYear now in
  let month := JSDate.getMonth now in
  match timePeriod with
  | weekly =>
      let startOfWeek :=
        JSDate.setHours (JSDate.setDate now (JSDate.getDate now - JSDate.getDay now)) 0 0 0 0 in
      (startOfWeek,
       JSDate.setHours (JSDate.setDate startOfWeek (JSDate.getDate startOfWeek + 6))
         23 59 59 999)
  | monthly =>
      (JSDate.ofYMD year month 1,
       JSDate.setHours (JSDate.ofYMD year (month + 1) 0) 23 59 59 999)
  | half_yearly =>
      (JSDate.ofYMD year (month / 6 * 6) 1,
       JSDate.setHours (JSDate.ofYMD year (month / 6 * 6 + 6) 0) 23 59 59 999)
  | yearly =>
      (JSDate.ofYMD year 0 1,
       JSDate.setHours (JSDate.ofYMD year 11 31) 23 59 59 999)
  end%Z.

(** The number of days each period query divides the expenses by. *)
Definition periodDays (timePeriod : TimePeriod) (now : Z) : Q :=
  match timePeriod with
  | weekly => 7
  | monthly => inject_Z (JSDate.getDate (snd (periodWindow monthly now)))
  | half_yearly =>
      Math_ceil
        (inject_Z (snd (periodWindow half_yearly now) - fst (periodWindow half_yearly now))
         / inject_Z (1000 * 60 * 60 * 24))
  | yearly => if (Z.rem (JSDate.getFullYear now) 4 =? 0)%Z then 366 else 365
  end.

Definition periodName (timePeriod : TimePeriod) : string :=
  match timePeriod with
  | weekly => "This Week"
  | monthly => "This Month"
  | half_yearly => "This Half Year"
  | yearly => "This Year"
  end.

(** The window, the day count and the labels of the previous period in a
    comparison query. *)
Definition previousWindow (timePeriod : TimePeriod) (now : Z) : Z * Z :=
  let year := JSDate.getFullYear now in
  let month := JSDate.getMonth now in
  match timePeriod with
  | weekly =>
      let startOfCurrentWeek := fst (periodWindow weekly now) in
      let startOfPreviousWeek :=
        JSDate.setDate startOfCurrentWeek (JSDate.getDate startOfCurrentWeek - 7) in
      (startOfPreviousWeek,
       JSDate.setHours
         (JSDate.setDate startOfPreviousWeek (JSDate.getDate startOfPreviousWeek + 6))
         23 59 59 999)
  | monthly =>
      (JSDate.ofYMD year (month - 1) 1,
       JSDate.setHours (JSDate.ofYMD year month 0) 23 59 59 999)
  | half_yearly =>
      let prevHalfStart := month / 6 * 6 - 6 in
      let y := if prevHalfStart <? 0 then year - 1 else year in
      let m := if prevHalfStart <? 0 then prevHalfStart + 12 else prevHalfStart in
      (JSDate.ofYMD y m 1, JSDate.setHours (JSDate.ofYMD y (m + 6) 0) 23 59 59 999)
  | yearly =>
      (JSDate.ofYMD (year - 1) 0 1,
       JSDate.setHours (JSDate.ofYMD (year - 1) 11 31) 23 59 59 999)
  end%Z.

Definition previousDays (timePeriod : TimePeriod) (now : Z) : Q :=
  match timePeriod with
  | weekly => 7
  | monthly => inject_Z (JSDate.getDate (snd (previousWindow monthly now)))
  | half_yearly =>
      Math_ceil
        (inject_Z (snd (previousWindow half_yearly now) - fst (previousWindow half_yearly now))
         / inject_Z (1000 * 60 * 60 * 24))
  | yearly => if (Z.rem (JSDate.getFullYear now - 1) 4 =? 0)%Z then 366 else 365
  end.

Definition currentName (timePeriod : TimePeriod) : string :=
  match timePeriod with
  | weekly => "Current Week"
  | monthly => "Current Month"
  | half_yearly => "Current Half Year"
  | yearly => "Current Year"
  end.

Definition previousName (timePeriod : TimePeriod) : string :=
  match timePeriod with
  | weekly => "Previous Week"
  | monthly => "Previous Month"
  | half_yearly => "Previous Half Year"
  | yearly => "Previous Year"
  end.

(** The bands of the Expense Balance factor, as the specification words
    them: over 50 scores 30, over 40 scores 50, over 30 scores 70, else 90. *)
Definition balanceBand (m : Q) : Q :=
  if Qltb 50 m then 30
  else if Qltb 40 m then 50
  else if Qltb 30 m then 70
  else 90.

(** [m] is the largest percentage of [categories]. *)
Definition largestPercentage (categories : list CategorySummary.t) (m : Q) : Prop :=
  (exists c, In c categories /\ CategorySummary.percentage c == m)
  /\ (forall c, In c categories -> CategorySummary.percentage c <= m).

Section Windows.

Variable Date_parse : string -> option Z.

(** The transactions of the engine that fall into a period's window. *)
Definition windowTransactions (h : Heap) (this : AnalyticsEngine.t)
    (timePeriod : TimePeriod) (now : Z) : list Transaction.t :=
  getTransactionsInPeriod Date_parse h this
    (fst (periodWindow timePeriod now)) (snd (periodWindow timePeriod now)).

(** Those of one calendar month: from its first millisecond to the last one
    before the next month. *)
Definition monthTransactions (h : Heap) (this : AnalyticsEngine.t) (y m : Z)
    : list Transaction.t :=
  getTransactionsInPeriod Date_parse h this (monthStart y m) (monthStart y (m + 1) - 1).

(** The time value of a transaction's date (0 when it does not parse). *)
Definition timeOf (t : Transaction.t) : Q :=
  match Date_parse (Transaction.date t) with
  | Some time => inject_Z time
  | None => 0
  end.

(** The trend point of one calendar month. *)
Definition trendOfMonth (h : Heap) (this : AnalyticsEngine.t) (y m : Z) : TrendPoint.t :=
  let income := sumAbsAmount (filter (hasType Income) (monthTransactions h this y m)) in
  let expenses := sumAbsAmount (filter (hasType Expense) (monthTransactions h this y m)) in
  TrendPoint.mk (monthLabel y m) income expenses (income - expenses).

(** The distinct categories of the expenses of a list, in the order of
    their first occurrence. *)
Definition expenseCategories (transactions : list Transaction.t) : list string :=
  Set_from (map Transaction.category (filter (hasType Expense) transactions)).

End Windows.

(** ** The calendar periods *)

(** Midnight at the start of the week of [now]: the week starts on Sunday. *)
Definition weekStart (now : Z) : Z :=
  ((JSDate.Day now - JSDate.WeekDay now) * JSDate.msPerDay)%Z.

(** The number of days of month [m] of year [y], and of the six months that
    start with it. *)
Definition daysInMonth (y m : Z) : Z :=
  (JSDate.MakeDay y (m + 1) 1 - JSDate.MakeDay y m 1)%Z.

Definition daysInHalf (y m : Z) : Z :=
  (JSDate.MakeDay y (m + 6) 1 - JSDate.MakeDay y m 1)%Z.

(** The first month of the half year of month [month]: 0 or 6. *)
Definition halfStart (month : Z) : Z := (month / 6 * 6)%Z.

Section Spans.

Variable Date_parse : string -> option Z.

(** The transactions of the engine dated within the [days] days that start
    at [startDate], to the last millisecond. *)
Definition spanTransactions (h : Heap) (this : AnalyticsEngine.t) (startDate days : Z)
    : list Transaction.t :=
  getTransactionsInPeriod Date_parse h this startDate
    (startDate + days * JSDate.msPerDay - 1)%Z.

End Spans.

(** ** Transactions and categories *)

Section Categories.

Variable Date_parse : string -> option Z.

(** Whether the date of a transaction parses. *)
Definition hasValidDate (t : Transaction.t) : bool :=
  match Date_parse (Transaction.date t) with
  | Some _ => true
  | None => false
  end.

(** Whether the date of a transaction parses to the time value [time]. *)
Definition sameDate (time : Z) (t : Transaction.t) : bool :=
  match Date_parse (Transaction.date t) with
  | Some a => (a =? time)%Z
  | None => false
  end.

(** The heap in which the engine's array has lost the transactions whose
    date does not parse. *)
Definition withoutInvalidDates (h : Heap) (this : AnalyticsEngine.t) : Heap :=
  assign h (AnalyticsEngine.transactions this)
    (filter hasValidDate (deref h (AnalyticsEngine.transactions this))).

(** The transactions of the previous period of a comparison query. *)
Definition previousTransactions (h : Heap) (this : AnalyticsEngine.t)
    (timePeriod : TimePeriod) (now : Z) : list Transaction.t :=
  getTransactionsInPeriod Date_parse h this
    (fst (previousWindow timePeriod now)) (snd (previousWindow timePeriod now)).

End Categories.

(** The heap in which the engine's array holds only the transactions that
    [keep] accepts, in their order. *)
Definition keeping (keep : Transaction.t -> bool) (h : Heap) (this : AnalyticsEngine.t)
    : Heap :=
  assign h (AnalyticsEngine.transactions this)
    (filter keep (deref h (AnalyticsEngine.transactions this))).

(** The expenses of a list in one category, and what they add up to. *)
Definition categoryExpenses (transactions : list Transaction.t) (category : string)
    : list Transaction.t :=
  filter (fun t => String.eqb (Transaction.category t) category)
    (filter (hasType Expense) transactions).

Definition categoryTotal (transactions : list Transaction.t) (category : string) : Q :=
  Qsum (map absAmount (categoryExpenses transactions category)).

(** The entry [getCategoryComparison] makes for a category, from the
    expenses of the current and of the previous month. *)
Definition categoryEntry (current previous : list Transaction.t) (category : string)
    : CategoryChange.t :=
  let currentAmount := sumAbsAmount (categoryExpenses current category) in
  let previousAmount := sumAbsAmount (categoryExpenses previous category) in
  CategoryChange.mk category currentAmount previousAmount
    (categoryChange currentAmount previousAmount).

(** A transaction with its amount changed by [f], and the heap in which
    every transaction of the engine's array has been changed so. *)
Definition mapAmount (f : Q -> Q) (t : Transaction.t) : Transaction.t :=
  Transaction.mk (Transaction.id t) (f (Transaction.amount t)) (Transaction.category t)
    (Transaction.description t) (Transaction.date t) (Transaction.type t)
    (Transaction.source t).

Definition withAmounts (f : Q -> Q) (h : Heap) (this : AnalyticsEngine.t) : Heap :=
  assign h (AnalyticsEngine.transactions this)
    (map (mapAmount f) (deref h (AnalyticsEngine.transactions this))).

(** ** The components that read the engine *)

(** [array.slice(-n)]: the last [n] elements, all of them when there are
    fewer. *)
Definition Array_slice_last {A : Type} (n : nat) (array : list A) : list A :=
  skipn (List.length array - n) array.

(** [array.map((x, index) => f x index)] *)
Fixpoint Array_mapi_from {A B : Type} (f : A -> Z -> B) (index : Z) (array : list A)
    : list B :=
  match array with
  | [] => []
  | x :: rest => f x index :: Array_mapi_from f (index + 1)%Z rest
  end.

Definition Array_mapi {A B : Type} (f : A -> Z -> B) (array : list A) : list B :=
  Array_mapi_from f 0%Z array.

(** The template literal [hsl(${hue}, 70%, 60%)]. *)
Definition hsl (hue : Z) : string :=
  ("hsl(" ++ JSDate.decimal hue ++ ", 70%, 60%)")%string.

(** The slice of a pie chart. *)
Module Slice.
Record t := mk {
  name : string;
  value : Q;
  amount : Q;
  color : string
}.
End Slice.

(** [Dashboard.tsx]: what the component computes from the engine's results
    before it renders. *)
Module Dashboard.

Definition trends (Date_parse : string -> option Z) (h : Heap)
    (analytics : AnalyticsEngine.t) (now : Z) : list TrendPoint.t :=
  Array_slice_last 3 (getSpendingTrends Date_parse h analytics now).

Definition getPeriodSavingsTarget (timePeriod : TimePeriod) (savingsTarget : Q) : Q :=
  match timePeriod with
  | weekly => savingsTarget / (433 # 100)
  | monthly => savingsTarget
  | half_yearly => savingsTarget * 6
  | yearly => savingsTarget * 12
  end.

Definition totalBalance (transactions : list Transaction.t) : Q :=
  let totalIncome := sumAbsAmount (filter (hasType Income) transactions) in
  let totalExpensesAll := sumAbsAmount (filter (hasType Expense) transactions) in
  totalIncome - totalExpensesAll.

Definition currentSavings (periodData : TimeBasedAnalytics.t) : Q :=
  Qmax 0 (TimeBasedAnalytics.netAmount periodData).

Definition savingsProgress (periodData : TimeBasedAnalytics.t) (timePeriod : TimePeriod)
    (savingsTarget : Q) : Q :=
  let currentSavings := currentSavings periodData in
  let periodSavingsTarget := getPeriodSavingsTarget timePeriod savingsTarget in
  if Qltb 0 periodSavingsTarget then (currentSavings / periodSavingsTarget) * 100 else 0.

Definition spendingCategories (periodData : TimeBasedAnalytics.t) : list Slice.t :=
  Array_mapi
    (fun cat index =>
       Slice.mk (CategorySummary.category cat) (CategorySummary.percentage cat)
         (CategorySummary.amount cat) (hsl (index * 60)))
    (TimeBasedAnalytics.topCategories periodData).

End Dashboard.

(** [AnalyticsDashboard.tsx] *)
Module CategorySlice.
Record t := mk {
  name : string;
  value : Q;
  percentage : Q;
  color : string
}.
End CategorySlice.

Module TrendDatum.
Record t := mk {
  month : string;
  income : Q;
  expenses : Q;
  savings : Q;
  net : Q
}.
End TrendDatum.

Module CategoryTrend.
Record t := mk {
  category : string;
  current : Q;
  previous : Q;
  change : Q
}.
End CategoryTrend.

Module AnalyticsDashboard.

Definition spendingCategories (periodData : TimeBasedAnalytics.t)
    : list CategorySlice.t :=
  Array_mapi
    (fun cat index =>
       CategorySlice.mk (CategorySummary.category cat) (CategorySummary.amount cat)
         (CategorySummary.percentage cat) (hsl (index * 45)))
    (TimeBasedAnalytics.topCategories periodData).

Definition trendData (trends : list TrendPoint.t) : list TrendDatum.t :=
  map
    (fun trend =>
       TrendDatum.mk (TrendPoint.month trend) (TrendPoint.income trend)
         (TrendPoint.expenses trend) (TrendPoint.savings trend)
         (TrendPoint.income trend - TrendPoint.expenses trend))
    trends.

Definition categoryTrendData (categoryComparison : list CategoryChange.t)
    : list CategoryTrend.t :=
  map
    (fun cat =>
       CategoryTrend.mk (CategoryChange.category cat) (CategoryChange.currentMonth cat)
         (CategoryChange.previousMonth cat) (CategoryChange.change cat))
    (firstn 8 categoryComparison).

(** The width, in percent, of the bar under the savings rate:
    [Math.min(periodData.savingsRate, 100)]. *)
Definition savingsBarWidth (periodData : TimeBasedAnalytics.t) : Q :=
  Qmin (TimeBasedAnalytics.savingsRate periodData) 100.

End AnalyticsDashboard.

(** [AIInsights.tsx] *)
Module Insight.
Inductive kind := warning | alert | positive | suggestion.
Record t := mk {
  type : kind;
  message : string;
  detail : string;
  action : string;
  category : string
}.
End Insight.

Module AIInsights.
Section AIInsights.

(** [formatAmount] of the settings context and [String.prototype.toLowerCase]. *)
Variable formatAmount : Q -> string.
Variable toLowerCase : string -> string.

Definition generateInsights (categoryComparison : list CategoryChange.t)
    (periodData : TimeBasedAnalytics.t) : list Insight.t :=
  let insights : list Insight.t := [] in
  (* Spending increase insights *)
  let highSpendingCategories :=
    Array_sort (fun a b => CategoryChange.change b - CategoryChange.change a)
      (filter (fun cat => Qltb 20 (CategoryChange.change cat)) categoryComparison) in
  let insights :=
    match highSpendingCategories with
    | topCategory :: _ =>
        insights ++ [
          Insight.mk Insight.warning
            ("You spent " ++ toFixed1 (CategoryChange.change topCategory) ++ "% more on "
               ++ CategoryChange.category topCategory ++ " this month")%string
            ("That's "
               ++ formatAmount (CategoryChange.currentMonth topCategory
                                - CategoryChange.previousMonth topCategory)
               ++ " more than last month.")%string
            "Set Budget Reminder"
            (CategoryChange.category topCategory) ]
    | [] => insights
    end in
  (* Savings rate insights *)
  let insights :=
    if Qltb (TimeBasedAnalytics.savingsRate periodData) 10 then
      insights ++ [
        Insight.mk Insight.alert
          ("Your savings rate is only "
             ++ toFixed1 (TimeBasedAnalytics.savingsRate periodData) ++ "%")%string
          "Financial experts recommend saving at least 20% of your income."
          "Review Expenses"
          "Savings" ]
    else if Qltb 30 (TimeBasedAnalytics.savingsRate periodData) then
      insights ++ [
        Insight.mk Insight.positive
          ("Excellent savings rate of "
             ++ toFixed1 (TimeBasedAnalytics.savingsRate periodData) ++ "%! 🎉")%string
          ("You're saving " ++ formatAmount (TimeBasedAnalytics.netAmount periodData)
             ++ " this period.")%string
          "Investment Tips"
          "Savings" ]
    else insights in
  (* Category optimization insights *)
  let insights :=
    match TimeBasedAnalytics.topCategories periodData with
    | topExpenseCategory :: _ =>
        if Qltb 40 (CategorySummary.percentage topExpenseCategory) then
          insights ++ [
            Insight.mk Insight.suggestion
              (CategorySummary.category topExpenseCategory ++ " takes up "
                 ++ toFixed1 (CategorySummary.percentage topExpenseCategory)
                 ++ "% of your expenses")%string
              ("Consider ways to optimize your "
                 ++ toLowerCase (CategorySummary.category topExpenseCategory)
                 ++ " spending.")%string
              "Get Suggestions"
              (CategorySummary.category topExpenseCategory) ]
        else insights
    | [] => insights
    end in
  if (0 <? List.length insights)%nat then insights
  else [
    Insight.mk Insight.positive
      "Your spending patterns look balanced! 💚"
      "Keep up the good financial habits."
      "View Analytics"
      "General" ].

End AIInsights.
End AIInsights.

(** The kinds of the insights that the rules of [generateInsights] give, in
    the order of the rules: a warning when the spending of a category rose
    by more than 20 percent, an alert under a savings rate of 10 percent or
    praise over 30 percent, a suggestion when the first top category has
    more than 40 percent of the expenses. *)
Definition insightKinds (categoryComparison : list CategoryChange.t)
    (periodData : TimeBasedAnalytics.t) : list Insight.kind :=
  (if existsb (fun cat => Qltb 20 (CategoryChange.change cat)) categoryComparison
   then [Insight.warning] else [])
  ++ (if Qltb (TimeBasedAnalytics.savingsRate periodData) 10 then [Insight.alert]
      else if Qltb 30 (TimeBasedAnalytics.savingsRate periodData) then [Insight.positive]
      else [])
  ++ match TimeBasedAnalytics.topCategories periodData with
     | topExpenseCategory :: _ =>
         if Qltb 40 (CategorySummary.percentage topExpenseCategory)
         then [Insight.suggestion] else []
     | [] => []
     end.



(** [TransactionContext.tsx]: the store of the transactions.  Each
    operation is the function it passes to [setTransactions], from the
    previous array to the next one. *)
Module TransactionContext.

(** [{ ...transaction, id }] *)
Definition withId (id : string) (transaction : Transaction.t) : Transaction.t :=
  Transaction.mk id (Transaction.amount transaction) (Transaction.category transaction)
    (Transaction.description transaction) (Transaction.date transaction)
    (Transaction.type transaction) (Transaction.source transaction).

(** [now] is what [Date.now()] returns. *)
Definition addTransaction (now : Z) (transaction : Transaction.t)
    (prev : list Transaction.t) : list Transaction.t :=
  let newTransaction := withId (JSDate.decimal now) transaction in
  newTransaction :: prev.

(** [Date.now()] is read again for each element: [clock index] is what it
    returns for the element at [index]. *)
Definition addTransactions (Date_parse : string -> option Z) (clock : Z -> Z)
    (newTransactions : list Transaction.t) (prev : list Transaction.t)
    : list Transaction.t :=
  let transactionsWithIds :=
    Array_mapi
      (fun transaction index =>
         withId (JSDate.decimal (clock index) ++ "-" ++ JSDate.decimal index)%string
           transaction)
      newTransactions in
  let combined := transactionsWithIds in
  Array_sort (compareByDateDesc Date_parse) combined.

Definition updateTransaction (id : string) (updatedTransaction : Transaction.t)
    (prev : list Transaction.t) : list Transaction.t :=
  map
    (fun transaction =>
       if String.eqb (Transaction.id transaction) id
       then withId id updatedTransaction
       else transaction)
    prev.

Definition deleteTransaction (id : string) (prev : list Transaction.t)
    : list Transaction.t :=
  filter (fun transaction => negb (String.eqb (Transaction.id transaction) id)) prev.

Definition clearAllTransactions (prev : list Transaction.t) : list Transaction.t := [].

End TransactionContext.

(** A transaction without its id. *)
Definition withoutId (t : Transaction.t) : Transaction.t :=
  TransactionContext.withId "" t.

(** ** The period summaries on doubles *)

(** [calculatePeriodAnalytics] and the four period queries once more, on the
    numbers the code computes with: a JavaScript [number] is an IEEE 754
    binary64 number, here Rocq's primitive [float], with the same addition,
    subtraction, multiplication and division (round to nearest, ties to
    even), [NaN] and the infinities.  Times and day counts are integers far
    below 2^53, on which doubles are exact: the windows are computed as in
    the engine above. *)
Module Binary64.

(** The exact value of a finite double; [None] for [NaN] and the
    infinities. *)
Definition toQ (x : float) : option Q :=
  match Prim2SF x with
  | S754_zero _ => Some 0
  | S754_finite sign m e =>
      let n := if sign then Z.neg m else Z.pos m in
      Some (if (0 <=? e)%Z then inject_Z (n * 2 ^ e) else n # (2 ^ Z.to_pos (- e)))
  | S754_infinity _ | S754_nan => None
  end.


(** [Number.isFinite] *)
Definition isFinite (x : float) : bool :=
  match toQ x with
  | Some _ => true
  | None => false
  end.

(** The double of an integer below 2^53 in absolute value, which is exact. *)
Definition ofZ (z : Z) : float :=
  if (z <? 0)%Z then PrimFloat.opp (PrimFloat.of_uint63 (Uint63.of_Z (- z)))
  else PrimFloat.of_uint63 (Uint63.of_Z z).

(** [Math.ceil], for doubles below 2^53 in absolute value; the result has
    the sign of the argument. *)
Definition Math_ceil (x : float) : float :=
  match toQ x with
  | Some q =>
      if PrimFloat.get_sign x then PrimFloat.opp (ofZ (- Qceiling q)) else ofZ (Qceiling q)
  | None => x
  end.

Local Open Scope float_scope.

Module Transaction.
Record t := mk {
  id : string;
  amount : float;
  category : string;
  description : string;
  date : string;
  type : TransactionType;
  source : option string
}.
End Transaction.

Module CategorySummary.
Record t := mk {
  category : string;
  amount : float;
  count : Z;
  percentage : float
}.
End CategorySummary.

Module TimeBasedAnalytics.
Record t := mk {
  period : string;
  totalIncome : float;
  totalExpenses : float;
  netAmount : float;
  transactionCount : nat;
  topCategories : list CategorySummary.t;
  averageDaily : float;
  savingsRate : float
}.
End TimeBasedAnalytics.

Module CategoryData.
Record t := mk {
  amount : float;
  count : Z
}.
End CategoryData.

(** [array.sort(compare)] as above; a comparison with [NaN] is false, so a
    [NaN] result of [compare] leaves the two elements in their order. *)
Fixpoint Array_insert {A : Type} (compare : A -> A -> float) (a : A) (sorted : list A)
    : list A :=
  match sorted with
  | [] => [a]
  | b :: rest =>
      if 0 <? compare a b then b :: Array_insert compare a rest
      else a :: b :: rest
  end.

Definition Array_sort {A : Type} (compare : A -> A -> float) (array : list A) : list A :=
  fold_right (Array_insert compare) [] array.

Section Engine.

Variable Date_parse : string -> option Z.

(** [this.transactions], after the constructor. *)
Variable transactions : list Transaction.t.

Definition getTransactionsInPeriod (startDate endDate : Z) : list Transaction.t :=
  filter
    (fun transaction =>
       match Date_parse (Transaction.date transaction) with
       | Some transactionDate =>
           (startDate <=? transactionDate)%Z && (transactionDate <=? endDate)%Z
       | None => false
       end)
    transactions.

Definition hasType (ty : TransactionType) (t : Transaction.t) : bool :=
  TransactionType_eqb (Transaction.type t) ty.

Definition sumAbsAmount (transactions : list Transaction.t) : float :=
  fold_left (fun sum t => sum + abs (Transaction.amount t)) transactions 0.

Definition tally (categoryMap : list (string * CategoryData.t)) (t : Transaction.t)
    : list (string * CategoryData.t) :=
  let existing :=
    match Map_get categoryMap (Transaction.category t) with
    | Some data => data
    | None => CategoryData.mk 0 0
    end in
  Map_set categoryMap (Transaction.category t)
    (CategoryData.mk
       (CategoryData.amount existing + abs (Transaction.amount t))
       (CategoryData.count existing + 1)).

Definition toSummary (expenses : float) (entry : string * CategoryData.t)
    : CategorySummary.t :=
  let (category, data) := entry in
  CategorySummary.mk category
    (CategoryData.amount data)
    (CategoryData.count data)
    (if 0 <? expenses then (CategoryData.amount data / expenses) * 100 else 0).

Definition calculatePeriodAnalytics (transactions : list Transaction.t)
    (periodName : string) (days : float) : TimeBasedAnalytics.t :=
  let income := sumAbsAmount (filter (hasType Income) transactions) in
  let expenses := sumAbsAmount (filter (hasType Expense) transactions) in
  let netAmount := income - expenses in
  let savingsRate := if 0 <? income then (netAmount / income) * 100 else 0 in
  let averageDaily := expenses / days in
  let categoryMap := fold_left tally (filter (hasType Expense) transactions) [] in
  let topCategories :=
    firstn 5
      (Array_sort
         (fun a b => CategorySummary.amount b - CategorySummary.amount a)
         (map (toSummary expenses) categoryMap)) in
  TimeBasedAnalytics.mk periodName income expenses netAmount
    (List.length transactions) topCategories averageDaily savingsRate.

Definition getWeeklyAnalytics (now : Z) : TimeBasedAnalytics.t :=
  let startOfWeek := now in
  let startOfWeek :=
    JSDate.setDate startOfWeek (JSDate.getDate now - JSDate.getDay now)%Z in
  let startOfWeek := JSDate.setHours startOfWeek 0 0 0 0 in
  let endOfWeek := startOfWeek in
  let endOfWeek := JSDate.setDate endOfWeek (JSDate.getDate startOfWeek + 6)%Z in
  let endOfWeek := JSDate.setHours endOfWeek 23 59 59 999 in
  let weeklyTransactions := getTransactionsInPeriod startOfWeek endOfWeek in
  calculatePeriodAnalytics weeklyTransactions "This Week" 7.

Definition getMonthlyAnalytics (now : Z) : TimeBasedAnalytics.t :=
  let startOfMonth := JSDate.ofYMD (JSDate.getFullYear now) (JSDate.getMonth now) 1 in
  let endOfMonth := JSDate.ofYMD (JSDate.getFullYear now) (JSDate.getMonth now + 1)%Z 0 in
  let endOfMonth := JSDate.setHours endOfMonth 23 59 59 999 in
  let monthlyTransactions := getTransactionsInPeriod startOfMonth endOfMonth in
  let daysInMonth := JSDate.getDate endOfMonth in
  calculatePeriodAnalytics monthlyTransactions "This Month" (ofZ daysInMonth).

Definition getHalfYearlyAnalytics (now : Z) : TimeBasedAnalytics.t :=
  let startOfHalfYear :=
    JSDate.ofYMD (JSDate.getFullYear now) (JSDate.getMonth now / 6 * 6)%Z 1 in
  let endOfHalfYear :=
    JSDate.ofYMD (JSDate.getFullYear now) (JSDate.getMonth now / 6 * 6 + 6)%Z 0 in
  let endOfHalfYear := JSDate.setHours endOfHalfYear 23 59 59 999 in
  let halfYearlyTransactions := getTransactionsInPeriod startOfHalfYear endOfHalfYear in
  let days :=
    Math_ceil (ofZ (endOfHalfYear - startOfHalfYear) / ofZ (1000 * 60 * 60 * 24)) in
  calculatePeriodAnalytics halfYearlyTransactions "This Half Year" days.

Definition getAnnualAnalytics (now : Z) : TimeBasedAnalytics.t :=
  let startOfYear := JSDate.ofYMD (JSDate.getFullYear now) 0 1 in
  let endOfYear := JSDate.ofYMD (JSDate.getFullYear now) 11 31 in
  let endOfYear := JSDate.setHours endOfYear 23 59 59 999 in
  let annualTransactions := getTransactionsInPeriod startOfYear endOfYear in
  let isLeapYear := (Z.rem (JSDate.getFullYear now) 4 =? 0)%Z in
  let daysInYear := if isLeapYear then 366 else 365 in
  calculatePeriodAnalytics annualTransactions "This Year" daysInYear.

(** The summary a component asks for, by the period that is selected. *)
Definition periodData (now : Z) (timePeriod : TimePeriod) : TimeBasedAnalytics.t :=
  match timePeriod with
  | weekly => getWeeklyAnalytics now
  | monthly => getMonthlyAnalytics now
  | half_yearly => getHalfYearlyAnalytics now
  | yearly => getAnnualAnalytics now
  end.

End Engine.

(** A transaction as the form stores it, with a double for its amount. *)
Definition tx (id : string) (amount : float) (category : string) (date : string)
    (type : TransactionType) : Transaction.t :=
  Transaction.mk id
    (match type with Income => amount | Expense => - amount end)
    category "" date type None.

End Binary64.

(** ** More concrete runs *)

(** Six categories of expenses in the current month. *)
Definition six_categories : list Transaction.t :=
  [ tx "1" 5000 "Salary" "2024-03-01" Income;
    tx "2" 1500 "Rent" "2024-03-02" Expense;
    tx "3" 600 "Food" "2024-03-03" Expense;
    tx "4" 500 "Transport" "2024-03-04" Expense;
    tx "5" 400 "Bills" "2024-03-05" Expense;
    tx "6" 300 "Shopping" "2024-03-06" Expense;
    tx "7" 100 "Other" "2024-03-07" Expense ].

(** Two transactions of the same day around a later one. *)
Definition same_day : list Transaction.t :=
  [ tx "1" 2000 "Food" "2024-03-05" Expense;
    tx "2" 5000 "Salary" "2024-03-10" Income;
    tx "3" 300 "Bills" "2024-03-05" Expense ].

(** Food spending that rose by half since last month. *)
Definition rising : list Transaction.t :=
  [ tx "1" 150 "Food" "2024-03-05" Expense;
    tx "2" 100 "Food" "2024-02-05" Expense ].

(** Two expenses, of 2 and of 9, in the week of [mid_march_2024]. *)
Definition two_expenses : list Binary64.Transaction.t :=
  [ Binary64.tx "1" 2 "Food" "2024-03-12" Expense;
    Binary64.tx "2" 9 "Rent" "2024-03-12" Expense ].

(** Amounts near the largest double, about 1.8e308. *)
Definition huge_amounts : list Binary64.Transaction.t :=
  [ Binary64.tx "1" 1e308 "Salary" "2024-03-11" Income;
    Binary64.tx "2" 1e308 "Bonus" "2024-03-12" Income;
    Binary64.tx "3" 1e308 "Rent" "2024-03-11" Expense;
    Binary64.tx "4" 1e308 "Rent" "2024-03-12" Expense ].

(** The transactions of [sample], with doubles for amounts. *)
Definition sample_in_doubles : list Binary64.Transaction.t :=
  [ Binary64.tx "1" 5000 "Salary" "2024-03-01" Income;
    Binary64.tx "2" 2000 "Food" "2024-03-05" Expense ].

(** ** Tactics *)

(** Case analysis on the integer tests of a goal. *)
Ltac zbool :=
  repeat match goal with
  | |- context [ (?a =? ?b) ] => destruct (Z.eqb_spec a b)
  | |- context [ (?a <? ?b) ] => destruct (Z.ltb_spec a b)
  | |- context [ (?a <=? ?b) ] => destruct (Z.leb_spec a b)
  end; simpl negb; simpl andb; cbv iota.

(** The twelve cases of a month index [m] known to lie in 0..11. *)
Ltac month_cases m :=
  let C := fresh "C" in
  assert (m = 0 \/ m = 1 \/ m = 2 \/ m = 3 \/ m = 4 \/ m = 5 \/ m = 6
          \/ m = 7 \/ m = 8 \/ m = 9 \/ m = 10 \/ m = 11)%Z as C by lia;
  repeat (destruct C as [C | C]); subst m.

(** Linear arithmetic with divisions and remainders by constants. *)
Ltac divlia := Z.div_mod_to_equations; lia.


(** * Properties

    The period summaries, the growth percentages, the bands of the Expense
    Balance factor and the trend series are as the specification describes
    them.  Five points are not: on the empty engine the sub-scores of the
    health score are 0, 100, 50 and 100, not 0 for all but Expense Balance;
    the Savings Rate sub-score has no lower bound; the constructor sorts
    the caller's array in place; the percentages of the top categories are
    rounded, and their sum can exceed 100; and a sum of amounts can
    overflow, which leaves the rates of a summary infinite or [NaN]. *)

(** ** The calendar *)

Module JSDateFacts.
Import JSDate.
Local Open Scope Z_scope.

Lemma DaysInYear_cases y : DaysInYear y = 365 \/ DaysInYear y = 366.
Proof. unfold DaysInYear. zbool; auto. Qed.

Lemma DayFromYear_succ y : DayFromYear (y + 1) = DayFromYear y + DaysInYear y.
Proof. unfold DayFromYear, DaysInYear. zbool; divlia. Qed.

Lemma DayFromYear_lt y1 y2 : y1 < y2 -> DayFromYear y1 < DayFromYear y2.
Proof. unfold DayFromYear. intros. divlia. Qed.

Lemma DayFromYear_le y1 y2 : y1 <= y2 -> DayFromYear y1 <= DayFromYear y2.
Proof.
  intros H. destruct (Z.eq_dec y1 y2) as [-> | N]; [ lia | ].
  apply Z.lt_le_incl, DayFromYear_lt. lia.
Qed.

(** The year computed for day [d] starts at or before [d], and the next
    year after it. *)
Lemma YearFromDay_spec d :
  DayFromYear (YearFromDay d) <= d < DayFromYear (YearFromDay d + 1).
Proof. unfold YearFromDay. cbv zeta. zbool; unfold DayFromYear in *; divlia. Qed.

Lemma YearFromDay_unique y d :
  DayFromYear y <= d < DayFromYear (y + 1) -> YearFromDay d = y.
Proof.
  intros H. pose proof (YearFromDay_spec d) as S.
  destruct (Z.lt_trichotomy (YearFromDay d) y) as [L | [E | G]]; [ | exact E | ].
  - pose proof (DayFromYear_le (YearFromDay d + 1) y). lia.
  - pose proof (DayFromYear_le (y + 1) (YearFromDay d)). lia.
Qed.

(** [YearFromTime t] is the largest year that starts at or before [t]. *)
Lemma YearFromTime_largest t :
  TimeFromYear (YearFromTime t) <= t
  /\ (forall y, TimeFromYear y <= t -> y <= YearFromTime t).
Proof.
  pose proof (YearFromDay_spec (Day t)) as [Hlo Hhi].
  unfold TimeFromYear, YearFromTime. split.
  - unfold Day, msPerDay in *. divlia.
  - intros y Hy.
    destruct (Z_lt_le_dec (YearFromDay (Day t)) y) as [L | L]; [ | exact L ].
    exfalso. pose proof (DayFromYear_le (YearFromDay (Day t) + 1) y).
    unfold Day, msPerDay in *. divlia.
Qed.

Lemma YearFromTime_epoch t : 0 <= t -> 1970 <= YearFromTime t.
Proof.
  intros H. apply (proj2 (YearFromTime_largest t)). exact H.
Qed.

Lemma DayWithinYear_range t :
  0 <= DayWithinYear t < DaysInYear (YearFromTime t).
Proof.
  unfold DayWithinYear, YearFromTime.
  pose proof (YearFromDay_spec (Day t)) as S. rewrite DayFromYear_succ in S. lia.
Qed.

Lemma MonthFromTime_range t : 0 <= MonthFromTime t <= 11.
Proof. unfold MonthFromTime. cbv zeta. zbool; lia. Qed.

Lemma DateFromTime_range t : 1 <= DateFromTime t <= 31.
Proof.
  pose proof (DayWithinYear_range t) as R.
  unfold DateFromTime, MonthFromTime, InLeapYear in *. cbv zeta.
  destruct (DaysInYear_cases (YearFromTime t)) as [E | E];
    rewrite E in *; simpl (_ =? _) in *; cbv iota;
    zbool; simpl MonthStartDay; lia.
Qed.

Lemma Day_MakeDate day time :
  0 <= time < msPerDay -> Day (MakeDate day time) = day.
Proof. unfold Day, MakeDate, msPerDay. intros. divlia. Qed.

Lemma TimeWithinDay_MakeDate day time :
  0 <= time < msPerDay -> TimeWithinDay (MakeDate day time) = time.
Proof. unfold TimeWithinDay, MakeDate, msPerDay. intros. divlia. Qed.

Lemma MakeDay_unfold y m d :
  MakeDay y m d
  = DayFromYear (y + m / 12) + MonthStartDay (m mod 12) (leapDays (y + m / 12)) + d - 1.
Proof. reflexivity. Qed.

Lemma MakeDay_date y m d k : MakeDay y m (d + k) = MakeDay y m d + k.
Proof. rewrite !MakeDay_unfold. lia. Qed.

Lemma MonthStartDay_range m y :
  0 <= m <= 11 -> 0 <= MonthStartDay m (leapDays y) < DaysInYear y.
Proof.
  intros Hm. unfold leapDays.
  destruct (DaysInYear_cases y) as [E | E]; rewrite E; simpl (_ =? _); cbv iota;
    month_cases m; simpl; lia.
Qed.

(** The fields of the first day of a month. *)
Lemma fields_first_of_month y m time :
  0 <= time < msPerDay ->
  let t := MakeDate (MakeDay y m 1) time in
  YearFromTime t = y + m / 12 /\ MonthFromTime t = m mod 12 /\ DateFromTime t = 1.
Proof.
  intros Ht t.
  assert (Hd : Day t = MakeDay y m 1) by (apply Day_MakeDate; exact Ht).
  assert (Hm : 0 <= m mod 12 <= 11) by (pose proof (Z.mod_pos_bound m 12); lia).
  pose proof (MonthStartDay_range (m mod 12) (y + m / 12) Hm) as R.
  assert (Hy : YearFromTime t = y + m / 12).
  { unfold YearFromTime. apply YearFromDay_unique.
    rewrite Hd, MakeDay_unfold, DayFromYear_succ. lia. }
  assert (Hw : DayWithinYear t = MonthStartDay (m mod 12) (leapDays (y + m / 12))).
  { unfold DayWithinYear. rewrite Hy, Hd, MakeDay_unfold. lia. }
  assert (Hl : InLeapYear t = leapDays (y + m / 12)).
  { unfold InLeapYear, leapDays. rewrite Hy. reflexivity. }
  assert (Hmo : MonthFromTime t = m mod 12).
  { unfold MonthFromTime. cbv zeta. rewrite Hw, Hl.
    generalize dependent (m mod 12). intros k Hk _ _.
    unfold leapDays.
    destruct (DaysInYear_cases (y + m / 12)) as [E | E]; rewrite E; simpl (_ =? _);
      cbv iota; month_cases k; reflexivity. }
  split; [ exact Hy | split; [ exact Hmo | ] ].
  unfold DateFromTime. rewrite Hmo, Hw, Hl. lia.
Qed.

(** A month has 28 to 31 days. *)
Lemma MakeDay_next_month y m :
  28 <= MakeDay y (m + 1) 1 - MakeDay y m 1 <= 31.
Proof.
  rewrite !MakeDay_unfold.
  assert (Hm : 0 <= m mod 12 <= 11) by (pose proof (Z.mod_pos_bound m 12); lia).
  destruct (Z.eq_dec (m mod 12) 11) as [E | N].
  - assert ((m + 1) / 12 = m / 12 + 1) as -> by divlia.
    assert ((m + 1) mod 12 = 0) as -> by divlia.
    rewrite E, Z.add_assoc, DayFromYear_succ. unfold leapDays.
    destruct (DaysInYear_cases (y + m / 12)) as [D | D]; rewrite D; simpl; lia.
  - assert ((m + 1) / 12 = m / 12) as -> by divlia.
    assert ((m + 1) mod 12 = m mod 12 + 1) as -> by divlia.
    generalize dependent (m mod 12). intros k Hk Hn.
    unfold leapDays.
    destruct (DaysInYear_cases (y + m / 12)) as [D | D]; rewrite D; simpl (_ =? _);
      cbv iota; month_cases k; simpl; lia.
Qed.

(** The day number of a date, from its own fields. *)
Lemma MakeDay_fields t k :
  MakeDay (YearFromTime t) (MonthFromTime t) (DateFromTime t + k) = Day t + k.
Proof.
  pose proof (MonthFromTime_range t) as R.
  rewrite MakeDay_unfold.
  assert (MonthFromTime t / 12 = 0) as -> by divlia.
  assert (MonthFromTime t mod 12 = MonthFromTime t) as -> by divlia.
  rewrite Z.add_0_r. unfold DateFromTime, DayWithinYear, InLeapYear, leapDays. lia.
Qed.

End JSDateFacts.

(** ** Sums, sorting and the category map *)

Lemma Qltb_lt x y : Qltb x y = true <-> x < y.
Proof. unfold Qltb, Qlt. apply Z.ltb_lt. Qed.

Lemma Qltb_ge x y : Qltb x y = false <-> y <= x.
Proof. unfold Qltb, Qle. rewrite Z.ltb_ge. reflexivity. Qed.

Lemma Qltb_spec x y : reflect (x < y) (Qltb x y).
Proof.
  destruct (Qltb x y) eqn:E; constructor.
  - apply Qltb_lt; exact E.
  - apply Qltb_ge in E. apply Qle_not_lt. exact E.
Qed.

Lemma Qsum_cons x l : Qsum (x :: l) = x + Qsum l.
Proof. reflexivity. Qed.

Lemma sumAbsAmount_acc l : forall a,
  fold_left (fun sum t => sum + Qabs (Transaction.amount t)) l a == a + Qsum (map absAmount l).
Proof.
  induction l as [| t l IH]; intros a; cbn [fold_left map].
  - change (Qsum []) with 0. ring.
  - rewrite IH, Qsum_cons. unfold absAmount. ring.
Qed.

Lemma sumAbsAmount_Qsum l : sumAbsAmount l == Qsum (map absAmount l).
Proof. unfold sumAbsAmount. rewrite sumAbsAmount_acc. ring. Qed.

Lemma Qsum_absAmount_nonneg l : 0 <= Qsum (map absAmount l).
Proof.
  induction l as [| t l IH]; cbn [map]; [ apply Qle_refl | ].
  rewrite Qsum_cons. pose proof (Qabs_nonneg (Transaction.amount t)) as H.
  fold (absAmount t) in H. lra.
Qed.

Lemma sumAbsAmount_nonneg l : 0 <= sumAbsAmount l.
Proof. rewrite sumAbsAmount_Qsum. apply Qsum_absAmount_nonneg. Qed.

(** Sorting *)
Section Sorting.
Context {A : Type}.
Variable compare : A -> A -> Q.

Lemma Array_insert_perm a l : Permutation (Array_insert compare a l) (a :: l).
Proof.
  induction l as [| b l IH]; cbn [Array_insert]; [ reflexivity | ].
  destruct (Qltb 0 (compare a b)); [ | reflexivity ].
  rewrite IH. apply perm_swap.
Qed.

Lemma Array_sort_perm l : Permutation (Array_sort compare l) l.
Proof.
  induction l as [| a l IH]; cbn [Array_sort fold_right]; [ reflexivity | ].
  fold (Array_sort compare l). rewrite Array_insert_perm. constructor. exact IH.
Qed.
End Sorting.

Section SortingByKey.
Context {A : Type}.
Variable key : A -> Q.

Lemma Array_insert_sorted a l :
  StronglySorted (descending key) l ->
  StronglySorted (descending key) (Array_insert (fun a b => key b - key a) a l).
Proof.
  induction 1 as [| b l Hs IH Hb]; cbn [Array_insert].
  - repeat constructor.
  - destruct (Qltb_spec 0 (key b - key a)) as [L | L].
    + constructor; [ exact IH | ].
      eapply Permutation_Forall; [ symmetry; apply Array_insert_perm | ].
      constructor; [ unfold descending; lra | exact Hb ].
    + assert (key b <= key a) by lra.
      constructor; [ constructor; assumption | ].
      constructor; [ exact H | ].
      eapply Forall_impl; [ | exact Hb ]. unfold descending. intros c Hc. lra.
Qed.

Lemma Array_sort_sorted l :
  StronglySorted (descending key) (Array_sort (fun a b => key b - key a) l).
Proof.
  induction l as [| a l IH]; cbn [Array_sort fold_right]; [ constructor | ].
  apply Array_insert_sorted. exact IH.
Qed.
End SortingByKey.

(** Two comparators with the same sign on a list sort it alike. *)
Lemma Array_insert_ext {A} (cmp cmp' : A -> A -> Q) a l :
  (forall b, In b l -> Qltb 0 (cmp a b) = Qltb 0 (cmp' a b)) ->
  Array_insert cmp a l = Array_insert cmp' a l.
Proof.
  induction l as [| b l IH]; intros H; cbn [Array_insert]; [ reflexivity | ].
  rewrite (H b (or_introl eq_refl)), IH; [ reflexivity | ].
  intros c Hc. apply H. right. exact Hc.
Qed.

Lemma Array_sort_ext {A} (cmp cmp' : A -> A -> Q) l :
  (forall a b, In a l -> In b l -> Qltb 0 (cmp a b) = Qltb 0 (cmp' a b)) ->
  Array_sort cmp l = Array_sort cmp' l.
Proof.
  induction l as [| a l IH]; intros H; cbn [Array_sort fold_right]; [ reflexivity | ].
  fold (Array_sort cmp l). fold (Array_sort cmp' l).
  rewrite IH by (intros x y Hx Hy; apply H; right; assumption).
  apply Array_insert_ext. intros b Hb. apply H; [ left; reflexivity | right ].
  apply (Permutation_in _ (Array_sort_perm cmp' l)). exact Hb.
Qed.


Lemma In_firstn {A} n (l : list A) x : In x (firstn n l) -> In x l.
Proof. intros H. rewrite <- (firstn_skipn n l). apply in_or_app. left. exact H. Qed.

Lemma StronglySorted_firstn {A} (R : A -> A -> Prop) n l :
  StronglySorted R l -> StronglySorted R (firstn n l).
Proof.
  intros H. revert n.
  induction H as [| a l Hs IH Ha]; intros [| n]; cbn [firstn]; try constructor.
  - apply IH.
  - apply Forall_forall. intros x Hx. apply (proj1 (Forall_forall _ _) Ha).
    eapply In_firstn; exact Hx.
Qed.

Lemma Qsum_perm l l' : Permutation l l' -> Qsum l == Qsum l'.
Proof.
  induction 1; rewrite ?Qsum_cons.
  - reflexivity.
  - rewrite IHPermutation. reflexivity.
  - ring.
  - rewrite IHPermutation1. exact IHPermutation2.
Qed.

Lemma Qsum_nonneg l : Forall (fun x => 0 <= x) l -> 0 <= Qsum l.
Proof.
  induction 1; rewrite ?Qsum_cons; [ apply Qle_refl | lra ].
Qed.

Lemma Qsum_firstn_le n l : Forall (fun x => 0 <= x) l -> Qsum (firstn n l) <= Qsum l.
Proof.
  intros H. revert n.
  induction H as [| x l Hx Hl IH]; intros [| n]; cbn [firstn]; rewrite ?Qsum_cons.
  - lra.
  - lra.
  - pose proof (Qsum_nonneg l Hl). change (Qsum []) with 0. lra.
  - specialize (IH n). lra.
Qed.

Lemma Qsum_In_le x l : Forall (fun y => 0 <= y) l -> In x l -> x <= Qsum l.
Proof.
  induction 1 as [| y l Hy Hl IH]; intros Hin; [ contradiction | ].
  rewrite Qsum_cons. pose proof (Qsum_nonneg l Hl). destruct Hin as [-> | Hin]; [ lra | ].
  specialize (IH Hin). lra.
Qed.

Lemma topCategories_unfold txs name days :
  TimeBasedAnalytics.topCategories (calculatePeriodAnalytics txs name days) =
  firstn 5
    (Array_sort (fun a b => CategorySummary.amount b - CategorySummary.amount a)
       (map (toSummary (sumAbsAmount (filter (hasType Expense) txs)))
          (fold_left tally (filter (hasType Expense) txs) []))).
Proof. reflexivity. Qed.

Lemma keys_Map_set {V} (m : list (string * V)) k v :
  map fst (Map_set m k v) = Set_add (map fst m) k.
Proof.
  unfold Set_add.
  induction m as [| [k0 v0] m IH]; cbn [Map_set map fst existsb]; [ reflexivity | ].
  rewrite (String.eqb_sym k k0).
  destruct (String.eqb k0 k) eqn:E; cbn [map fst orb].
  - reflexivity.
  - rewrite IH. destruct (existsb (String.eqb k) (map fst m)); reflexivity.
Qed.

Lemma keys_tally l : forall m,
  map fst (fold_left tally l m) = fold_left Set_add (map Transaction.category l) (map fst m).
Proof.
  induction l as [| t l IH]; intros m; cbn [fold_left map]; [ reflexivity | ].
  rewrite IH. unfold tally. rewrite keys_Map_set. reflexivity.
Qed.

Lemma amounts_Map_set m k a c :
  Qsum (map entryAmount
          (Map_set m k (CategoryData.mk (CategoryData.amount (getOrZero m k) + a) c)))
  == Qsum (map entryAmount m) + a.
Proof.
  unfold getOrZero.
  induction m as [| [k0 v0] m IH]; cbn [Map_set Map_get map].
  - rewrite Qsum_cons. change (Qsum []) with 0. unfold entryAmount; cbn. ring.
  - destruct (String.eqb k0 k) eqn:E; cbn [map]; rewrite !Qsum_cons.
    + unfold entryAmount at 1 3; cbn [snd CategoryData.amount]. ring.
    + rewrite IH. ring.
Qed.

Lemma getOrZero_nonneg m k :
  Forall (fun e => 0 <= entryAmount e) m -> 0 <= CategoryData.amount (getOrZero m k).
Proof.
  unfold getOrZero. induction 1 as [| [k0 v0] m H0 Hm IH]; cbn [Map_get].
  - cbn. apply Qle_refl.
  - destruct (String.eqb k0 k); [ exact H0 | exact IH ].
Qed.

Lemma nonneg_Map_set m k v :
  Forall (fun e => 0 <= entryAmount e) m -> 0 <= CategoryData.amount v ->
  Forall (fun e => 0 <= entryAmount e) (Map_set m k v).
Proof.
  intros Hm Hv. induction Hm as [| [k0 v0] m H0 Hm IH]; cbn [Map_set].
  - constructor; [ exact Hv | constructor ].
  - destruct (String.eqb k0 k); constructor; try assumption.
Qed.

Lemma amounts_tally l : forall m,
  Qsum (map entryAmount (fold_left tally l m))
  == Qsum (map entryAmount m) + Qsum (map absAmount l).
Proof.
  induction l as [| t l IH]; intros m; cbn [fold_left map].
  - change (Qsum []) with 0. ring.
  - rewrite IH, Qsum_cons. unfold tally. fold (getOrZero m (Transaction.category t)).
    rewrite amounts_Map_set. unfold absAmount at 2. ring.
Qed.

Lemma nonneg_tally l : forall m,
  Forall (fun e => 0 <= entryAmount e) m ->
  Forall (fun e => 0 <= entryAmount e) (fold_left tally l m).
Proof.
  induction l as [| t l IH]; intros m Hm; cbn [fold_left]; [ exact Hm | ].
  apply IH. unfold tally. fold (getOrZero m (Transaction.category t)).
  apply nonneg_Map_set; [ exact Hm | ]. cbn [CategoryData.amount].
  pose proof (getOrZero_nonneg m (Transaction.category t) Hm).
  pose proof (Qabs_nonneg (Transaction.amount t)). lra.
Qed.

Lemma In_Set_add s x y : In y (Set_add s x) <-> In y s \/ y = x.
Proof.
  unfold Set_add. destruct (existsb (String.eqb x) s) eqn:E.
  - split; [ auto | ]. intros [H | ->]; [ exact H | ].
    apply existsb_exists in E. destruct E as [z [Hz Ez]].
    apply String.eqb_eq in Ez. subst. exact Hz.
  - rewrite in_app_iff. cbn. intuition.
Qed.

Lemma In_fold_Set_add l : forall s y, In y (fold_left Set_add l s) <-> In y s \/ In y l.
Proof.
  induction l as [| x l IH]; intros s y; cbn [fold_left].
  - cbn. intuition.
  - rewrite IH, In_Set_add. cbn. intuition.
Qed.

Lemma In_Set_from l y : In y (Set_from l) <-> In y l.
Proof. unfold Set_from. rewrite In_fold_Set_add. cbn. intuition. Qed.

Lemma NoDup_Set_add s x : NoDup s -> NoDup (Set_add s x).
Proof.
  intros H. unfold Set_add. destruct (existsb (String.eqb x) s) eqn:E; [ exact H | ].
  apply NoDup_app; [ exact H | repeat constructor; intros [] | ].
  intros y Hy [<- | []].
  assert (existsb (String.eqb x) s = true); [ | congruence ].
  apply existsb_exists. exists x. split; [ exact Hy | apply String.eqb_refl ].
Qed.

Lemma NoDup_Set_from l : NoDup (Set_from l).
Proof.
  unfold Set_from. assert (H : NoDup (@nil string)) by constructor.
  revert H. generalize (@nil string).
  induction l as [| x l IH]; intros s H; cbn [fold_left]; [ exact H | ].
  apply IH, NoDup_Set_add, H.
Qed.

(** ** Period summaries *)

Section PeriodSummaries.

Variable Date_parse : string -> option Z.

Lemma periodData_unfold h this now timePeriod :
  periodData Date_parse h this now timePeriod =
  calculatePeriodAnalytics (windowTransactions Date_parse h this timePeriod now)
    (periodName timePeriod) (periodDays timePeriod now).
Proof.
  destruct timePeriod;
    cbv beta iota zeta delta
      [periodData getWeeklyAnalytics getMonthlyAnalytics getHalfYearlyAnalytics
       getAnnualAnalytics windowTransactions periodWindow periodDays periodName
       fst snd];
    reflexivity.
Qed.


(** The transactions of a window that have one type, read off the engine's
    array by the date and the type of each transaction. *)
Lemma typed_window h this startDate endDate ty :
  filter (hasType ty) (getTransactionsInPeriod Date_parse h this startDate endDate)
  = filter
      (fun t =>
         match Date_parse (Transaction.date t) with
         | Some time => (startDate <=? time)%Z && (time <=? endDate)%Z
         | None => false
         end
         && match Transaction.type t, ty with
            | Income, Income | Expense, Expense => true
            | _, _ => false
            end)
      (deref h (AnalyticsEngine.transactions this)).
Proof.
  unfold getTransactionsInPeriod.
  induction (deref h (AnalyticsEngine.transactions this)) as [| t l IH];
    cbn [filter]; [ reflexivity | ].
  unfold inPeriod at 1.
  destruct (match Date_parse (Transaction.date t) with
            | Some time => (startDate <=? time)%Z && (time <=? endDate)%Z
            | None => false
            end); cbn [filter andb]; [ | exact IH ].
  unfold hasType at 1, TransactionType_eqb.
  destruct (Transaction.type t), ty; rewrite IH; reflexivity.
Qed.

(** C1. Whatever the transactions and the date, each of the four period
    queries returns as [totalIncome] the sum of the absolute amounts of the
    transactions of the engine's array whose date parses to a time in the
    query's window, both ends included, and whose type is income; as
    [totalExpenses] the sum of those whose type is expense; neither is
    negative, and [netAmount] is exactly their difference. *)
Theorem period_totals (h : Heap) (this : AnalyticsEngine.t) (now : Z)
    (timePeriod : TimePeriod) :
  let s := periodData Date_parse h this now timePeriod in
  let startDate := fst (periodWindow timePeriod now) in
  let endDate := snd (periodWindow timePeriod now) in
  let dated (t : Transaction.t) : bool :=
    match Date_parse (Transaction.date t) with
    | Some time => (startDate <=? time)%Z && (time <=? endDate)%Z
    | None => false
    end in
  let income (t : Transaction.t) : bool :=
    match Transaction.type t with Income => true | Expense => false end in
  let expense (t : Transaction.t) : bool :=
    match Transaction.type t with Income => false | Expense => true end in
  let amounts (p : Transaction.t -> bool) : list Q :=
    map (fun t => Qabs (Transaction.amount t))
      (filter (fun t => dated t && p t) (deref h (AnalyticsEngine.transactions this))) in
  TimeBasedAnalytics.totalIncome s == Qsum (amounts income)
  /\ TimeBasedAnalytics.totalExpenses s == Qsum (amounts expense)
  /\ 0 <= TimeBasedAnalytics.totalIncome s
  /\ 0 <= TimeBasedAnalytics.totalExpenses s
  /\ TimeBasedAnalytics.netAmount s
     = TimeBasedAnalytics.totalIncome s - TimeBasedAnalytics.totalExpenses s.
Proof.
  intros s startDate endDate dated income expense amounts.
  subst s. rewrite periodData_unfold.
  unfold windowTransactions. fold startDate endDate.
  generalize (periodName timePeriod) (periodDays timePeriod now). intros name days.
  cbv beta iota zeta delta
    [calculatePeriodAnalytics TimeBasedAnalytics.totalIncome
     TimeBasedAnalytics.totalExpenses TimeBasedAnalytics.netAmount].
  rewrite !typed_window.
  repeat split.
  - apply sumAbsAmount_Qsum.
  - apply sumAbsAmount_Qsum.
  - apply sumAbsAmount_nonneg.
  - apply sumAbsAmount_nonneg.
Qed.

End PeriodSummaries.

(** ** The top categories *)

Lemma toSummary_percentage expenses entry :
  CategorySummary.percentage (toSummary expenses entry) =
  if Qltb 0 expenses then (entryAmount entry / expenses) * 100 else 0.
Proof. destruct entry; reflexivity. Qed.

Lemma toSummary_category expenses entry :
  CategorySummary.category (toSummary expenses entry) = fst entry.
Proof. destruct entry; reflexivity. Qed.


Lemma percentage_range amount expenses :
  0 <= amount -> amount <= expenses ->
  0 <= (if Qltb 0 expenses then (amount / expenses) * 100 else 0) <= 100.
Proof.
  intros H0 H1. destruct (Qltb_spec 0 expenses) as [L | L]; [ | lra ].
  assert (E : expenses * (amount / expenses) == amount) by (apply Qmult_div_r; lra).
  set (x := amount / expenses) in *. nra.
Qed.

Lemma Qsum_percentages expenses (m : list (string * CategoryData.t)) :
  0 < expenses ->
  Qsum (map (fun e => (entryAmount e / expenses) * 100) m)
  == (Qsum (map entryAmount m) / expenses) * 100.
Proof.
  intros L. induction m as [| e m IH]; cbn [map].
  - change (Qsum []) with 0. field. lra.
  - rewrite !Qsum_cons, IH. field. lra.
Qed.

Lemma Qsum_zeros {A} (l : list A) : Qsum (map (fun _ => 0) l) == 0.
Proof.
  induction l as [| a l IH]; cbn [map]; [ reflexivity | ].
  rewrite Qsum_cons, IH. ring.
Qed.

Section TopCategories.

Variable transactions : list Transaction.t.
Variables (name : string) (days : Q).

Lemma categoryMap_nonneg :
  Forall (fun e => 0 <= entryAmount e) (categoryMapOf transactions).
Proof. apply nonneg_tally. constructor. Qed.

Lemma categoryMap_total :
  Qsum (map entryAmount (categoryMapOf transactions)) == expenseTotal transactions.
Proof.
  unfold categoryMapOf, expenseTotal. rewrite amounts_tally, sumAbsAmount_Qsum.
  change (Qsum (map entryAmount [])) with 0. ring.
Qed.

Lemma categoryMap_keys :
  map fst (categoryMapOf transactions) = expenseCategories transactions.
Proof. unfold categoryMapOf. rewrite keys_tally. reflexivity. Qed.

Lemma categoryMap_entry_le e :
  In e (categoryMapOf transactions) ->
  0 <= entryAmount e <= expenseTotal transactions.
Proof.
  intros He. split.
  - exact (proj1 (Forall_forall _ _) categoryMap_nonneg e He).
  - rewrite <- categoryMap_total.
    apply Qsum_In_le; [ | apply in_map; exact He ].
    apply Forall_forall. intros x Hx. apply in_map_iff in Hx.
    destruct Hx as [e' [<- He']].
    exact (proj1 (Forall_forall _ _) categoryMap_nonneg e' He').
Qed.

Lemma top_incl c :
  In c (TimeBasedAnalytics.topCategories
          (calculatePeriodAnalytics transactions name days)) ->
  exists e,
    In e (categoryMapOf transactions) /\ c = toSummary (expenseTotal transactions) e.
Proof.
  intros H. rewrite topCategories_unfold in H.
  apply In_firstn in H.
  apply (Permutation_in _ (Array_sort_perm _ _)) in H.
  apply in_map_iff in H. destruct H as [e [<- He]].
  exists e. split; [ exact He | reflexivity ].
Qed.

Lemma summaries_percentages_nonneg :
  Forall (fun x => 0 <= x)
    (map CategorySummary.percentage (summariesOf transactions)).
Proof.
  apply Forall_forall. intros x Hx. apply in_map_iff in Hx. destruct Hx as [c [<- Hc]].
  apply in_map_iff in Hc. destruct Hc as [e [<- He]].
  rewrite toSummary_percentage.
  destruct (categoryMap_entry_le e He) as [H0 H1].
  apply (percentage_range _ _ H0 H1).
Qed.

Lemma summaries_percentages_total :
  Qsum (map CategorySummary.percentage (summariesOf transactions))
  == if Qltb 0 (expenseTotal transactions) then 100 else 0.
Proof.
  unfold summariesOf. rewrite map_map.
  destruct (Qltb_spec 0 (expenseTotal transactions)) as [L | L].
  - rewrite (map_ext _ (fun e => (entryAmount e / expenseTotal transactions) * 100)).
    + rewrite Qsum_percentages by exact L. rewrite categoryMap_total. field. lra.
    + intros e. rewrite toSummary_percentage.
      destruct (Qltb_spec 0 (expenseTotal transactions)); [ reflexivity | contradiction ].
  - rewrite (map_ext _ (fun _ => 0)).
    + apply Qsum_zeros.
    + intros e. rewrite toSummary_percentage.
      destruct (Qltb_spec 0 (expenseTotal transactions)); [ contradiction | reflexivity ].
Qed.

Lemma top_properties :
  let top :=
    TimeBasedAnalytics.topCategories (calculatePeriodAnalytics transactions name days) in
  (List.length top <= 5)%nat
  /\ (forall c, In c top ->
        exists t, In t transactions /\ Transaction.type t = Expense
                  /\ Transaction.category t = CategorySummary.category c)
  /\ StronglySorted (descending CategorySummary.amount) top
  /\ (forall c, In c top -> 0 <= CategorySummary.percentage c <= 100).
Proof.
  intros top.
  assert (Htop : top
                 = firstn 5
                     (Array_sort
                        (fun a b => CategorySummary.amount b - CategorySummary.amount a)
                        (summariesOf transactions)))
    by apply topCategories_unfold.
  split; [ | split; [ | split ] ].
  - rewrite Htop. apply firstn_le_length.
  - intros c Hc. apply top_incl in Hc. destruct Hc as [e [He ->]].
    rewrite toSummary_category.
    assert (Hk : In (fst e) (expenseCategories transactions))
      by (rewrite <- categoryMap_keys; apply in_map; exact He).
    apply In_Set_from, in_map_iff in Hk. destruct Hk as [t [Ht Hin]].
    apply filter_In in Hin. destruct Hin as [Hin Hty].
    exists t. repeat split; [ exact Hin | | exact Ht ].
    unfold hasType in Hty. destruct (Transaction.type t); [ discriminate | reflexivity ].
  - rewrite Htop. apply StronglySorted_firstn.
    apply (Array_sort_sorted CategorySummary.amount).
  - intros c Hc. apply top_incl in Hc. destruct Hc as [e [He ->]].
    rewrite toSummary_percentage.
    destruct (categoryMap_entry_le e He) as [H0 H1].
    apply (percentage_range _ _ H0 H1).
Qed.


(** Without rounding, the percentages of the top categories add up to at
    most 100, and to exactly 100 when no category is cut and the total is
    positive.  This is a property of the rationals: the doubles of the code
    round each quotient and each product, and their sum does not obey it
    (see the run of [two_expenses] below). *)
Lemma top_percentages_without_rounding :
  let top :=
    TimeBasedAnalytics.topCategories (calculatePeriodAnalytics transactions name days) in
  Qsum (map CategorySummary.percentage top) <= 100
  /\ ((List.length (expenseCategories transactions) <= 5)%nat ->
      0 < expenseTotal transactions ->
      Qsum (map CategorySummary.percentage top) == 100).
Proof.
  intros top.
  set (sorted :=
         Array_sort (fun a b => CategorySummary.amount b - CategorySummary.amount a)
           (summariesOf transactions)).
  assert (Hperm : Permutation sorted (summariesOf transactions))
    by apply Array_sort_perm.
  assert (Htop : top = firstn 5 sorted) by apply topCategories_unfold.
  assert (Hsum : Qsum (map CategorySummary.percentage top)
                 <= Qsum (map CategorySummary.percentage (summariesOf transactions))).
  { rewrite Htop, <- firstn_map.
    rewrite <- (Qsum_perm _ _ (Permutation_map CategorySummary.percentage Hperm)).
    apply Qsum_firstn_le.
    eapply Permutation_Forall; [ symmetry; apply Permutation_map, Hperm | ].
    apply summaries_percentages_nonneg. }
  split.
  - pose proof summaries_percentages_total as Ht.
    destruct (Qltb 0 (expenseTotal transactions)); lra.
  - intros Hlen Hpos. rewrite Htop, firstn_all2.
    + rewrite (Qsum_perm _ _ (Permutation_map CategorySummary.percentage Hperm)).
      rewrite summaries_percentages_total.
      destruct (Qltb_spec 0 (expenseTotal transactions)); [ reflexivity | contradiction ].
    + rewrite (Permutation_length Hperm). unfold summariesOf.
      rewrite length_map, <- (length_map fst), categoryMap_keys. exact Hlen.
Qed.

End TopCategories.

Section PeriodQueries.

Variable Date_parse : string -> option Z.


Lemma MakeDay_month_add y m (k : nat) :
  (28 * Z.of_nat k <= JSDate.MakeDay y (m + Z.of_nat k) 1 - JSDate.MakeDay y m 1
   <= 31 * Z.of_nat k)%Z.
Proof.
  induction k as [| k IH].
  - cbn [Z.of_nat]. rewrite Z.add_0_r. lia.
  - rewrite Nat2Z.inj_succ.
    replace (m + Z.succ (Z.of_nat k))%Z with (m + Z.of_nat k + 1)%Z by lia.
    pose proof (JSDateFacts.MakeDay_next_month y (m + Z.of_nat k)). lia.
Qed.

Lemma Day_ofYMD year month date :
  JSDate.Day (JSDate.ofYMD year month date)
  = JSDate.MakeDay
      (if (0 <=? year)%Z && (year <=? 99)%Z then 1900 + year else year)%Z month date.
Proof.
  unfold JSDate.ofYMD. cbv zeta. apply JSDateFacts.Day_MakeDate.
  unfold JSDate.MakeTime, JSDate.msPerDay. lia.
Qed.

Lemma Math_ceil_pos x : 0 < x -> 0 < Math_ceil x.
Proof. intros H. unfold Math_ceil. pose proof (Qle_ceiling x). lra. Qed.

Lemma inject_Z_pos z : (0 < z)%Z -> 0 < inject_Z z.
Proof. intros H. unfold Qlt, inject_Z. cbn. lia. Qed.

(** The day count of a window that runs from the first day of a month to
    the last day of the fifth month after it. *)
Lemma halfYear_days_pos year month :
  0 < Math_ceil
        (inject_Z (JSDate.setHours (JSDate.ofYMD year (month + 6) 0) 23 59 59 999
                   - JSDate.ofYMD year month 1)
         / inject_Z (1000 * 60 * 60 * 24)).
Proof.
  apply Math_ceil_pos. apply Qlt_shift_div_l; [ reflexivity | ].
  rewrite Qmult_0_l. apply inject_Z_pos.
  unfold JSDate.setHours. rewrite Day_ofYMD. unfold JSDate.ofYMD. cbv zeta.
  set (yr := (if (0 <=? year)%Z && (year <=? 99)%Z then 1900 + year else year)%Z).
  pose proof (MakeDay_month_add yr month 6) as H6. change (Z.of_nat 6) with 6%Z in H6.
  pose proof (JSDateFacts.MakeDay_date yr (month + 6) 1 (-1)) as Hd.
  change (1 + -1)%Z with 0%Z in Hd.
  unfold JSDate.MakeDate, JSDate.MakeTime, JSDate.msPerDay. lia.
Qed.

Lemma periodDays_pos timePeriod now : 0 < periodDays timePeriod now.
Proof.
  destruct timePeriod; unfold periodDays.
  - reflexivity.
  - apply inject_Z_pos.
    pose proof (JSDateFacts.DateFromTime_range (snd (periodWindow monthly now))).
    unfold JSDate.getDate. lia.
  - apply halfYear_days_pos.
  - destruct (Z.rem (JSDate.getFullYear now) 4 =? 0)%Z; reflexivity.
Qed.

(** The same for the previous period of a comparison query. *)
Lemma previousDays_pos timePeriod now : 0 < previousDays timePeriod now.
Proof.
  destruct timePeriod; unfold previousDays.
  - reflexivity.
  - apply inject_Z_pos.
    pose proof (JSDateFacts.DateFromTime_range (snd (previousWindow monthly now))).
    unfold JSDate.getDate. lia.
  - apply halfYear_days_pos.
  - destruct (Z.rem (JSDate.getFullYear now - 1) 4 =? 0)%Z; reflexivity.
Qed.

End PeriodQueries.


(** ** Growth percentages *)

Section Comparisons.

Variable Date_parse : string -> option Z.

Lemma comparison_unfold h this now timePeriod :
  comparison Date_parse h this now timePeriod =
  let current :=
    calculatePeriodAnalytics (windowTransactions Date_parse h this timePeriod now)
      (currentName timePeriod) (periodDays timePeriod now) in
  let previous :=
    calculatePeriodAnalytics
      (getTransactionsInPeriod Date_parse h this
         (fst (previousWindow timePeriod now)) (snd (previousWindow timePeriod now)))
      (previousName timePeriod) (previousDays timePeriod now) in
  MonthlyComparison.mk current previous (growthOf current previous).
Proof.
  destruct timePeriod;
    cbv beta iota zeta delta
      [comparison getWeeklyComparison getMonthlyComparison getHalfYearlyComparison
       getYearlyComparison windowTransactions periodWindow previousWindow periodDays
       previousDays currentName previousName fst snd];
    reflexivity.
Qed.

Lemma comparison_growth h this now timePeriod :
  let c := comparison Date_parse h this now timePeriod in
  MonthlyComparison.growth c
  = growthOf (MonthlyComparison.current c) (MonthlyComparison.previous c).
Proof.
  destruct timePeriod;
    cbv beta iota zeta delta
      [comparison getWeeklyComparison getMonthlyComparison getHalfYearlyComparison
       getYearlyComparison MonthlyComparison.growth MonthlyComparison.current
       MonthlyComparison.previous];
    reflexivity.
Qed.

Lemma categoryComparison_change h this now e :
  In e (getCategoryComparison Date_parse h this now) ->
  CategoryChange.change e
  = categoryChange (CategoryChange.currentMonth e) (CategoryChange.previousMonth e).
Proof.
  unfold getCategoryComparison. cbv zeta. intros H.
  apply (Permutation_in _ (Array_sort_perm _ _)) in H.
  apply in_map_iff in H. destruct H as [category [<- _]]. reflexivity.
Qed.

Lemma calculateGrowth_from_zero current previous :
  previous == 0 -> calculateGrowth current previous = if Qltb 0 current then 100 else 0.
Proof.
  intros H. unfold calculateGrowth. rewrite (Qeq_eq_bool _ _ H). reflexivity.
Qed.

Lemma calculateGrowth_formula current previous :
  ~ previous == 0 ->
  calculateGrowth current previous = (current - previous) / previous * 100.
Proof.
  intros H. unfold calculateGrowth.
  destruct (Qeq_bool previous 0) eqn:E; [ | reflexivity ].
  apply Qeq_bool_eq in E. contradiction.
Qed.

(** C5. For amounts that are not negative, the growth percentage is exactly
    100 from a previous value of 0 to a positive one, exactly 0 from 0 to 0,
    and [(current - previous) / previous * 100] from any other previous
    value; this holds of [calculateGrowth], which gives the three growth
    percentages of each of the four comparison queries, and of the
    expression that gives the [change] of every entry of
    [getCategoryComparison]. *)
Theorem growth_percentage_helper :
  (forall current previous : Q,
      0 <= current -> 0 <= previous ->
      (previous == 0 -> 0 < current ->
       calculateGrowth current previous = 100 /\ categoryChange current previous = 100)
      /\ (previous == 0 -> current == 0 ->
          calculateGrowth current previous = 0 /\ categoryChange current previous = 0)
      /\ (~ previous == 0 ->
          calculateGrowth current previous = (current - previous) / previous * 100
          /\ categoryChange current previous = (current - previous) / previous * 100))
  /\ (forall h this now timePeriod,
        let c := comparison Date_parse h this now timePeriod in
        let current := MonthlyComparison.current c in
        let previous := MonthlyComparison.previous c in
        Growth.income (MonthlyComparison.growth c)
        = calculateGrowth (TimeBasedAnalytics.totalIncome current)
                          (TimeBasedAnalytics.totalIncome previous)
        /\ Growth.expenses (MonthlyComparison.growth c)
           = calculateGrowth (TimeBasedAnalytics.totalExpenses current)
                             (TimeBasedAnalytics.totalExpenses previous)
        /\ Growth.savings (MonthlyComparison.growth c)
           = calculateGrowth (TimeBasedAnalytics.netAmount current)
                             (TimeBasedAnalytics.netAmount previous))
  /\ (forall h this now e,
        In e (getCategoryComparison Date_parse h this now) ->
        CategoryChange.change e
        = categoryChange (CategoryChange.currentMonth e) (CategoryChange.previousMonth e)).
Proof.
  split; [ | split ].
  - intros current previous Hc Hp. repeat split.
    + rewrite calculateGrowth_from_zero by assumption.
      destruct (Qltb_spec 0 current); [ reflexivity | contradiction ].
    + unfold categoryChange.
      destruct (Qltb_spec 0 previous); [ lra | ].
      destruct (Qltb_spec 0 current); [ reflexivity | contradiction ].
    + rewrite calculateGrowth_from_zero by assumption.
      destruct (Qltb_spec 0 current); [ lra | reflexivity ].
    + unfold categoryChange.
      destruct (Qltb_spec 0 previous); [ lra | ].
      destruct (Qltb_spec 0 current); [ lra | reflexivity ].
    + apply calculateGrowth_formula. assumption.
    + unfold categoryChange.
      destruct (Qltb_spec 0 previous) as [L | L]; [ reflexivity | ].
      exfalso. apply H. lra.
  - intros h this now timePeriod c current previous.
    subst current previous c. rewrite comparison_growth. cbv zeta.
    unfold growthOf. cbn [Growth.income Growth.expenses Growth.savings].
    repeat split.
  - intros h this now e. apply categoryComparison_change.
Qed.


End Comparisons.

(** ** The Expense Balance factor *)

Lemma Qmax_cases x y : (Qmax x y = x /\ y <= x) \/ (Qmax x y = y /\ x <= y).
Proof.
  unfold Qmax, GenericMinMax.gmax.
  destruct (Qcompare_spec x y) as [E | L | G].
  - left. split; [ reflexivity | rewrite E; apply Qle_refl ].
  - right. split; [ reflexivity | apply Qlt_le_weak, L ].
  - left. split; [ reflexivity | apply Qlt_le_weak, G ].
Qed.

Lemma fold_Qmax_largest (l : list Q) : forall p,
  In (fold_left Qmax l p) (p :: l)
  /\ (forall x, In x (p :: l) -> x <= fold_left Qmax l p).
Proof.
  induction l as [| y l IH]; intros p; cbn [fold_left].
  - split; [ left; reflexivity | ]. intros x [<- | []]. apply Qle_refl.
  - destruct (IH (Qmax p y)) as [Hin Hle]. split.
    + destruct Hin as [Hin | Hin]; [ | right; right; exact Hin ].
      rewrite <- Hin. destruct (Qmax_cases p y) as [[-> _] | [-> _]];
        [ left | right; left ]; reflexivity.
    + assert (Hm : Qmax p y <= fold_left Qmax l (Qmax p y)) by (apply Hle; left; reflexivity).
      intros x [<- | [<- | Hx]].
      * destruct (Qmax_cases p y) as [[E _] | [E L]]; rewrite E in Hm at 1; lra.
      * destruct (Qmax_cases p y) as [[E L] | [E _]]; rewrite E in Hm at 1; lra.
      * apply Hle. right. exact Hx.
Qed.

Lemma balanceBand_proper x y : x == y -> balanceBand x = balanceBand y.
Proof.
  intros E. unfold balanceBand.
  destruct (Qltb_spec 50 x), (Qltb_spec 50 y); try lra;
  destruct (Qltb_spec 40 x), (Qltb_spec 40 y); try lra;
  destruct (Qltb_spec 30 x), (Qltb_spec 30 y); try lra; reflexivity.
Qed.

Lemma calculateCategoryBalance_largest categories m :
  categories <> [] -> largestPercentage categories m ->
  calculateCategoryBalance categories = balanceBand m.
Proof.
  intros Hne [[c0 [Hc0 E0]] Hmax].
  destruct categories as [| c cs]; [ contradiction | ].
  unfold calculateCategoryBalance. cbn [map].
  fold (balanceBand (fold_left Qmax (map CategorySummary.percentage cs)
                       (CategorySummary.percentage c))).
  apply balanceBand_proper.
  destruct (fold_Qmax_largest (map CategorySummary.percentage cs)
              (CategorySummary.percentage c)) as [Hin Hle].
  change (CategorySummary.percentage c :: map CategorySummary.percentage cs)
    with (map CategorySummary.percentage (c :: cs)) in Hin, Hle.
  apply in_map_iff in Hin. destruct Hin as [c1 [E1 Hc1]].
  apply Qle_antisym.
  - rewrite <- E1. apply Hmax, Hc1.
  - rewrite <- E0. apply Hle, in_map, Hc0.
Qed.

(** The four factors and the overall score, as [getFinancialHealthScore]
    computes them. *)
Lemma healthScore_unfold Date_parse Math_sqrt h this now :
  let monthlyAnalytics := getMonthlyAnalytics Date_parse h this now in
  let savingsScore := Qmin (TimeBasedAnalytics.savingsRate monthlyAnalytics * 2) 100 in
  let consistencyScore :=
    Qmax 0 (100 - calculateVariation Math_sqrt
                    (map TrendPoint.expenses (getSpendingTrends Date_parse h this now))) in
  let incomeGrowthScore :=
    Qmin (Qmax (50 + Growth.income
                       (MonthlyComparison.growth (getMonthlyComparison Date_parse h this now)))
               0) 100 in
  let categoryBalance :=
    calculateCategoryBalance (TimeBasedAnalytics.topCategories monthlyAnalytics) in
  let score := getFinancialHealthScore Date_parse Math_sqrt h this now in
  map (fun f => (Factor.name f, Factor.score f)) (HealthScore.factors score)
  = [ ("Savings Rate"%string, savingsScore);
      ("Spending Consistency"%string, consistencyScore);
      ("Income Growth"%string, incomeGrowthScore);
      ("Expense Balance"%string, categoryBalance) ]
  /\ HealthScore.score score
     = Math_round (0 + savingsScore * (3 # 10) + consistencyScore * (25 # 100)
                   + incomeGrowthScore * (2 # 10) + categoryBalance * (25 # 100)).
Proof.
  cbv beta zeta delta [getFinancialHealthScore].
  cbn [HealthScore.factors HealthScore.score app map Factor.name Factor.score].
  split; reflexivity.
Qed.

(** C6. The Expense Balance sub-score, the score of the fourth factor of
    the health score, is [calculateCategoryBalance] of the current month's
    [topCategories]: 100 when there is none, and otherwise a function of
    the largest percentage [m] among them, with strict bands: 30 above 50,
    else 50 above 40, else 70 above 30, else 90.  So 50 scores 50, 40 scores
    70, 30 scores 90 and 60 scores 30. *)
Theorem expense_balance_bands :
  (forall Date_parse Math_sqrt h this now,
      nth_error
        (map (fun f => (Factor.name f, Factor.score f))
           (HealthScore.factors (getFinancialHealthScore Date_parse Math_sqrt h this now))) 3
      = Some ("Expense Balance"%string,
              calculateCategoryBalance
                (TimeBasedAnalytics.topCategories (getMonthlyAnalytics Date_parse h this now))))
  /\ calculateCategoryBalance [] = 100
  /\ (forall categories m,
        categories <> [] -> largestPercentage categories m ->
        calculateCategoryBalance categories = balanceBand m)
  /\ (forall m,
        (50 < m -> balanceBand m = 30)
        /\ (40 < m <= 50 -> balanceBand m = 50)
        /\ (30 < m <= 40 -> balanceBand m = 70)
        /\ (m <= 30 -> balanceBand m = 90))
  /\ balanceBand 50 = 50 /\ balanceBand 40 = 70 /\ balanceBand 30 = 90
  /\ balanceBand 60 = 30.
Proof.
  split; [ | split; [ | split; [ | split ] ] ].
  - intros Date_parse Math_sqrt h this now.
    destruct (healthScore_unfold Date_parse Math_sqrt h this now) as [E _].
    cbv zeta in E. rewrite E. reflexivity.
  - reflexivity.
  - apply calculateCategoryBalance_largest.
  - intros m. unfold balanceBand.
    destruct (Qltb_spec 50 m), (Qltb_spec 40 m), (Qltb_spec 30 m);
      repeat split; intros; try reflexivity; lra.
  - repeat split.
Qed.

(** ** The spending trend *)

Section Trends.

Variable Date_parse : string -> option Z.

Lemma ofYMD_plain year month date :
  (year < 0 \/ 99 < year)%Z ->
  JSDate.ofYMD year month date = JSDate.MakeDate (JSDate.MakeDay year month date) 0.
Proof.
  intros H. unfold JSDate.ofYMD. cbv zeta.
  destruct (Z.leb_spec 0 year), (Z.leb_spec year 99); cbn [andb]; try reflexivity; lia.
Qed.

Lemma MakeDay_normal y m k d :
  JSDate.MakeDay (y + m / 12) (m mod 12 + k) d = JSDate.MakeDay y (m + k) d.
Proof.
  rewrite !JSDateFacts.MakeDay_unfold.
  assert ((m mod 12 + k) / 12 = (m + k) / 12 - m / 12)%Z as -> by divlia.
  assert ((m mod 12 + k) mod 12 = (m + k) mod 12)%Z as -> by divlia.
  replace (y + m / 12 + ((m + k) / 12 - m / 12))%Z with (y + (m + k) / 12)%Z by lia.
  reflexivity.
Qed.

Lemma monthStart_fields y m :
  JSDate.getFullYear (monthStart y m) = (y + m / 12)%Z
  /\ JSDate.getMonth (monthStart y m) = (m mod 12)%Z.
Proof.
  destruct (JSDateFacts.fields_first_of_month y m 0) as [Hy [Hm _]].
  - unfold JSDate.msPerDay. lia.
  - split; [ exact Hy | exact Hm ].
Qed.

Lemma monthStart_lt y m : (monthStart y m < monthStart y (m + 1))%Z.
Proof.
  unfold monthStart, JSDate.MakeDate, JSDate.msPerDay.
  pose proof (JSDateFacts.MakeDay_next_month y m). lia.
Qed.

Lemma endOfMonth_monthStart y m :
  JSDate.setHours (JSDate.MakeDate (JSDate.MakeDay y m 0) 0) 23 59 59 999
  = (monthStart y m - 1)%Z.
Proof.
  unfold JSDate.setHours. rewrite JSDateFacts.Day_MakeDate by (unfold JSDate.msPerDay; lia).
  pose proof (JSDateFacts.MakeDay_date y m 1 (-1)) as Hd. change (1 + -1)%Z with 0%Z in Hd.
  unfold monthStart, JSDate.MakeDate, JSDate.MakeTime, JSDate.msPerDay. lia.
Qed.

(** One turn of the loop of [getSpendingTrends], for the month [m] counted
    from January of year [y], when no year is in the range 0..99 that the
    [Date] constructor reads as 1900..1999. *)
Lemma trend_of_month h this y m :
  (101 <= y)%Z ->
  (-12 <= m)%Z ->
  (let monthDate := JSDate.ofYMD y m 1 in
   let startOfMonth :=
     JSDate.ofYMD (JSDate.getFullYear monthDate) (JSDate.getMonth monthDate) 1 in
   let endOfMonth :=
     JSDate.ofYMD (JSDate.getFullYear monthDate) (JSDate.getMonth monthDate + 1) 0 in
   let endOfMonth := JSDate.setHours endOfMonth 23 59 59 999 in
   let monthTransactions := getTransactionsInPeriod Date_parse h this startOfMonth endOfMonth in
   let income := sumAbsAmount (filter (hasType Income) monthTransactions) in
   let expenses := sumAbsAmount (filter (hasType Expense) monthTransactions) in
   TrendPoint.mk (JSDate.toShortMonthYear monthDate) income expenses (income - expenses))
  = trendOfMonth Date_parse h this y m.
Proof.
  intros Hy Hm. cbv zeta.
  rewrite (ofYMD_plain y) by lia. fold (monthStart y m).
  destruct (monthStart_fields y m) as [Ey Em].
  unfold JSDate.toShortMonthYear. rewrite Ey, Em.
  assert (Hq : (-1 <= m / 12)%Z) by divlia.
  rewrite !(ofYMD_plain (y + m / 12)) by lia.
  rewrite endOfMonth_monthStart.
  fold (monthStart (y + m / 12) (m mod 12)).
  assert (E0 : monthStart (y + m / 12) (m mod 12) = monthStart y m).
  { unfold monthStart. pose proof (MakeDay_normal y m 0 1) as N.
    rewrite !Z.add_0_r in N. rewrite N. reflexivity. }
  assert (E1 : monthStart (y + m / 12) (m mod 12 + 1) = monthStart y (m + 1)).
  { unfold monthStart. rewrite MakeDay_normal. reflexivity. }
  rewrite E0, E1. reflexivity.
Qed.

Lemma getSpendingTrends_months h this now :
  (100 < JSDate.getFullYear now)%Z ->
  getSpendingTrends Date_parse h this now
  = map (trendOfMonth Date_parse h this (JSDate.getFullYear now))
      [JSDate.getMonth now - 5; JSDate.getMonth now - 4; JSDate.getMonth now - 3;
       JSDate.getMonth now - 2; JSDate.getMonth now - 1; JSDate.getMonth now]%Z.
Proof.
  intros Hy.
  pose proof (JSDateFacts.MonthFromTime_range now) as Hm.
  fold (JSDate.getMonth now) in Hm.
  unfold getSpendingTrends. cbn [map].
  rewrite !trend_of_month by lia.
  rewrite Z.sub_0_r. reflexivity.
Qed.

(** Every clock at or after the epoch shows a year after 100. *)
Lemma year_after_epoch now : (0 <= now)%Z -> (100 < JSDate.getFullYear now)%Z.
Proof.
  intros H. pose proof (JSDateFacts.YearFromTime_epoch now H).
  unfold JSDate.getFullYear. lia.
Qed.

(** The date [t] lies in the month of its year and month fields. *)
Lemma now_in_its_month t :
  (monthStart (JSDate.getFullYear t) (JSDate.getMonth t) <= t
   < monthStart (JSDate.getFullYear t) (JSDate.getMonth t + 1))%Z.
Proof.
  pose proof (JSDateFacts.MakeDay_fields t (1 - JSDate.DateFromTime t)) as Hs.
  replace (JSDate.DateFromTime t + (1 - JSDate.DateFromTime t))%Z with 1%Z in Hs by lia.
  pose proof (JSDateFacts.DateFromTime_range t) as Hd.
  assert (He : (JSDate.Day t
                < JSDate.MakeDay (JSDate.YearFromTime t) (JSDate.MonthFromTime t + 1) 1)%Z).
  { pose proof (JSDateFacts.DayWithinYear_range t) as R.
    pose proof (JSDateFacts.MonthFromTime_range t) as Rm.
    rewrite JSDateFacts.MakeDay_unfold.
    unfold JSDate.DayWithinYear in R.
    destruct (Z.eq_dec (JSDate.MonthFromTime t) 11) as [E | N].
    - rewrite E. change ((11 + 1) / 12)%Z with 1%Z. change ((11 + 1) mod 12)%Z with 0%Z.
      rewrite JSDateFacts.DayFromYear_succ. cbn [JSDate.MonthStartDay]. lia.
    - assert ((JSDate.MonthFromTime t + 1) / 12 = 0)%Z as -> by divlia.
      assert ((JSDate.MonthFromTime t + 1) mod 12 = JSDate.MonthFromTime t + 1)%Z as ->
        by divlia.
      rewrite Z.add_0_r. clear Hs Hd.
      unfold JSDate.MonthFromTime, JSDate.InLeapYear, JSDate.DayWithinYear, leapDays in *.
      cbv zeta in *.
      destruct (JSDateFacts.DaysInYear_cases (JSDate.YearFromTime t)) as [D | D];
        rewrite D in *; cbn [Z.eqb Pos.eqb] in *;
        zbool; cbn [JSDate.MonthStartDay Z.add Pos.add Pos.succ] in *; lia. }
  unfold JSDate.getFullYear, JSDate.getMonth, monthStart, JSDate.MakeDate.
  unfold JSDate.Day, JSDate.msPerDay in *. divlia.
Qed.

(** C8. For a current date after the year 100 (the [Date] constructor reads
    the years 0 to 99 as 1900 to 1999), [getSpendingTrends] returns exactly
    6 points, one for each of the calendar months from 5 months before the
    current month up to the current month, in that order.  Each point
    carries the label of its month; its [income] is the sum of the absolute
    amounts of the transactions of the engine's array whose type is income
    and whose date parses to a time from the first millisecond of that
    month to the last one before the next month, its [expenses] the sum of
    those whose type is expense, and its [savings] their difference.  The
    months follow one another in time, and the last one is the month that
    contains the current date. *)
Theorem spending_trends_six_months (h : Heap) (this : AnalyticsEngine.t) (now : Z) :
  (100 < JSDate.getFullYear now)%Z ->
  let year := JSDate.getFullYear now in
  let month := JSDate.getMonth now in
  let trends := getSpendingTrends Date_parse h this now in
  let income (t : Transaction.t) : bool :=
    match Transaction.type t with Income => true | Expense => false end in
  let expense (t : Transaction.t) : bool :=
    match Transaction.type t with Income => false | Expense => true end in
  let amounts (m : Z) (p : Transaction.t -> bool) : list Q :=
    map (fun t => Qabs (Transaction.amount t))
      (filter
         (fun t =>
            match Date_parse (Transaction.date t) with
            | Some time =>
                (monthStart year m <=? time)%Z && (time <=? monthStart year (m + 1) - 1)%Z
            | None => false
            end
            && p t)
         (deref h (AnalyticsEngine.transactions this))) in
  List.length trends = 6%nat
  /\ Forall2
       (fun (p : TrendPoint.t) (m : Z) =>
          TrendPoint.month p = monthLabel year m
          /\ TrendPoint.income p == Qsum (amounts m income)
          /\ TrendPoint.expenses p == Qsum (amounts m expense)
          /\ TrendPoint.savings p = TrendPoint.income p - TrendPoint.expenses p)
       trends
       [month - 5; month - 4; month - 3; month - 2; month - 1; month]%Z
  /\ (forall m, (monthStart year m < monthStart year (m + 1))%Z)
  /\ (monthStart year month <= now < monthStart year (month + 1))%Z.
Proof.
  intros Hnow year month trends income expense amounts. subst trends.
  rewrite getSpendingTrends_months by exact Hnow. fold year month.
  split; [ reflexivity | ].
  split; [ | split; [ intros m; apply monthStart_lt | apply now_in_its_month ] ].
  cbn [map].
  repeat (constructor;
          [ unfold trendOfMonth, monthTransactions; cbv zeta;
            cbn [TrendPoint.month TrendPoint.income TrendPoint.expenses TrendPoint.savings];
            rewrite !typed_window;
            repeat split; apply sumAbsAmount_Qsum | ]).
  constructor.
Qed.

End Trends.

(** ** The empty engine *)

Section EmptyEngine.

Variable Date_parse : string -> option Z.
Variable Math_sqrt : Q -> Q.
Variables (h : Heap) (this : AnalyticsEngine.t).
Hypothesis no_transactions : deref h (AnalyticsEngine.transactions this) = [].

Lemma getTransactionsInPeriod_empty startDate endDate :
  getTransactionsInPeriod Date_parse h this startDate endDate = [].
Proof. unfold getTransactionsInPeriod. rewrite no_transactions. reflexivity. Qed.

Lemma calculatePeriodAnalytics_nil name days :
  calculatePeriodAnalytics [] name days
  = TimeBasedAnalytics.mk name 0 0 (0 - 0) 0 [] (0 / days) 0.
Proof. reflexivity. Qed.

Lemma periodData_empty now timePeriod :
  periodData Date_parse h this now timePeriod
  = TimeBasedAnalytics.mk (periodName timePeriod) 0 0 (0 - 0) 0 []
      (0 / periodDays timePeriod now) 0.
Proof.
  rewrite periodData_unfold. unfold windowTransactions.
  rewrite getTransactionsInPeriod_empty. apply calculatePeriodAnalytics_nil.
Qed.

Lemma comparison_empty now timePeriod :
  MonthlyComparison.growth (comparison Date_parse h this now timePeriod) = Growth.mk 0 0 0.
Proof.
  rewrite comparison_unfold. unfold windowTransactions. cbv zeta.
  rewrite !getTransactionsInPeriod_empty, !calculatePeriodAnalytics_nil. reflexivity.
Qed.

Lemma trends_empty now :
  map (fun p => (TrendPoint.income p, TrendPoint.expenses p, TrendPoint.savings p))
    (getSpendingTrends Date_parse h this now)
  = [ (0, 0, 0 - 0); (0, 0, 0 - 0); (0, 0, 0 - 0);
      (0, 0, 0 - 0); (0, 0, 0 - 0); (0, 0, 0 - 0) ].
Proof.
  unfold getSpendingTrends. rewrite map_map.
  erewrite map_ext.
  2:{ intros i. cbv zeta.
      cbn [TrendPoint.income TrendPoint.expenses TrendPoint.savings].
      rewrite getTransactionsInPeriod_empty. reflexivity. }
  reflexivity.
Qed.

Lemma trends_expenses_empty now :
  map TrendPoint.expenses (getSpendingTrends Date_parse h this now) = [0; 0; 0; 0; 0; 0].
Proof.
  pose proof (trends_empty now) as E.
  apply (f_equal (map (fun x : Q * Q * Q => snd (fst x)))) in E.
  rewrite map_map in E. exact E.
Qed.

Lemma categoryComparison_empty now : getCategoryComparison Date_parse h this now = [].
Proof.
  unfold getCategoryComparison. cbv zeta.
  rewrite !getTransactionsInPeriod_empty. reflexivity.
Qed.

Lemma healthScore_empty now :
  let score := getFinancialHealthScore Date_parse Math_sqrt h this now in
  map (fun f => (Factor.name f, Factor.score f)) (HealthScore.factors score)
  = [ ("Savings Rate"%string, 0); ("Spending Consistency"%string, 100);
      ("Income Growth"%string, 50); ("Expense Balance"%string, 100) ]
  /\ HealthScore.score score = 60.
Proof.
  intros score. subst score.
  destruct (healthScore_unfold Date_parse Math_sqrt h this now) as [Ef Es].
  cbv zeta in Ef, Es. rewrite Ef, Es. clear Ef Es.
  rewrite (trends_expenses_empty now).
  change (getMonthlyComparison Date_parse h this now)
    with (comparison Date_parse h this now monthly).
  rewrite (comparison_empty now monthly).
  change (getMonthlyAnalytics Date_parse h this now)
    with (periodData Date_parse h this now monthly).
  rewrite (periodData_empty now monthly).
  cbn [TimeBasedAnalytics.savingsRate TimeBasedAnalytics.topCategories Growth.income].
  split; vm_compute; reflexivity.
Qed.

End EmptyEngine.

(** C3, as it holds.  On an engine without transactions every query
    returns a value (the functions are total): each period query returns
    0 income, 0 expenses, 0 [netAmount], no transaction, no top category,
    [savingsRate] 0 and [averageDaily] 0; every growth percentage is 0, the
    six trend points are 0 and there is no category comparison; the health
    score has Savings Rate 0, Spending Consistency 100 (no variation),
    Income Growth 50 (no growth, on a scale centred at 50) and
    Expense Balance 100 (no category), which makes an overall score of 60. *)
Theorem empty_engine_results (Date_parse : string -> option Z) (Math_sqrt : Q -> Q)
    (h : Heap) (this : AnalyticsEngine.t) (now : Z) :
  deref h (AnalyticsEngine.transactions this) = [] ->
  (forall timePeriod,
      let s := periodData Date_parse h this now timePeriod in
      TimeBasedAnalytics.totalIncome s = 0
      /\ TimeBasedAnalytics.totalExpenses s = 0
      /\ TimeBasedAnalytics.netAmount s == 0
      /\ TimeBasedAnalytics.transactionCount s = 0%nat
      /\ TimeBasedAnalytics.topCategories s = []
      /\ TimeBasedAnalytics.savingsRate s = 0
      /\ TimeBasedAnalytics.averageDaily s == 0)
  /\ (forall timePeriod,
        MonthlyComparison.growth (comparison Date_parse h this now timePeriod)
        = Growth.mk 0 0 0)
  /\ (List.length (getSpendingTrends Date_parse h this now) = 6%nat
      /\ Forall
           (fun p =>
              TrendPoint.income p = 0 /\ TrendPoint.expenses p = 0
              /\ TrendPoint.savings p == 0)
           (getSpendingTrends Date_parse h this now))
  /\ getCategoryComparison Date_parse h this now = []
  /\ (let score := getFinancialHealthScore Date_parse Math_sqrt h this now in
      map (fun f => (Factor.name f, Factor.score f)) (HealthScore.factors score)
      = [ ("Savings Rate"%string, 0); ("Spending Consistency"%string, 100);
          ("Income Growth"%string, 50); ("Expense Balance"%string, 100) ]
      /\ HealthScore.score score = 60).
Proof.
  intros H. split; [ | split; [ | split; [ | split ] ] ].
  - intros timePeriod s. subst s. rewrite (periodData_empty Date_parse h this H).
    cbn [TimeBasedAnalytics.totalIncome TimeBasedAnalytics.totalExpenses
         TimeBasedAnalytics.netAmount TimeBasedAnalytics.transactionCount
         TimeBasedAnalytics.topCategories TimeBasedAnalytics.savingsRate
         TimeBasedAnalytics.averageDaily].
    repeat split; reflexivity.
  - intros timePeriod. apply comparison_empty, H.
  - pose proof (trends_empty Date_parse h this H now) as E. split.
    + apply (f_equal (@List.length _)) in E. rewrite length_map in E. exact E.
    + apply Forall_forall. intros p Hp.
      apply (in_map (fun p => (TrendPoint.income p, TrendPoint.expenses p,
                               TrendPoint.savings p))) in Hp.
      rewrite E in Hp. cbn [In] in Hp.
      assert (E3 : (TrendPoint.income p, TrendPoint.expenses p, TrendPoint.savings p)
                   = (0, 0, 0 - 0)) by intuition congruence.
      injection E3 as -> -> ->. repeat split; reflexivity.
  - apply categoryComparison_empty, H.
  - apply healthScore_empty, H.
Qed.

(** The claim that on the empty engine every sub-score but Expense Balance
    is 0 fails: Spending Consistency is 100 (and Income Growth 50). *)
Lemma empty_engine_other_scores_not_zero :
  ~ (forall f,
        In f (HealthScore.factors
                (getFinancialHealthScore JSDate.parseISODate sqrt6 [[]] engine0
                   mid_march_2024)) ->
        Factor.name f <> "Expense Balance"%string ->
        Factor.score f == 0).
Proof.
  intros H.
  set (fs := HealthScore.factors
               (getFinancialHealthScore JSDate.parseISODate sqrt6 [[]] engine0
                  mid_march_2024)) in H.
  pose (f := nth 1 fs (Factor.mk "" 0 neutral "")).
  assert (Hin : In f fs) by (apply nth_In; vm_compute; repeat constructor).
  assert (Hname : Factor.name f <> "Expense Balance"%string) by (vm_compute; discriminate).
  specialize (H f Hin Hname). vm_compute in H. discriminate H.
Qed.

Lemma empty_engine_results_witness :
  deref [[]] (AnalyticsEngine.transactions engine0) = []
  /\ HealthScore.score
       (getFinancialHealthScore JSDate.parseISODate sqrt6 [[]] engine0 mid_march_2024)
     = 60.
Proof.
  split; [ reflexivity | ].
  apply (empty_engine_results JSDate.parseISODate sqrt6 [[]] engine0 mid_march_2024
           eq_refl).
Defined.

(** ** The health score when a month's expenses exceed its income *)

Section HealthScoreBounds.

Variable Date_parse : string -> option Z.
Variable Math_sqrt : Q -> Q.
Hypothesis Math_sqrt_nonneg : forall x, 0 <= Math_sqrt x.



(** Whenever the month has an income and larger expenses, the Savings Rate
    sub-score is negative. *)
Lemma savingsScore_negative h this now :
  let monthlyAnalytics := getMonthlyAnalytics Date_parse h this now in
  0 < TimeBasedAnalytics.totalIncome monthlyAnalytics ->
  TimeBasedAnalytics.totalIncome monthlyAnalytics
  < TimeBasedAnalytics.totalExpenses monthlyAnalytics ->
  exists f,
    nth_error
      (HealthScore.factors (getFinancialHealthScore Date_parse Math_sqrt h this now)) 0
    = Some f
    /\ Factor.name f = "Savings Rate"%string
    /\ Factor.score f < 0.
Proof.
  cbv beta zeta delta [getFinancialHealthScore].
  cbn [HealthScore.factors app nth_error].
  change (getMonthlyAnalytics Date_parse h this now)
    with (periodData Date_parse h this now monthly).
  rewrite periodData_unfold.
  generalize (windowTransactions Date_parse h this monthly now)
             (periodName monthly) (periodDays monthly now).
  intros w name days.
  cbv beta iota zeta delta
    [calculatePeriodAnalytics TimeBasedAnalytics.totalIncome
     TimeBasedAnalytics.totalExpenses TimeBasedAnalytics.savingsRate].
  set (income := sumAbsAmount (filter (hasType Income) w)).
  set (expenses := sumAbsAmount (filter (hasType Expense) w)).
  intros Hpos Hover. eexists. split; [ reflexivity | ].
  cbn [Factor.name Factor.score]. split; [ reflexivity | ].
  destruct (Qltb_spec 0 income) as [L | L]; [ | contradiction ].
  assert (E : income * ((income - expenses) / income) == income - expenses)
    by (apply Qmult_div_r; lra).
  set (x := (income - expenses) / income) in *.
  assert (Hx : x < 0) by nra.
  pose proof (Q.le_min_l (x * 100 * 2) 100). lra.
Qed.

End HealthScoreBounds.

(** C2 fails on the code.  With an income of 1000 and expenses of 2000 in
    the current month the savings rate is -100, and the Savings Rate
    sub-score [min(savingsRate * 2, 100)] is -200, whatever [Math.sqrt]
    computes: it has no lower bound, unlike the three other sub-scores.
    With the square root of the concrete runs the overall score is -32. *)
Theorem health_score_overspent :
  (forall Math_sqrt,
      nth_error
        (map (fun f => (Factor.name f, Qred (Factor.score f), Factor.impact f))
           (HealthScore.factors
              (getFinancialHealthScore JSDate.parseISODate Math_sqrt [overspent] engine0
                 mid_march_2024))) 0
      = Some ("Savings Rate"%string, -200 # 1, negative))
  /\ (let score :=
        getFinancialHealthScore JSDate.parseISODate sqrt6 [overspent] engine0
          mid_march_2024 in
      map (fun f => (Factor.name f, Qred (Factor.score f))) (HealthScore.factors score)
      = [ ("Savings Rate"%string, -200 # 1); ("Spending Consistency"%string, 0);
          ("Income Growth"%string, 100); ("Expense Balance"%string, 30) ]
      /\ Qred (HealthScore.score score) = -32 # 1).
Proof.
  split.
  - intros Math_sqrt.
    cbv beta zeta delta [getFinancialHealthScore].
    cbn [HealthScore.factors app map nth_error Factor.name Factor.score Factor.impact].
    vm_compute. reflexivity.
  - vm_compute. split; reflexivity.
Qed.

(** ** The constructor and the caller's array *)

Section Constructor.

Variable Date_parse : string -> option Z.

Lemma deref_assign_same h r array :
  (r < List.length h)%nat -> deref (assign h r array) r = array.
Proof.
  unfold deref. revert r. induction h as [| a h IH]; intros [| r] Hr; cbn in *; try lia.
  - reflexivity.
  - apply IH. lia.
Qed.

Lemma deref_assign_other h r r' array :
  r' <> r -> deref (assign h r array) r' = deref h r'.
Proof.
  unfold deref. revert r r'.
  induction h as [| a h IH]; intros [| r] [| r'] Hne; cbn; try reflexivity; try lia.
  apply IH. lia.
Qed.

(** The engine keeps the reference it was given; the array behind it holds
    the same records as before, reordered; the other arrays are untouched. *)
Lemma constructor_frame h r :
  (r < List.length h)%nat ->
  let result := constructor Date_parse h r in
  AnalyticsEngine.transactions (snd result) = r
  /\ Permutation (deref (fst result) r) (deref h r)
  /\ (forall r', r' <> r -> deref (fst result) r' = deref h r').
Proof.
  intros Hr result. subst result. unfold constructor.
  cbn [fst snd AnalyticsEngine.transactions].
  repeat split.
  - rewrite deref_assign_same by exact Hr. apply Array_sort_perm.
  - intros r' Hne. apply deref_assign_other, Hne.
Qed.

Lemma compareByDateDesc_key a b :
  Date_parse (Transaction.date a) <> None ->
  Date_parse (Transaction.date b) <> None ->
  Qltb 0 (compareByDateDesc Date_parse a b)
  = Qltb 0 (timeOf Date_parse b - timeOf Date_parse a).
Proof.
  unfold compareByDateDesc, timeOf. intros Ha Hb.
  destruct (Date_parse (Transaction.date a)) as [ta |]; [ | contradiction ].
  destruct (Date_parse (Transaction.date b)) as [tb |]; [ | contradiction ].
  unfold Qltb. cbn. f_equal; lia.
Qed.

(** When every date parses, the engine's array is sorted from the latest
    date to the earliest. *)
Lemma constructor_sorted h r :
  (r < List.length h)%nat ->
  Forall (fun t => Date_parse (Transaction.date t) <> None) (deref h r) ->
  StronglySorted (descending (timeOf Date_parse))
    (deref (fst (constructor Date_parse h r)) r).
Proof.
  intros Hr Hall. unfold constructor. cbn [fst].
  rewrite deref_assign_same by exact Hr.
  rewrite (Array_sort_ext _ (fun a b => timeOf Date_parse b - timeOf Date_parse a)).
  - apply Array_sort_sorted.
  - intros a b Ha Hb. apply compareByDateDesc_key.
    + exact (proj1 (Forall_forall _ _) Hall a Ha).
    + exact (proj1 (Forall_forall _ _) Hall b Hb).
Qed.
End Constructor.

(** C7 fails on the code.  [Array.prototype.sort] sorts the array it is
    called on: with a caller's array that holds the older record first, the
    constructor leaves the engine's reference equal to the caller's and the
    caller's array reordered, the newer record first. *)
Theorem constructor_reorders_callers_array :
  let h := [oldest_first] in
  let result := constructor JSDate.parseISODate h 0 in
  AnalyticsEngine.transactions (snd result) = 0%nat
  /\ deref (fst result) 0 = rev oldest_first
  /\ deref (fst result) 0 <> deref h 0.
Proof.
  vm_compute. repeat split. discriminate.
Qed.

(** ** The periods on the calendar *)

Section Calendar.

Local Open Scope Z_scope.

Lemma TimeWithinDay_range t : 0 <= JSDate.TimeWithinDay t < JSDate.msPerDay.
Proof. unfold JSDate.TimeWithinDay, JSDate.msPerDay. divlia. Qed.

Lemma setDate_Day t k :
  JSDate.setDate t (JSDate.getDate t + k)
  = JSDate.MakeDate (JSDate.Day t + k) (JSDate.TimeWithinDay t).
Proof. unfold JSDate.setDate, JSDate.getDate. rewrite JSDateFacts.MakeDay_fields. reflexivity. Qed.

Lemma Day_setDate t k : JSDate.Day (JSDate.setDate t (JSDate.getDate t + k)) = JSDate.Day t + k.
Proof. rewrite setDate_Day. apply JSDateFacts.Day_MakeDate, TimeWithinDay_range. Qed.

Lemma setHours_start t : JSDate.setHours t 0 0 0 0 = JSDate.Day t * JSDate.msPerDay.
Proof. unfold JSDate.setHours, JSDate.MakeDate, JSDate.MakeTime. lia. Qed.

Lemma setHours_end t :
  JSDate.setHours t 23 59 59 999 = JSDate.Day t * JSDate.msPerDay + (JSDate.msPerDay - 1).
Proof. unfold JSDate.setHours, JSDate.MakeDate, JSDate.MakeTime, JSDate.msPerDay. lia. Qed.

Lemma Day_midnight d : JSDate.Day (d * JSDate.msPerDay) = d.
Proof. unfold JSDate.Day, JSDate.msPerDay. divlia. Qed.

Lemma TimeWithinDay_midnight d : JSDate.TimeWithinDay (d * JSDate.msPerDay) = 0.
Proof. unfold JSDate.TimeWithinDay, JSDate.msPerDay. divlia. Qed.

Lemma periodWindow_weekly now :
  periodWindow weekly now
  = (JSDate.setHours (JSDate.setDate now (JSDate.getDate now - JSDate.getDay now)) 0 0 0 0,
     JSDate.setHours
       (JSDate.setDate
          (JSDate.setHours (JSDate.setDate now (JSDate.getDate now - JSDate.getDay now)) 0 0 0 0)
          (JSDate.getDate
             (JSDate.setHours (JSDate.setDate now (JSDate.getDate now - JSDate.getDay now))
                0 0 0 0) + 6))
       23 59 59 999).
Proof. reflexivity. Qed.

Lemma startOfWeek_weekStart now :
  JSDate.setHours (JSDate.setDate now (JSDate.getDate now - JSDate.getDay now)) 0 0 0 0
  = weekStart now.
Proof.
  rewrite setHours_start. unfold Z.sub at 1. rewrite Day_setDate. reflexivity.
Qed.

Lemma endOfWeek_weekStart s :
  JSDate.TimeWithinDay s = 0 ->
  JSDate.setHours (JSDate.setDate s (JSDate.getDate s + 6)) 23 59 59 999
  = s + 7 * JSDate.msPerDay - 1.
Proof.
  intros T. rewrite setHours_end, Day_setDate.
  unfold JSDate.TimeWithinDay, JSDate.Day, JSDate.msPerDay in *. divlia.
Qed.

Lemma weekly_windows now :
  periodWindow weekly now = (weekStart now, weekStart now + 7 * JSDate.msPerDay - 1)
  /\ previousWindow weekly now = (weekStart now - 7 * JSDate.msPerDay, weekStart now - 1).
Proof.
  assert (T : JSDate.TimeWithinDay (weekStart now) = 0) by apply TimeWithinDay_midnight.
  assert (P : periodWindow weekly now
              = (weekStart now, weekStart now + 7 * JSDate.msPerDay - 1)).
  { rewrite periodWindow_weekly, startOfWeek_weekStart, (endOfWeek_weekStart _ T).
    reflexivity. }
  split; [ exact P | ].
  unfold previousWindow. rewrite P. cbn [fst].
  assert (E : JSDate.setDate (weekStart now) (JSDate.getDate (weekStart now) - 7)
              = weekStart now - 7 * JSDate.msPerDay).
  { unfold Z.sub at 1. rewrite setDate_Day, T.
    unfold weekStart. rewrite Day_midnight. unfold JSDate.MakeDate. lia. }
  rewrite !E.
  rewrite endOfWeek_weekStart.
  - apply f_equal2; [ reflexivity | lia ].
  - unfold weekStart.
    replace ((JSDate.Day now - JSDate.WeekDay now) * JSDate.msPerDay - 7 * JSDate.msPerDay)
      with ((JSDate.Day now - JSDate.WeekDay now - 7) * JSDate.msPerDay) by lia.
    apply TimeWithinDay_midnight.
Qed.

Lemma Day_weekStart now : JSDate.Day (weekStart now) = JSDate.Day now - JSDate.WeekDay now.
Proof. unfold weekStart. generalize (JSDate.Day now - JSDate.WeekDay now). intros d.
  unfold JSDate.Day, JSDate.msPerDay. divlia. Qed.

Lemma weekStart_sunday now :
  JSDate.getDay (weekStart now) = 0 /\ JSDate.TimeWithinDay (weekStart now) = 0
  /\ weekStart now <= now < weekStart now + 7 * JSDate.msPerDay.
Proof.
  split; [ | split ].
  - unfold JSDate.getDay. unfold JSDate.WeekDay at 1. rewrite Day_weekStart.
    unfold JSDate.WeekDay. divlia.
  - unfold weekStart. generalize (JSDate.Day now - JSDate.WeekDay now). intros d.
    unfold JSDate.TimeWithinDay, JSDate.msPerDay. divlia.
  - assert (0 <= JSDate.WeekDay now < 7) by (unfold JSDate.WeekDay; divlia).
    unfold weekStart. generalize dependent (JSDate.WeekDay now). intros w Hw.
    unfold JSDate.Day, JSDate.msPerDay. divlia.
Qed.

(** The fields of any day of a month. *)
Lemma fields_of_day y m d time :
  0 <= time < JSDate.msPerDay ->
  1 <= d <= daysInMonth y m ->
  let t := JSDate.MakeDate (JSDate.MakeDay y m d) time in
  JSDate.YearFromTime t = y + m / 12 /\ JSDate.MonthFromTime t = m mod 12
  /\ JSDate.DateFromTime t = d.
Proof.
  intros Ht Hd t.
  assert (HD : JSDate.Day t = JSDate.MakeDay y m d) by (apply JSDateFacts.Day_MakeDate; exact Ht).
  assert (Hm : 0 <= m mod 12 <= 11) by (pose proof (Z.mod_pos_bound m 12); lia).
  unfold daysInMonth in Hd. rewrite !JSDateFacts.MakeDay_unfold in Hd.
  rewrite JSDateFacts.MakeDay_unfold in HD.
  set (ym := y + m / 12) in *. set (mn := m mod 12) in *.
  assert (Hb : JSDate.MonthStartDay mn (leapDays ym) + d - 1
               < (if mn =? 11 then JSDate.DaysInYear ym
                  else JSDate.MonthStartDay (mn + 1) (leapDays ym))).
  { destruct (Z.eqb_spec mn 11) as [E | N].
    - assert ((m + 1) / 12 = m / 12 + 1) as E1 by (clear - E; subst mn; divlia).
      assert ((m + 1) mod 12 = 0) as E2 by (clear - E; subst mn; divlia).
      rewrite E1, E2 in Hd. replace (y + (m / 12 + 1)) with (ym + 1) in Hd by (subst ym; lia).
      rewrite JSDateFacts.DayFromYear_succ in Hd. cbn [JSDate.MonthStartDay] in Hd. lia.
    - assert ((m + 1) / 12 = m / 12) as E1 by (clear - N; subst mn; divlia).
      assert ((m + 1) mod 12 = mn + 1) as E2 by (clear - N; subst mn; divlia).
      rewrite E1, E2 in Hd. fold ym in Hd. lia. }
  assert (Hd1 : 1 <= d) by lia.
  clearbody ym mn. clear Hd.
  assert (Hy : JSDate.YearFromTime t = ym).
  { unfold JSDate.YearFromTime. apply JSDateFacts.YearFromDay_unique.
    rewrite HD, JSDateFacts.DayFromYear_succ.
    pose proof (JSDateFacts.MonthStartDay_range mn ym Hm).
    destruct (Z.eqb_spec mn 11); [ lia | ].
    assert (Hm' : 0 <= mn + 1 <= 11) by lia.
    pose proof (JSDateFacts.MonthStartDay_range (mn + 1) ym Hm'). lia. }
  assert (Hw : JSDate.DayWithinYear t = JSDate.MonthStartDay mn (leapDays ym) + d - 1).
  { unfold JSDate.DayWithinYear. rewrite Hy, HD. lia. }
  assert (Hl : JSDate.InLeapYear t = leapDays ym).
  { unfold JSDate.InLeapYear, leapDays. rewrite Hy. reflexivity. }
  assert (Hmo : JSDate.MonthFromTime t = mn).
  { unfold JSDate.MonthFromTime. cbv zeta. rewrite Hw, Hl.
    clear Hw Hl Hy HD. unfold leapDays in *.
    destruct (JSDateFacts.DaysInYear_cases ym) as [E | E]; rewrite E in *;
      cbn [Z.eqb Pos.eqb] in *; month_cases mn;
      cbn [Z.eqb Pos.eqb] in Hb; simpl (JSDate.MonthStartDay _ _) in *;
      zbool; lia. }
  split; [ exact Hy | split; [ exact Hmo | ] ].
  unfold JSDate.DateFromTime. rewrite Hmo, Hw, Hl. lia.
Qed.

Lemma daysInMonth_range y m : 28 <= daysInMonth y m <= 31.
Proof. apply JSDateFacts.MakeDay_next_month. Qed.

Lemma monthStart_next y m :
  monthStart y (m + 1) = monthStart y m + daysInMonth y m * JSDate.msPerDay.
Proof. unfold monthStart, daysInMonth, JSDate.MakeDate. lia. Qed.

Lemma monthStart_le y m (k : nat) : monthStart y m <= monthStart y (m + Z.of_nat k).
Proof.
  pose proof (MakeDay_month_add y m k) as H.
  unfold monthStart, JSDate.MakeDate, JSDate.msPerDay. lia.
Qed.

Lemma monthStart_normal y m k :
  monthStart (y + m / 12) (m mod 12 + k) = monthStart y (m + k).
Proof. unfold monthStart. rewrite MakeDay_normal. reflexivity. Qed.

(** The last millisecond of a month shows the number of days of the month. *)
Lemma getDate_end_of_month y m :
  JSDate.getDate (monthStart y (m + 1) - 1) = daysInMonth y m.
Proof.
  pose proof (daysInMonth_range y m) as R.
  assert (E : monthStart y (m + 1) - 1
              = JSDate.MakeDate (JSDate.MakeDay y m (daysInMonth y m)) (JSDate.msPerDay - 1)).
  { rewrite monthStart_next. unfold monthStart, JSDate.MakeDate.
    pose proof (JSDateFacts.MakeDay_date y m 1 (daysInMonth y m - 1)) as D.
    replace (1 + (daysInMonth y m - 1)) with (daysInMonth y m) in D by lia.
    rewrite D. lia. }
  rewrite E. unfold JSDate.getDate.
  apply (fields_of_day y m (daysInMonth y m) (JSDate.msPerDay - 1)).
  - unfold JSDate.msPerDay. lia.
  - lia.
Qed.

Lemma endOfMonth_plain y m :
  (y < 0 \/ 99 < y) ->
  JSDate.setHours (JSDate.ofYMD y m 0) 23 59 59 999 = monthStart y m - 1.
Proof. intros H. rewrite ofYMD_plain by exact H. apply endOfMonth_monthStart. Qed.

Lemma startOfMonth_plain y m :
  (y < 0 \/ 99 < y) -> JSDate.ofYMD y m 1 = monthStart y m.
Proof. intros H. rewrite ofYMD_plain by exact H. reflexivity. Qed.

Lemma periodWindow_monthly now :
  (100 < JSDate.getFullYear now) ->
  periodWindow monthly now
  = (monthStart (JSDate.getFullYear now) (JSDate.getMonth now),
     monthStart (JSDate.getFullYear now) (JSDate.getMonth now + 1) - 1).
Proof.
  intros H. unfold periodWindow.
  rewrite startOfMonth_plain, endOfMonth_plain by lia. reflexivity.
Qed.

Lemma previousWindow_monthly now :
  (100 < JSDate.getFullYear now) ->
  previousWindow monthly now
  = (monthStart (JSDate.getFullYear now) (JSDate.getMonth now - 1),
     monthStart (JSDate.getFullYear now) (JSDate.getMonth now - 1 + 1) - 1).
Proof.
  intros H. unfold previousWindow.
  rewrite startOfMonth_plain, endOfMonth_plain by lia.
  replace (JSDate.getMonth now - 1 + 1) with (JSDate.getMonth now) by lia. reflexivity.
Qed.

Lemma periodDays_monthly now :
  (100 < JSDate.getFullYear now) ->
  periodDays monthly now
  = inject_Z (daysInMonth (JSDate.getFullYear now) (JSDate.getMonth now)).
Proof.
  intros H. unfold periodDays. rewrite periodWindow_monthly by exact H. cbn [snd].
  rewrite getDate_end_of_month. reflexivity.
Qed.

Lemma previousDays_monthly now :
  (100 < JSDate.getFullYear now) ->
  previousDays monthly now
  = inject_Z (daysInMonth (JSDate.getFullYear now) (JSDate.getMonth now - 1)).
Proof.
  intros H. unfold previousDays. rewrite previousWindow_monthly by exact H. cbn [snd].
  rewrite getDate_end_of_month. reflexivity.
Qed.

Lemma Qceiling_days d :
  Qceiling (inject_Z (d * JSDate.msPerDay - 1) / inject_Z (1000 * 60 * 60 * 24)) = d.
Proof.
  change (1000 * 60 * 60 * 24) with 86400000.
  unfold Qceiling, Qfloor, Qdiv, Qmult, Qinv, Qopp, inject_Z, JSDate.msPerDay.
  cbn [Qnum Qden].
  change (Z.pos (1 * 86400000)) with 86400000.
  divlia.
Qed.

Lemma halfDays y m0 :
  Math_ceil (inject_Z (monthStart y (m0 + 6) - 1 - monthStart y m0)
             / inject_Z (1000 * 60 * 60 * 24))
  = inject_Z (daysInHalf y m0).
Proof.
  unfold Math_ceil. f_equal.
  replace (monthStart y (m0 + 6) - 1 - monthStart y m0)
    with (daysInHalf y m0 * JSDate.msPerDay - 1)
    by (unfold daysInHalf, monthStart, JSDate.MakeDate; lia).
  apply Qceiling_days.
Qed.

Lemma daysInHalf_first y : daysInHalf y 0 = 181 + leapDays y.
Proof.
  unfold daysInHalf. rewrite !JSDateFacts.MakeDay_unfold.
  change ((0 + 6) / 12) with 0. change ((0 + 6) mod 12) with 6.
  change (0 / 12) with 0. change (0 mod 12) with 0.
  replace (y + 0) with y by lia. cbn [JSDate.MonthStartDay]. lia.
Qed.

Lemma daysInHalf_second y : daysInHalf y 6 = 184.
Proof.
  unfold daysInHalf. rewrite !JSDateFacts.MakeDay_unfold.
  change ((6 + 6) / 12) with 1. change ((6 + 6) mod 12) with 0.
  change (6 / 12) with 0. change (6 mod 12) with 6.
  replace (y + 0) with y by lia. rewrite JSDateFacts.DayFromYear_succ.
  cbn [JSDate.MonthStartDay]. unfold leapDays.
  destruct (JSDateFacts.DaysInYear_cases y) as [E | E]; rewrite E;
    cbn [Z.eqb Pos.eqb]; lia.
Qed.

Lemma halfStart_cases month :
  0 <= month <= 11 ->
  (month < 6 /\ halfStart month = 0) \/ (6 <= month /\ halfStart month = 6).
Proof.
  unfold halfStart. intros H.
  destruct (Z_lt_le_dec month 6); [ left | right ]; split; try lia; divlia.
Qed.

Lemma periodWindow_half now :
  (100 < JSDate.getFullYear now) ->
  periodWindow half_yearly now
  = (monthStart (JSDate.getFullYear now) (halfStart (JSDate.getMonth now)),
     monthStart (JSDate.getFullYear now) (halfStart (JSDate.getMonth now) + 6) - 1).
Proof.
  intros H. unfold periodWindow.
  rewrite startOfMonth_plain, endOfMonth_plain by lia. reflexivity.
Qed.

Lemma previousWindow_half now :
  (100 < JSDate.getFullYear now) ->
  previousWindow half_yearly now
  = (monthStart (JSDate.getFullYear now) (halfStart (JSDate.getMonth now) - 6),
     monthStart (JSDate.getFullYear now) (halfStart (JSDate.getMonth now) - 6 + 6) - 1).
Proof.
  intros H. unfold previousWindow. fold (halfStart (JSDate.getMonth now)).
  pose proof (JSDateFacts.MonthFromTime_range now) as R. fold (JSDate.getMonth now) in R.
  destruct (halfStart_cases _ R) as [[_ E] | [_ E]]; rewrite E.
  - change (0 - 6 <? 0) with true. cbv iota.
    rewrite startOfMonth_plain, endOfMonth_plain by lia.
    change (0 - 6 + 12) with ((0 - 6) mod 12).
    replace (JSDate.getFullYear now - 1) with (JSDate.getFullYear now + (0 - 6) / 12)
      by (change ((0 - 6) / 12) with (-1); lia).
    pose proof (monthStart_normal (JSDate.getFullYear now) (0 - 6) 0) as N0.
    rewrite !Z.add_0_r in N0. rewrite N0, monthStart_normal. reflexivity.
  - change (6 - 6 <? 0) with false. cbv iota.
    rewrite startOfMonth_plain, endOfMonth_plain by lia. reflexivity.
Qed.

Lemma periodDays_half now :
  (100 < JSDate.getFullYear now) ->
  periodDays half_yearly now
  = inject_Z (daysInHalf (JSDate.getFullYear now) (halfStart (JSDate.getMonth now))).
Proof.
  intros H. unfold periodDays. rewrite periodWindow_half by exact H. cbn [fst snd].
  apply halfDays.
Qed.

Lemma previousDays_half now :
  (100 < JSDate.getFullYear now) ->
  previousDays half_yearly now
  = inject_Z (daysInHalf (JSDate.getFullYear now) (halfStart (JSDate.getMonth now) - 6)).
Proof.
  intros H. unfold previousDays. rewrite previousWindow_half by exact H. cbn [fst snd].
  apply halfDays.
Qed.

Lemma endOfYear_plain y :
  (y < 0 \/ 99 < y) ->
  JSDate.setHours (JSDate.ofYMD y 11 31) 23 59 59 999 = monthStart y 12 - 1.
Proof.
  intros H. rewrite ofYMD_plain by exact H. rewrite setHours_end.
  rewrite JSDateFacts.Day_MakeDate by (unfold JSDate.msPerDay; lia).
  assert (E : JSDate.MakeDay y 12 1 = JSDate.MakeDay y 11 31 + 1).
  { rewrite !JSDateFacts.MakeDay_unfold.
    change (12 / 12) with 1. change (12 mod 12) with 0.
    change (11 / 12) with 0. change (11 mod 12) with 11.
    replace (y + 0) with y by lia. rewrite JSDateFacts.DayFromYear_succ.
  cbn [JSDate.MonthStartDay]. unfold leapDays.
    destruct (JSDateFacts.DaysInYear_cases y) as [E | E]; rewrite E;
      cbn [Z.eqb Pos.eqb]; lia. }
  unfold monthStart, JSDate.MakeDate. rewrite E. lia.
Qed.

Lemma yearLength y : monthStart y 12 = monthStart y 0 + JSDate.DaysInYear y * JSDate.msPerDay.
Proof.
  unfold monthStart, JSDate.MakeDate. rewrite !JSDateFacts.MakeDay_unfold.
  change (12 / 12) with 1. change (12 mod 12) with 0.
  change (0 / 12) with 0. change (0 mod 12) with 0.
  replace (y + 0) with y by lia. rewrite JSDateFacts.DayFromYear_succ.
  cbn [JSDate.MonthStartDay]. lia.
Qed.

Lemma periodWindow_yearly now :
  (100 < JSDate.getFullYear now) ->
  periodWindow yearly now
  = (monthStart (JSDate.getFullYear now) 0, monthStart (JSDate.getFullYear now) 12 - 1).
Proof.
  intros H. unfold periodWindow.
  rewrite startOfMonth_plain, endOfYear_plain by lia. reflexivity.
Qed.

Lemma previousWindow_yearly now :
  (100 < JSDate.getFullYear now) ->
  previousWindow yearly now
  = (monthStart (JSDate.getFullYear now - 1) 0, monthStart (JSDate.getFullYear now - 1) 12 - 1).
Proof.
  intros H. unfold previousWindow.
  rewrite startOfMonth_plain, endOfYear_plain by lia. reflexivity.
Qed.

Lemma leapRule y :
  (if Z.rem y 4 =? 0 then 366 else 365) = JSDate.DaysInYear y
  <-> ~ (y mod 100 = 0 /\ y mod 400 <> 0).
Proof.
  assert (R : (Z.rem y 4 =? 0) = (y mod 4 =? 0)).
  { destruct (Z.eqb_spec (Z.rem y 4) 0), (Z.eqb_spec (y mod 4) 0); try reflexivity; exfalso.
    - apply Z.rem_divide in e; [ | lia ]. apply Z.mod_divide in e; lia.
    - apply Z.mod_divide in e; [ | lia ]. apply Z.rem_divide in e; lia. }
  rewrite R. unfold JSDate.DaysInYear. zbool; split; intros; try lia; try divlia.
Qed.

End Calendar.

(** ** The divisions of a period summary *)

Lemma inject_Z_ge_1 z : 0 < inject_Z z -> 1 <= inject_Z z.
Proof.
  intros H. rewrite <- (Zlt_Qlt 0) in H. change 1 with (inject_Z 1).
  rewrite <- Zle_Qle. lia.
Qed.

Lemma periodDays_ge_1 timePeriod now : 1 <= periodDays timePeriod now.
Proof.
  pose proof (periodDays_pos timePeriod now) as H. revert H.
  destruct timePeriod; unfold periodDays.
  - intros _. discriminate.
  - apply inject_Z_ge_1.
  - unfold Math_ceil. apply inject_Z_ge_1.
  - intros _. destruct (Z.rem (JSDate.getFullYear now) 4 =? 0)%Z; discriminate.
Qed.

Section PeriodRates.

Variable Date_parse : string -> option Z.

(** C9. Whatever the transactions and the date, in the summary of each
    period query [averageDaily] is the total expenses divided by a number
    of days that is at least 1, so it is 0 when the expenses are 0;
    [savingsRate] is 0 when the income is 0, and otherwise the income is
    positive and [savingsRate] is [netAmount / totalIncome * 100]: no
    division has a zero divisor.  For a date after the year 100 the number
    of days is 7 for the week, the number of days of the calendar month,
    366 or 365 for the year as it is divisible by 4 or not, and for the
    half year the number of days of the calendar half year to within one
    day: the code takes it from the time between the two ends of the
    window, rounded up to whole days.  Nothing is stated of finiteness:
    the totals are sums of doubles, which can overflow. *)
Theorem period_rates_guarded (h : Heap) (this : AnalyticsEngine.t) (now : Z)
    (timePeriod : TimePeriod) :
  let s := periodData Date_parse h this now timePeriod in
  let year := JSDate.getFullYear now in
  let month := JSDate.getMonth now in
  (exists days : Q,
     TimeBasedAnalytics.averageDaily s = TimeBasedAnalytics.totalExpenses s / days
     /\ 1 <= days
     /\ ((100 < year)%Z ->
         match timePeriod with
         | weekly => days == 7
         | monthly => days == inject_Z (daysInMonth year month)
         | half_yearly =>
             inject_Z (daysInHalf year (halfStart month)) - 1 <= days
             <= inject_Z (daysInHalf year (halfStart month)) + 1
         | yearly => days == if (year mod 4 =? 0)%Z then 366 else 365
         end))
  /\ (TimeBasedAnalytics.totalExpenses s == 0 -> TimeBasedAnalytics.averageDaily s == 0)
  /\ (TimeBasedAnalytics.totalIncome s == 0 -> TimeBasedAnalytics.savingsRate s = 0)
  /\ (~ TimeBasedAnalytics.totalIncome s == 0 ->
      0 < TimeBasedAnalytics.totalIncome s
      /\ TimeBasedAnalytics.savingsRate s
         = TimeBasedAnalytics.netAmount s / TimeBasedAnalytics.totalIncome s * 100).
Proof.
  intros s year month.
  assert (D : exists days : Q,
            TimeBasedAnalytics.averageDaily s = TimeBasedAnalytics.totalExpenses s / days
            /\ 1 <= days
            /\ ((100 < year)%Z ->
                match timePeriod with
                | weekly => days == 7
                | monthly => days == inject_Z (daysInMonth year month)
                | half_yearly =>
                    inject_Z (daysInHalf year (halfStart month)) - 1 <= days
                    <= inject_Z (daysInHalf year (halfStart month)) + 1
                | yearly => days == if (year mod 4 =? 0)%Z then 366 else 365
                end)).
  { exists (periodDays timePeriod now).
    split; [ subst s; rewrite periodData_unfold; reflexivity | ].
    split; [ apply periodDays_ge_1 | ].
    intros Hy. destruct timePeriod.
    - reflexivity.
    - rewrite periodDays_monthly by exact Hy. reflexivity.
    - rewrite periodDays_half by exact Hy. fold year month.
      generalize (inject_Z (daysInHalf year (halfStart month))). intros d. lra.
    - unfold periodDays. fold year.
      rewrite Z.rem_mod_nonneg by lia. reflexivity. }
  split; [ exact D | ].
  destruct D as [days (Ea & Hdays & _)].
  revert Ea. subst s. rewrite periodData_unfold.
  generalize (windowTransactions Date_parse h this timePeriod now) (periodName timePeriod)
             (periodDays timePeriod now).
  intros w name days'.
  cbv beta iota zeta delta
    [calculatePeriodAnalytics TimeBasedAnalytics.totalIncome TimeBasedAnalytics.totalExpenses
     TimeBasedAnalytics.netAmount TimeBasedAnalytics.averageDaily
     TimeBasedAnalytics.savingsRate].
  pose proof (sumAbsAmount_nonneg (filter (hasType Income) w)) as Hin.
  set (income := sumAbsAmount (filter (hasType Income) w)) in *.
  set (expenses := sumAbsAmount (filter (hasType Expense) w)) in *.
  intros Ea.
  split; [ intros H; rewrite Ea, H; field; lra | ].
  split.
  - intros H. destruct (Qltb_spec 0 income); [ lra | reflexivity ].
  - intros H. assert (0 < income) as L.
    { destruct (Qlt_le_dec 0 income) as [L | L]; [ exact L | ].
      exfalso. apply H. lra. }
    split; [ exact L | ].
    destruct (Qltb_spec 0 income); [ reflexivity | contradiction ].
Qed.

End PeriodRates.

(** The rates on doubles.  Two incomes and two expenses of 1e308 each in
    the week of the current date: in each of the four period queries both
    totals overflow to [Infinity], [netAmount] is [Infinity - Infinity],
    and so [savingsRate] is [NaN]; [averageDaily] is [Infinity]. *)
Lemma overflowing_totals_are_not_finite :
  Forall
    (fun timePeriod =>
       let s :=
         Binary64.periodData JSDate.parseISODate huge_amounts mid_march_2024 timePeriod in
       Binary64.TimeBasedAnalytics.totalIncome s = infinity
       /\ Binary64.TimeBasedAnalytics.totalExpenses s = infinity
       /\ PrimFloat.is_nan (Binary64.TimeBasedAnalytics.savingsRate s) = true
       /\ Binary64.TimeBasedAnalytics.averageDaily s = infinity
       /\ Binary64.isFinite (Binary64.TimeBasedAnalytics.savingsRate s) = false
       /\ Binary64.isFinite (Binary64.TimeBasedAnalytics.averageDaily s) = false)
    [ weekly; monthly; half_yearly; yearly ].
Proof. repeat constructor. Qed.

(** * Further properties

    What the code shows beyond the specification: the windows of the
    queries on the calendar, the transactions the queries ignore or treat
    alike, the categories entry by entry, the order the constructor leaves,
    the ranges of the rates and scores, and what the dashboard, the
    analytics page, the insights and the store make of it all. *)

(** ** The windows of the period queries on the calendar *)

Section CalendarWindows.

Local Open Scope Z_scope.

Variable Date_parse : string -> option Z.
Variables (h : Heap) (this : AnalyticsEngine.t).

Lemma span_of_window startDate endDate days :
  endDate = startDate + days * JSDate.msPerDay - 1 ->
  getTransactionsInPeriod Date_parse h this startDate endDate
  = spanTransactions Date_parse h this startDate days.
Proof. intros ->. reflexivity. Qed.

Lemma periodData_span now timePeriod startDate days :
  periodWindow timePeriod now = (startDate, startDate + days * JSDate.msPerDay - 1) ->
  periodData Date_parse h this now timePeriod
  = calculatePeriodAnalytics (spanTransactions Date_parse h this startDate days)
      (periodName timePeriod) (periodDays timePeriod now).
Proof.
  intros W. rewrite periodData_unfold. unfold windowTransactions. rewrite W. reflexivity.
Qed.

Lemma comparison_span now timePeriod startDate days previousStart previousLength :
  periodWindow timePeriod now = (startDate, startDate + days * JSDate.msPerDay - 1) ->
  previousWindow timePeriod now
  = (previousStart, previousStart + previousLength * JSDate.msPerDay - 1) ->
  comparison Date_parse h this now timePeriod
  = let current :=
      calculatePeriodAnalytics (spanTransactions Date_parse h this startDate days)
        (currentName timePeriod) (periodDays timePeriod now) in
    let previous :=
      calculatePeriodAnalytics
        (spanTransactions Date_parse h this previousStart previousLength)
        (previousName timePeriod) (previousDays timePeriod now) in
    MonthlyComparison.mk current previous (growthOf current previous).
Proof.
  intros W P. rewrite comparison_unfold. unfold windowTransactions. rewrite W, P.
  reflexivity.
Qed.

(** X1. Whatever the date, the weekly queries work on the calendar week of
    [now] that starts on Sunday: [weekStart now] is a Sunday at midnight and
    [now] lies in the 7 days that start there; [getWeeklyAnalytics]
    summarises the transactions dated within these 7 days, to the last
    millisecond, and divides the expenses by 7; [getWeeklyComparison]
    compares them with the transactions of the 7 days just before. *)
Theorem weekly_queries_calendar_week (now : Z) :
  let startOfWeek := weekStart now in
  JSDate.getDay startOfWeek = 0
  /\ JSDate.TimeWithinDay startOfWeek = 0
  /\ startOfWeek <= now < startOfWeek + 7 * JSDate.msPerDay
  /\ getWeeklyAnalytics Date_parse h this now
     = calculatePeriodAnalytics (spanTransactions Date_parse h this startOfWeek 7)
         "This Week" 7
  /\ getWeeklyComparison Date_parse h this now
     = (let current :=
          calculatePeriodAnalytics (spanTransactions Date_parse h this startOfWeek 7)
            "Current Week" 7 in
        let previous :=
          calculatePeriodAnalytics
            (spanTransactions Date_parse h this (startOfWeek - 7 * JSDate.msPerDay) 7)
            "Previous Week" 7 in
        MonthlyComparison.mk current previous (growthOf current previous)).
Proof.
  intros startOfWeek.
  destruct (weekStart_sunday now) as (S1 & S2 & S3).
  destruct (weekly_windows now) as [W P].
  split; [ exact S1 | split; [ exact S2 | split; [ exact S3 | split ] ] ].
  - change (getWeeklyAnalytics Date_parse h this now)
      with (periodData Date_parse h this now weekly).
    apply periodData_span. exact W.
  - change (getWeeklyComparison Date_parse h this now)
      with (comparison Date_parse h this now weekly).
    apply comparison_span; [ exact W | ].
    rewrite P. apply f_equal2; [ reflexivity | ]. fold startOfWeek. lia.
Qed.

(** X2. For a date after the year 100, the monthly queries work on the
    calendar month of [now]: the month contains [now], has 28 to 31 days
    and starts where the month before it ends; [getMonthlyAnalytics]
    summarises the transactions dated from its first to its last
    millisecond and divides the expenses by its number of days;
    [getMonthlyComparison] compares it with the calendar month before,
    whose expenses are divided by that month's number of days. *)
Theorem monthly_queries_calendar_month (now : Z) :
  100 < JSDate.getFullYear now ->
  let year := JSDate.getFullYear now in
  let month := JSDate.getMonth now in
  monthStart year month <= now < monthStart year month + daysInMonth year month * JSDate.msPerDay
  /\ 28 <= daysInMonth year month <= 31
  /\ monthStart year (month - 1) + daysInMonth year (month - 1) * JSDate.msPerDay
     = monthStart year month
  /\ getMonthlyAnalytics Date_parse h this now
     = calculatePeriodAnalytics
         (spanTransactions Date_parse h this (monthStart year month) (daysInMonth year month))
         "This Month" (inject_Z (daysInMonth year month))
  /\ getMonthlyComparison Date_parse h this now
     = (let current :=
          calculatePeriodAnalytics
            (spanTransactions Date_parse h this (monthStart year month)
               (daysInMonth year month))
            "Current Month" (inject_Z (daysInMonth year month)) in
        let previous :=
          calculatePeriodAnalytics
            (spanTransactions Date_parse h this (monthStart year (month - 1))
               (daysInMonth year (month - 1)))
            "Previous Month" (inject_Z (daysInMonth year (month - 1))) in
        MonthlyComparison.mk current previous (growthOf current previous)).
Proof.
  intros Hy year month.
  assert (W : periodWindow monthly now
              = (monthStart year month,
                 monthStart year month + daysInMonth year month * JSDate.msPerDay - 1)).
  { rewrite periodWindow_monthly by exact Hy. fold year month.
    rewrite monthStart_next. reflexivity. }
  assert (P : previousWindow monthly now
              = (monthStart year (month - 1),
                 monthStart year (month - 1)
                 + daysInMonth year (month - 1) * JSDate.msPerDay - 1)).
  { rewrite previousWindow_monthly by exact Hy. fold year month.
    rewrite monthStart_next. reflexivity. }
  split; [ | split; [ apply daysInMonth_range | split; [ | split ] ] ].
  - rewrite <- monthStart_next. apply now_in_its_month.
  - rewrite <- monthStart_next. f_equal. lia.
  - change (getMonthlyAnalytics Date_parse h this now)
      with (periodData Date_parse h this now monthly).
    rewrite (periodData_span _ _ _ _ W), periodDays_monthly by exact Hy. reflexivity.
  - change (getMonthlyComparison Date_parse h this now)
      with (comparison Date_parse h this now monthly).
    rewrite (comparison_span _ _ _ _ _ _ W P), periodDays_monthly, previousDays_monthly
      by exact Hy.
    reflexivity.
Qed.

(** X3. For a date after the year 100, the half-yearly queries work on the
    calendar half year of [now]: it starts in January or in July, contains
    [now], and has 181 days (182 in a leap year) or 184; the half year
    before it ends where it starts.  [getHalfYearlyAnalytics] summarises
    the transactions dated within it, and [getHalfYearlyComparison]
    compares it with the half year before.  The expenses of each are
    divided by its number of days to within one day: the code takes the
    divisor from the time between the two ends of the window, rounded up
    to whole days. *)
Theorem half_yearly_queries_calendar_half (now : Z) :
  100 < JSDate.getFullYear now ->
  let year := JSDate.getFullYear now in
  let first := halfStart (JSDate.getMonth now) in
  let days := daysInHalf year first in
  let previousLength := daysInHalf year (first - 6) in
  first = (if JSDate.getMonth now <? 6 then 0 else 6)
  /\ days = (if JSDate.getMonth now <? 6 then 181 + leapDays year else 184)
  /\ previousLength = (if JSDate.getMonth now <? 6 then 184 else 181 + leapDays year)
  /\ monthStart year first <= now < monthStart year first + days * JSDate.msPerDay
  /\ monthStart year (first - 6) + previousLength * JSDate.msPerDay = monthStart year first
  /\ exists divisor previousDivisor : Q,
       (inject_Z days - 1 <= divisor <= inject_Z days + 1)%Q
       /\ (inject_Z previousLength - 1 <= previousDivisor <= inject_Z previousLength + 1)%Q
       /\ getHalfYearlyAnalytics Date_parse h this now
          = calculatePeriodAnalytics
              (spanTransactions Date_parse h this (monthStart year first) days)
              "This Half Year" divisor
       /\ getHalfYearlyComparison Date_parse h this now
          = (let current :=
               calculatePeriodAnalytics
                 (spanTransactions Date_parse h this (monthStart year first) days)
                 "Current Half Year" divisor in
             let previous :=
               calculatePeriodAnalytics
                 (spanTransactions Date_parse h this (monthStart year (first - 6))
                    previousLength)
                 "Previous Half Year" previousDivisor in
             MonthlyComparison.mk current previous (growthOf current previous)).
Proof.
  intros Hy year first days previousLength.
  pose proof (JSDateFacts.MonthFromTime_range now) as R. fold (JSDate.getMonth now) in R.
  assert (N : forall m,
            monthStart year (m + 6)
            = monthStart year m + daysInHalf year m * JSDate.msPerDay).
  { intros m. unfold monthStart, daysInHalf, JSDate.MakeDate. lia. }
  assert (W : periodWindow half_yearly now
              = (monthStart year first, monthStart year first + days * JSDate.msPerDay - 1)).
  { rewrite periodWindow_half by exact Hy. fold year first. rewrite N. reflexivity. }
  assert (P : previousWindow half_yearly now
              = (monthStart year (first - 6),
                 monthStart year (first - 6) + previousLength * JSDate.msPerDay - 1)).
  { rewrite previousWindow_half by exact Hy. fold year first. rewrite N. reflexivity. }
  assert (F : first = (if JSDate.getMonth now <? 6 then 0 else 6)).
  { destruct (halfStart_cases _ R) as [[L E] | [L E]]; fold first in E; rewrite E;
      destruct (Z.ltb_spec (JSDate.getMonth now) 6); try reflexivity; lia. }
  split; [ exact F | ].
  split; [ | split; [ | split; [ | split ] ] ].
  - unfold days. rewrite F. destruct (JSDate.getMonth now <? 6);
      [ apply daysInHalf_first | apply daysInHalf_second ].
  - unfold previousLength. rewrite F. destruct (JSDate.getMonth now <? 6).
    + change (0 - 6) with (-6).
      assert (E : daysInHalf year (-6) = daysInHalf (year - 1) 6).
      { unfold daysInHalf. rewrite !JSDateFacts.MakeDay_unfold.
        change ((-6 + 6) / 12) with 0. change ((-6 + 6) mod 12) with 0.
        change (-6 / 12) with (-1). change (-6 mod 12) with 6.
        change ((6 + 6) / 12) with 1. change ((6 + 6) mod 12) with 0.
        change (6 / 12) with 0. change (6 mod 12) with 6.
        replace (year - 1 + 1) with (year + 0) by lia.
        replace (year - 1 + 0) with (year + -1) by lia. reflexivity. }
      rewrite E. apply daysInHalf_second.
    + change (6 - 6) with 0. apply daysInHalf_first.
  - rewrite <- N. pose proof (now_in_its_month now) as I. fold year in I.
    assert (A : monthStart year first <= monthStart year (JSDate.getMonth now)).
    { pose proof (monthStart_le year first (Z.to_nat (JSDate.getMonth now - first))) as L.
      replace (first + Z.of_nat (Z.to_nat (JSDate.getMonth now - first)))
        with (JSDate.getMonth now) in L; [ exact L | ].
      rewrite F. destruct (Z.ltb_spec (JSDate.getMonth now) 6); lia. }
    assert (B : monthStart year (JSDate.getMonth now + 1) <= monthStart year (first + 6)).
    { pose proof (monthStart_le year (JSDate.getMonth now + 1)
                    (Z.to_nat (first + 6 - (JSDate.getMonth now + 1)))) as L.
      replace (JSDate.getMonth now + 1
               + Z.of_nat (Z.to_nat (first + 6 - (JSDate.getMonth now + 1))))
        with (first + 6) in L; [ exact L | ].
      rewrite F. destruct (Z.ltb_spec (JSDate.getMonth now) 6); lia. }
    lia.
  - rewrite <- N. f_equal. lia.
  - exists (inject_Z days), (inject_Z previousLength).
    split; [ generalize (inject_Z days); intros d; lra | ].
    split; [ generalize (inject_Z previousLength); intros d; lra | ].
    split.
    + change (getHalfYearlyAnalytics Date_parse h this now)
        with (periodData Date_parse h this now half_yearly).
      rewrite (periodData_span _ _ _ _ W), periodDays_half by exact Hy. reflexivity.
    + change (getHalfYearlyComparison Date_parse h this now)
        with (comparison Date_parse h this now half_yearly).
      rewrite (comparison_span _ _ _ _ _ _ W P), periodDays_half, previousDays_half
        by exact Hy.
      reflexivity.
Qed.

(** X4. For a date after the year 100, the yearly queries work on the
    calendar year of [now], from 1 January to the last millisecond of
    31 December, and compare it with the calendar year before.  The
    expenses are divided by 366 when the year is divisible by 4 and by 365
    otherwise: this is the number of days of the year except in the years
    divisible by 100 and not by 400 (2100, 2200, ...), where the code
    divides by 366 a year of 365 days. *)
Theorem yearly_queries_calendar_year (now : Z) :
  100 < JSDate.getFullYear now ->
  let year := JSDate.getFullYear now in
  let divisor (y : Z) : Q := if Z.rem y 4 =? 0 then 366%Q else 365%Q in
  monthStart year 0 <= now < monthStart year 0 + JSDate.DaysInYear year * JSDate.msPerDay
  /\ monthStart (year - 1) 0 + JSDate.DaysInYear (year - 1) * JSDate.msPerDay
     = monthStart year 0
  /\ getAnnualAnalytics Date_parse h this now
     = calculatePeriodAnalytics
         (spanTransactions Date_parse h this (monthStart year 0) (JSDate.DaysInYear year))
         "This Year" (divisor year)
  /\ getYearlyComparison Date_parse h this now
     = (let current :=
          calculatePeriodAnalytics
            (spanTransactions Date_parse h this (monthStart year 0) (JSDate.DaysInYear year))
            "Current Year" (divisor year) in
        let previous :=
          calculatePeriodAnalytics
            (spanTransactions Date_parse h this (monthStart (year - 1) 0)
               (JSDate.DaysInYear (year - 1)))
            "Previous Year" (divisor (year - 1)) in
        MonthlyComparison.mk current previous (growthOf current previous))
  /\ (forall y, (divisor y == inject_Z (JSDate.DaysInYear y))%Q
                <-> ~ (y mod 100 = 0 /\ y mod 400 <> 0)).
Proof.
  intros Hy year divisor.
  assert (W : periodWindow yearly now
              = (monthStart year 0,
                 monthStart year 0 + JSDate.DaysInYear year * JSDate.msPerDay - 1)).
  { rewrite periodWindow_yearly by exact Hy. fold year. rewrite yearLength. reflexivity. }
  assert (P : previousWindow yearly now
              = (monthStart (year - 1) 0,
                 monthStart (year - 1) 0
                 + JSDate.DaysInYear (year - 1) * JSDate.msPerDay - 1)).
  { rewrite previousWindow_yearly by exact Hy. fold year. rewrite yearLength. reflexivity. }
  assert (Y1 : monthStart (year - 1) 12 = monthStart year 0).
  { unfold monthStart. rewrite !JSDateFacts.MakeDay_unfold.
    change (12 / 12) with 1. change (12 mod 12) with 0.
    change (0 / 12) with 0. change (0 mod 12) with 0.
    replace (year - 1 + 1) with (year + 0) by lia. reflexivity. }
  split; [ | split; [ | split; [ | split ] ] ].
  - rewrite <- yearLength. pose proof (now_in_its_month now) as I. fold year in I.
    pose proof (monthStart_le year 0 (Z.to_nat (JSDate.getMonth now))) as A.
    pose proof (monthStart_le year (JSDate.getMonth now + 1)
                  (Z.to_nat (11 - JSDate.getMonth now))) as B.
    pose proof (JSDateFacts.MonthFromTime_range now) as R. fold (JSDate.getMonth now) in R.
    replace (0 + Z.of_nat (Z.to_nat (JSDate.getMonth now))) with (JSDate.getMonth now) in A
      by lia.
    replace (JSDate.getMonth now + 1 + Z.of_nat (Z.to_nat (11 - JSDate.getMonth now)))
      with 12 in B by lia.
    lia.
  - rewrite <- yearLength. exact Y1.
  - change (getAnnualAnalytics Date_parse h this now)
      with (periodData Date_parse h this now yearly).
    rewrite (periodData_span _ _ _ _ W). reflexivity.
  - change (getYearlyComparison Date_parse h this now)
      with (comparison Date_parse h this now yearly).
    rewrite (comparison_span _ _ _ _ _ _ W P). reflexivity.
  - intros y. rewrite <- leapRule. unfold divisor.
    destruct (Z.rem y 4 =? 0); destruct (JSDateFacts.DaysInYear_cases y) as [E | E];
      rewrite E; split; intros H; try reflexivity; try discriminate H; try lia.
Qed.

End CalendarWindows.

(** ** Dates that do not parse *)

Section InvalidDates.

Variable Date_parse : string -> option Z.
Variable Math_sqrt : Q -> Q.

Lemma inPeriod_valid s e t :
  inPeriod Date_parse s e t = true -> hasValidDate Date_parse t = true.
Proof.
  unfold inPeriod, hasValidDate.
  destruct (Date_parse (Transaction.date t)); [ reflexivity | discriminate ].
Qed.

Lemma filter_filter_implied {A} (p q : A -> bool) l :
  (forall x, p x = true -> q x = true) -> filter p (filter q l) = filter p l.
Proof.
  intros H. induction l as [| x l IH]; cbn [filter]; [ reflexivity | ].
  destruct (q x) eqn:Q; cbn [filter].
  - rewrite IH. reflexivity.
  - destruct (p x) eqn:P; [ | exact IH ].
    rewrite (H x P) in Q. discriminate.
Qed.

Lemma deref_assign_filter h r (p : Transaction.t -> bool) :
  deref (assign h r (filter p (deref h r))) r = filter p (deref h r).
Proof.
  unfold deref. revert r.
  induction h as [| a h IH]; intros [| r]; cbn [assign nth]; try reflexivity.
  apply IH.
Qed.

Section Engines.

Variables (h : Heap) (this : AnalyticsEngine.t).

Lemma getTransactionsInPeriod_cleaned s e :
  getTransactionsInPeriod Date_parse (withoutInvalidDates Date_parse h this) this s e
  = getTransactionsInPeriod Date_parse h this s e.
Proof.
  unfold getTransactionsInPeriod, withoutInvalidDates. rewrite deref_assign_filter.
  apply filter_filter_implied. apply inPeriod_valid.
Qed.

Lemma periodData_cleaned now timePeriod :
  periodData Date_parse (withoutInvalidDates Date_parse h this) this now timePeriod
  = periodData Date_parse h this now timePeriod.
Proof.
  rewrite !periodData_unfold. unfold windowTransactions.
  rewrite getTransactionsInPeriod_cleaned. reflexivity.
Qed.

Lemma comparison_cleaned now timePeriod :
  comparison Date_parse (withoutInvalidDates Date_parse h this) this now timePeriod
  = comparison Date_parse h this now timePeriod.
Proof.
  rewrite !comparison_unfold. unfold windowTransactions.
  rewrite !getTransactionsInPeriod_cleaned. reflexivity.
Qed.

Lemma getSpendingTrends_cleaned now :
  getSpendingTrends Date_parse (withoutInvalidDates Date_parse h this) this now
  = getSpendingTrends Date_parse h this now.
Proof.
  unfold getSpendingTrends. apply map_ext. intros i. cbv zeta.
  rewrite getTransactionsInPeriod_cleaned. reflexivity.
Qed.

Lemma getCategoryComparison_cleaned now :
  getCategoryComparison Date_parse (withoutInvalidDates Date_parse h this) this now
  = getCategoryComparison Date_parse h this now.
Proof.
  unfold getCategoryComparison. cbv zeta.
  rewrite !getTransactionsInPeriod_cleaned. reflexivity.
Qed.

Lemma getFinancialHealthScore_cleaned now :
  getFinancialHealthScore Date_parse Math_sqrt (withoutInvalidDates Date_parse h this) this now
  = getFinancialHealthScore Date_parse Math_sqrt h this now.
Proof.
  unfold getFinancialHealthScore.
  change (getMonthlyAnalytics Date_parse (withoutInvalidDates Date_parse h this) this now)
    with (periodData Date_parse (withoutInvalidDates Date_parse h this) this now monthly).
  change (getMonthlyComparison Date_parse (withoutInvalidDates Date_parse h this) this now)
    with (comparison Date_parse (withoutInvalidDates Date_parse h this) this now monthly).
  rewrite periodData_cleaned, comparison_cleaned, getSpendingTrends_cleaned.
  reflexivity.
Qed.

End Engines.

(** X5. A transaction whose date does not parse is in no window: it is
    left out of every query, without an error.  Removing these transactions
    from the engine's array changes the result of no period query, no
    comparison, neither the trend, the category comparison nor the health
    score. *)
Theorem unparseable_dates_are_ignored (h : Heap) (this : AnalyticsEngine.t) (now : Z) :
  let cleaned := withoutInvalidDates Date_parse h this in
  deref cleaned (AnalyticsEngine.transactions this)
  = filter (hasValidDate Date_parse) (deref h (AnalyticsEngine.transactions this))
  /\ (forall startDate endDate t,
        In t (getTransactionsInPeriod Date_parse h this startDate endDate) ->
        hasValidDate Date_parse t = true)
  /\ (forall timePeriod,
        periodData Date_parse cleaned this now timePeriod
        = periodData Date_parse h this now timePeriod)
  /\ (forall timePeriod,
        comparison Date_parse cleaned this now timePeriod
        = comparison Date_parse h this now timePeriod)
  /\ getSpendingTrends Date_parse cleaned this now = getSpendingTrends Date_parse h this now
  /\ getCategoryComparison Date_parse cleaned this now
     = getCategoryComparison Date_parse h this now
  /\ getFinancialHealthScore Date_parse Math_sqrt cleaned this now
     = getFinancialHealthScore Date_parse Math_sqrt h this now.
Proof.
  intros cleaned. split; [ apply deref_assign_filter | ].
  split.
  { intros s e t Ht. apply filter_In in Ht. apply (inPeriod_valid s e), Ht. }
  split; [ intros p; apply periodData_cleaned | ].
  split; [ intros p; apply comparison_cleaned | ].
  split; [ apply getSpendingTrends_cleaned | ].
  split; [ apply getCategoryComparison_cleaned | apply getFinancialHealthScore_cleaned ].
Qed.

End InvalidDates.

(** ** The category map, entry by entry *)

Lemma Map_get_Map_set {V} (m : list (string * V)) k v k' :
  Map_get (Map_set m k v) k' = if String.eqb k k' then Some v else Map_get m k'.
Proof.
  induction m as [| [k0 v0] m IH]; cbn [Map_set Map_get].
  - destruct (String.eqb k k'); reflexivity.
  - destruct (String.eqb_spec k0 k) as [-> | N]; cbn [Map_get].
    + destruct (String.eqb k k'); reflexivity.
    + rewrite IH. destruct (String.eqb_spec k0 k') as [-> | N'].
      * destruct (String.eqb_spec k k'); [ congruence | reflexivity ].
      * reflexivity.
Qed.

Lemma Map_get_In {V} (m : list (string * V)) k v :
  NoDup (map fst m) -> In (k, v) m -> Map_get m k = Some v.
Proof.
  induction m as [| [k0 v0] m IH]; intros Hn Hin; [ contradiction | ].
  cbn [map fst] in Hn. inversion Hn as [| ? ? Hk Hm]; subst.
  cbn [Map_get]. destruct Hin as [E | Hin].
  - injection E as -> ->. rewrite String.eqb_refl. reflexivity.
  - destruct (String.eqb_spec k0 k) as [-> | N].
    + exfalso. apply Hk. apply (in_map fst) in Hin. exact Hin.
    + apply IH; assumption.
Qed.

Lemma getOrZero_tally m t k :
  getOrZero (tally m t) k
  = if String.eqb (Transaction.category t) k
    then CategoryData.mk
           (CategoryData.amount (getOrZero m (Transaction.category t))
            + Qabs (Transaction.amount t))
           (CategoryData.count (getOrZero m (Transaction.category t)) + 1)
    else getOrZero m k.
Proof.
  unfold tally. fold (getOrZero m (Transaction.category t)).
  unfold getOrZero at 1. rewrite Map_get_Map_set.
  destruct (String.eqb (Transaction.category t) k); reflexivity.
Qed.

(** What [tally] has added to the entry of category [k] after the
    transactions [l]. *)
Lemma tally_entry l k : forall m,
  CategoryData.amount (getOrZero (fold_left tally l m) k)
  == CategoryData.amount (getOrZero m k)
     + Qsum (map absAmount (filter (fun t => String.eqb (Transaction.category t) k) l))
  /\ CategoryData.count (getOrZero (fold_left tally l m) k)
     = (CategoryData.count (getOrZero m k)
        + Z.of_nat (List.length
                      (filter (fun t => String.eqb (Transaction.category t) k) l)))%Z.
Proof.
  induction l as [| t l IH]; intros m; cbn [fold_left filter].
  - cbn [map List.length]. change (Qsum []) with 0. split; [ ring | cbn; lia ].
  - destruct (IH (tally m t)) as [Ha Hc]. rewrite Ha, Hc. clear IH Ha Hc.
    rewrite getOrZero_tally.
    destruct (String.eqb_spec (Transaction.category t) k) as [E | N].
    + cbn [CategoryData.amount CategoryData.count map List.length].
      rewrite Qsum_cons, E. unfold absAmount at 2. split; [ ring | lia ].
    + split; reflexivity.
Qed.

Lemma categoryMap_NoDup transactions : NoDup (map fst (categoryMapOf transactions)).
Proof. rewrite categoryMap_keys. apply NoDup_Set_from. Qed.

Lemma categoryMap_entry transactions k d :
  In (k, d) (categoryMapOf transactions) ->
  CategoryData.amount d == categoryTotal transactions k
  /\ CategoryData.count d = Z.of_nat (List.length (categoryExpenses transactions k)).
Proof.
  intros Hin.
  pose proof (Map_get_In _ _ _ (categoryMap_NoDup transactions) Hin) as G.
  destruct (tally_entry (filter (hasType Expense) transactions) k []) as [Ha Hc].
  fold (categoryMapOf transactions) in Ha, Hc.
  unfold getOrZero in Ha, Hc. rewrite G in Ha, Hc. cbn [Map_get] in Ha, Hc.
  cbn [CategoryData.amount CategoryData.count] in Ha, Hc.
  split.
  - rewrite Ha. unfold categoryTotal, categoryExpenses. ring.
  - rewrite Hc. unfold categoryExpenses. lia.
Qed.

Lemma NoDup_firstn {A} n (l : list A) : NoDup l -> NoDup (firstn n l).
Proof.
  intros H. revert n. induction H as [| x l Hx Hl IH]; intros [| n]; cbn [firstn];
    try constructor.
  - intros Hin. apply Hx. eapply In_firstn. exact Hin.
  - apply IH.
Qed.

Lemma StronglySorted_app {A} (R : A -> A -> Prop) l1 l2 :
  StronglySorted R (l1 ++ l2) -> forall a b, In a l1 -> In b l2 -> R a b.
Proof.
  induction l1 as [| x l1 IH]; intros Hs a b Ha Hb; [ contradiction | ].
  cbn [app] in Hs. inversion Hs as [| ? ? Hs' Hx]; subst.
  destruct Ha as [<- | Ha].
  - apply (proj1 (Forall_forall _ _) Hx). apply in_or_app. right. exact Hb.
  - apply IH; assumption.
Qed.

Lemma summaries_categories transactions :
  map CategorySummary.category (summariesOf transactions)
  = expenseCategories transactions.
Proof.
  unfold summariesOf. rewrite map_map, <- categoryMap_keys.
  apply map_ext. intros e. apply toSummary_category.
Qed.

Section TopCategoriesExact.

Variable transactions : list Transaction.t.
Variables (name : string) (days : Q).

Lemma top_exact :
  let top :=
    TimeBasedAnalytics.topCategories (calculatePeriodAnalytics transactions name days) in
  List.length top = Nat.min 5 (List.length (expenseCategories transactions))
  /\ NoDup (map CategorySummary.category top)
  /\ (forall c, In c top ->
        CategorySummary.amount c == categoryTotal transactions (CategorySummary.category c)
        /\ CategorySummary.count c
           = Z.of_nat (List.length
                         (categoryExpenses transactions (CategorySummary.category c))))
  /\ (forall k c,
        In k (expenseCategories transactions) ->
        ~ In k (map CategorySummary.category top) ->
        In c top ->
        categoryTotal transactions k <= CategorySummary.amount c).
Proof.
  intros top.
  set (sorted :=
         Array_sort (fun a b => CategorySummary.amount b - CategorySummary.amount a)
           (summariesOf transactions)).
  assert (Hperm : Permutation sorted (summariesOf transactions))
    by apply Array_sort_perm.
  assert (Htop : top = firstn 5 sorted) by apply topCategories_unfold.
  assert (Hexact : forall s, In s (summariesOf transactions) ->
            CategorySummary.amount s
            == categoryTotal transactions (CategorySummary.category s)
            /\ CategorySummary.count s
               = Z.of_nat (List.length
                             (categoryExpenses transactions (CategorySummary.category s)))).
  { intros s Hs. apply in_map_iff in Hs. destruct Hs as [[k d] [<- He]].
    cbn [toSummary CategorySummary.amount CategorySummary.count CategorySummary.category].
    apply categoryMap_entry, He. }
  split; [ | split; [ | split ] ].
  - rewrite Htop, length_firstn, (Permutation_length Hperm).
    rewrite <- summaries_categories, length_map. reflexivity.
  - rewrite Htop, <- firstn_map. apply NoDup_firstn.
    apply (Permutation_NoDup (l := map CategorySummary.category (summariesOf transactions))).
    + symmetry. apply Permutation_map, Hperm.
    + rewrite summaries_categories. apply NoDup_Set_from.
  - intros c Hc. apply Hexact. apply (Permutation_in _ Hperm).
    rewrite Htop in Hc. eapply In_firstn. exact Hc.
  - intros k c Hk Hnot Hc.
    rewrite <- summaries_categories in Hk. apply in_map_iff in Hk.
    destruct Hk as [s [Ek Hs]].
    destruct (Hexact s Hs) as [Ea _]. rewrite Ek in Ea. rewrite <- Ea.
    apply (Permutation_in _ (Permutation_sym Hperm)) in Hs.
    rewrite <- (firstn_skipn 5 sorted) in Hs. apply in_app_or in Hs.
    destruct Hs as [Hs | Hs].
    + exfalso. apply Hnot. rewrite Htop, <- Ek. apply in_map, Hs.
    + pose proof (Array_sort_sorted CategorySummary.amount (summariesOf transactions)) as S.
      fold sorted in S. rewrite <- (firstn_skipn 5 sorted) in S.
      rewrite Htop in Hc.
      exact (StronglySorted_app _ _ _ S c s Hc Hs).
Qed.

End TopCategoriesExact.

Section TopCategoriesOfQueries.

Variable Date_parse : string -> option Z.

Lemma top_categories_names_distinct (h : Heap) (this : AnalyticsEngine.t) (now : Z)
    (timePeriod : TimePeriod) :
  NoDup (map CategorySummary.category
           (TimeBasedAnalytics.topCategories
              (periodData Date_parse h this now timePeriod))).
Proof.
  rewrite periodData_unfold.
  apply (top_exact (windowTransactions Date_parse h this timePeriod now)
           (periodName timePeriod) (periodDays timePeriod now)).
Qed.

(** X6. In each period query, [topCategories] has one entry for each of
    the distinct expense categories of the window, up to 5; the categories
    of its entries are pairwise distinct; the [amount] of an entry is the
    sum of the absolute amounts of the window's expenses in its category,
    and its [count] is their number. *)
Theorem top_categories_amounts_and_counts (h : Heap) (this : AnalyticsEngine.t) (now : Z)
    (timePeriod : TimePeriod) :
  let window := windowTransactions Date_parse h this timePeriod now in
  let top := TimeBasedAnalytics.topCategories (periodData Date_parse h this now timePeriod) in
  List.length top = Nat.min 5 (List.length (expenseCategories window))
  /\ NoDup (map CategorySummary.category top)
  /\ (forall c, In c top ->
        CategorySummary.amount c == categoryTotal window (CategorySummary.category c)
        /\ CategorySummary.count c
           = Z.of_nat (List.length (categoryExpenses window (CategorySummary.category c)))).
Proof.
  intros window top. subst top. rewrite periodData_unfold. fold window.
  destruct (top_exact window (periodName timePeriod) (periodDays timePeriod now))
    as (H1 & H2 & H3 & _).
  split; [ exact H1 | split; [ exact H2 | exact H3 ] ].
Qed.

(** X7. The categories that [topCategories] leaves out are not larger than
    those it keeps: the total of an expense category of the window that is
    not among the top categories is at most the amount of each entry. *)
Theorem top_categories_are_the_largest (h : Heap) (this : AnalyticsEngine.t) (now : Z)
    (timePeriod : TimePeriod) :
  let window := windowTransactions Date_parse h this timePeriod now in
  let top := TimeBasedAnalytics.topCategories (periodData Date_parse h this now timePeriod) in
  forall k c,
    In k (expenseCategories window) ->
    ~ In k (map CategorySummary.category top) ->
    In c top ->
    categoryTotal window k <= CategorySummary.amount c.
Proof.
  intros window top. subst top. rewrite periodData_unfold. fold window.
  apply (top_exact window (periodName timePeriod) (periodDays timePeriod now)).
Qed.

End TopCategoriesOfQueries.

(** ** The category comparison *)

Lemma sumAbsAmount_categoryTotal transactions k :
  sumAbsAmount (categoryExpenses transactions k) == categoryTotal transactions k.
Proof. apply sumAbsAmount_Qsum. Qed.

Lemma categoryTotal_nonneg transactions k : 0 <= categoryTotal transactions k.
Proof. apply Qsum_absAmount_nonneg. Qed.

(** The totals of the categories of a list of distinct categories that
    holds every category of the expenses add up to the expenses. *)
Lemma Qsum_indicator (k : string) x (ks : list string) :
  NoDup ks -> In k ks ->
  Qsum (map (fun k' => if String.eqb k k' then x else 0) ks) == x.
Proof.
  induction 1 as [| k0 ks Hk Hn IH]; intros Hin; [ contradiction | ].
  cbn [map]. rewrite Qsum_cons. destruct Hin as [-> | Hin].
  - rewrite String.eqb_refl.
    rewrite (map_ext_in _ (fun _ => 0)).
    + rewrite Qsum_zeros. ring.
    + intros k' Hk'. destruct (String.eqb_spec k k') as [<- | N]; [ contradiction | reflexivity ].
  - destruct (String.eqb_spec k k0) as [-> | N]; [ contradiction | ].
    rewrite IH by exact Hin. ring.
Qed.

Lemma Qsum_map_plus {A} (f g : A -> Q) l :
  Qsum (map (fun a => f a + g a) l) == Qsum (map f l) + Qsum (map g l).
Proof.
  induction l as [| a l IH]; cbn [map]; rewrite ?Qsum_cons.
  - change (Qsum []) with 0. ring.
  - rewrite IH. ring.
Qed.

Lemma Qsum_map_ext {A} (f g : A -> Q) l :
  (forall a, In a l -> f a == g a) -> Qsum (map f l) == Qsum (map g l).
Proof.
  induction l as [| a l IH]; intros H; cbn [map]; rewrite ?Qsum_cons; [ reflexivity | ].
  rewrite (H a (or_introl eq_refl)), IH; [ reflexivity | ].
  intros b Hb. apply H. right. exact Hb.
Qed.

Lemma Qsum_by_category (l : list Transaction.t) (ks : list string) :
  NoDup ks -> (forall t, In t l -> In (Transaction.category t) ks) ->
  Qsum (map (fun k =>
               Qsum (map absAmount
                       (filter (fun t => String.eqb (Transaction.category t) k) l))) ks)
  == Qsum (map absAmount l).
Proof.
  intros Hn. induction l as [| t l IH]; intros Hall.
  - cbn [filter map]. rewrite Qsum_zeros. reflexivity.
  - cbn [map]. rewrite Qsum_cons, <- IH by (intros t' Ht'; apply Hall; right; exact Ht').
    rewrite <- (Qsum_indicator (Transaction.category t) (absAmount t) ks Hn)
      by (apply Hall; left; reflexivity).
    rewrite <- Qsum_map_plus. apply Qsum_map_ext. intros k Hk. cbn [filter].
    destruct (String.eqb (Transaction.category t) k); cbn [map]; rewrite ?Qsum_cons; ring.
Qed.

Section CategoryComparison.

Variable Date_parse : string -> option Z.
Variables (h : Heap) (this : AnalyticsEngine.t) (now : Z).

Lemma getCategoryComparison_unfold :
  getCategoryComparison Date_parse h this now
  = Array_sort (fun a b => CategoryChange.currentMonth b - CategoryChange.currentMonth a)
      (map (categoryEntry (windowTransactions Date_parse h this monthly now)
              (previousTransactions Date_parse h this monthly now))
         (Set_from
            (map Transaction.category
               (filter (hasType Expense) (windowTransactions Date_parse h this monthly now))
             ++ map Transaction.category
                  (filter (hasType Expense)
                     (previousTransactions Date_parse h this monthly now))))).
Proof.
  cbv beta iota zeta delta
    [getCategoryComparison windowTransactions previousTransactions periodWindow
     previousWindow fst snd categoryEntry categoryExpenses].
  reflexivity.
Qed.

Lemma categoryEntry_fields current previous k :
  CategoryChange.category (categoryEntry current previous k) = k
  /\ CategoryChange.currentMonth (categoryEntry current previous k)
     = sumAbsAmount (categoryExpenses current k)
  /\ CategoryChange.previousMonth (categoryEntry current previous k)
     = sumAbsAmount (categoryExpenses previous k)
  /\ CategoryChange.change (categoryEntry current previous k)
     = categoryChange (sumAbsAmount (categoryExpenses current k))
         (sumAbsAmount (categoryExpenses previous k)).
Proof. repeat split. Qed.

Lemma In_expense_categories transactions (ks : list string) t :
  (forall k, In k (expenseCategories transactions) -> In k ks) ->
  In t (filter (hasType Expense) transactions) -> In (Transaction.category t) ks.
Proof.
  intros H Ht. apply H. unfold expenseCategories. apply In_Set_from, in_map, Ht.
Qed.

Lemma category_comparison_facts :
  let current := windowTransactions Date_parse h this monthly now in
  let previous := previousTransactions Date_parse h this monthly now in
  let result := getCategoryComparison Date_parse h this now in
  NoDup (map CategoryChange.category result)
  /\ (forall k, In k (map CategoryChange.category result)
                <-> In k (expenseCategories current) \/ In k (expenseCategories previous))
  /\ StronglySorted (descending CategoryChange.currentMonth) result
  /\ (forall e, In e result ->
        e = categoryEntry current previous (CategoryChange.category e))
  /\ Qsum (map CategoryChange.currentMonth result) == expenseTotal current
  /\ Qsum (map CategoryChange.previousMonth result) == expenseTotal previous.
Proof.
  intros current previous result.
  set (all := Set_from
                (map Transaction.category (filter (hasType Expense) current)
                 ++ map Transaction.category (filter (hasType Expense) previous))).
  assert (R : result
              = Array_sort
                  (fun a b => CategoryChange.currentMonth b - CategoryChange.currentMonth a)
                  (map (categoryEntry current previous) all))
    by apply getCategoryComparison_unfold.
  assert (P : Permutation result (map (categoryEntry current previous) all))
    by (rewrite R; apply Array_sort_perm).
  assert (K : map CategoryChange.category (map (categoryEntry current previous) all) = all).
  { rewrite map_map. rewrite <- (map_id all) at 2. apply map_ext. reflexivity. }
  assert (Hall : forall k, In k all
                   <-> In k (expenseCategories current) \/ In k (expenseCategories previous)).
  { intros k. unfold all, expenseCategories. rewrite !In_Set_from, in_app_iff. reflexivity. }
  assert (Hn : NoDup all) by apply NoDup_Set_from.
  split; [ | split; [ | split; [ | split; [ | split ] ] ] ].
  - apply (Permutation_NoDup (l := all)); [ | exact Hn ].
    rewrite <- K. symmetry. apply Permutation_map, P.
  - intros k. rewrite <- Hall, <- K.
    split; apply Permutation_in;
      [ apply Permutation_map, P | symmetry; apply Permutation_map, P ].
  - rewrite R. apply (Array_sort_sorted CategoryChange.currentMonth).
  - intros e He. apply (Permutation_in _ P) in He. apply in_map_iff in He.
    destruct He as [k [<- _]]. reflexivity.
  - rewrite (Qsum_perm _ _ (Permutation_map CategoryChange.currentMonth P)), map_map.
    unfold expenseTotal. rewrite sumAbsAmount_Qsum.
    rewrite <- (Qsum_by_category (filter (hasType Expense) current) all Hn).
    + apply Qsum_map_ext. intros k _. apply sumAbsAmount_Qsum.
    + intros t Ht. apply (In_expense_categories current); [ | exact Ht ].
      intros k Hk. apply Hall. left. exact Hk.
  - rewrite (Qsum_perm _ _ (Permutation_map CategoryChange.previousMonth P)), map_map.
    unfold expenseTotal. rewrite sumAbsAmount_Qsum.
    rewrite <- (Qsum_by_category (filter (hasType Expense) previous) all Hn).
    + apply Qsum_map_ext. intros k _. apply sumAbsAmount_Qsum.
    + intros t Ht. apply (In_expense_categories previous); [ | exact Ht ].
      intros k Hk. apply Hall. right. exact Hk.
Qed.

Lemma monthly_expenses_unfold :
  TimeBasedAnalytics.totalExpenses (getMonthlyAnalytics Date_parse h this now)
  = expenseTotal (windowTransactions Date_parse h this monthly now)
  /\ TimeBasedAnalytics.totalExpenses
       (MonthlyComparison.previous (getMonthlyComparison Date_parse h this now))
     = expenseTotal (previousTransactions Date_parse h this monthly now).
Proof.
  change (getMonthlyAnalytics Date_parse h this now)
    with (periodData Date_parse h this now monthly).
  change (getMonthlyComparison Date_parse h this now)
    with (comparison Date_parse h this now monthly).
  rewrite periodData_unfold, comparison_unfold. split; reflexivity.
Qed.

(** X8. [getCategoryComparison] has exactly one entry for each category
    that has an expense in the current month or in the previous one; the
    entries are sorted from the largest [currentMonth] to the smallest;
    [currentMonth] and [previousMonth] are the totals of the category's
    expenses in the two months, and neither exceeds the [totalExpenses] of
    that month as [getMonthlyAnalytics] and [getMonthlyComparison] report
    them. *)
Theorem category_comparison_covers_both_months :
  let current := windowTransactions Date_parse h this monthly now in
  let previous := previousTransactions Date_parse h this monthly now in
  let result := getCategoryComparison Date_parse h this now in
  NoDup (map CategoryChange.category result)
  /\ (forall k, In k (map CategoryChange.category result)
                <-> In k (expenseCategories current) \/ In k (expenseCategories previous))
  /\ StronglySorted (descending CategoryChange.currentMonth) result
  /\ (forall e, In e result ->
        CategoryChange.currentMonth e == categoryTotal current (CategoryChange.category e)
        /\ CategoryChange.previousMonth e
           == categoryTotal previous (CategoryChange.category e)
        /\ CategoryChange.currentMonth e
           <= TimeBasedAnalytics.totalExpenses (getMonthlyAnalytics Date_parse h this now)
        /\ CategoryChange.previousMonth e
           <= TimeBasedAnalytics.totalExpenses
                (MonthlyComparison.previous (getMonthlyComparison Date_parse h this now))).
Proof.
  intros current previous result.
  destruct category_comparison_facts as (H1 & H2 & H3 & H4 & H5 & H6).
  destruct monthly_expenses_unfold as [E1 E2].
  fold current previous result in H1, H2, H3, H4, H5, H6.
  split; [ exact H1 | split; [ exact H2 | split; [ exact H3 | ] ] ].
  assert (N : forall e, In e result ->
                0 <= CategoryChange.currentMonth e /\ 0 <= CategoryChange.previousMonth e).
  { intros e He. rewrite (H4 e He).
    cbn [categoryEntry CategoryChange.currentMonth CategoryChange.previousMonth].
    split; apply sumAbsAmount_nonneg. }
  intros e He. split; [ | split; [ | split ] ].
  - rewrite (H4 e He) at 1.
    cbn [categoryEntry CategoryChange.currentMonth]. apply sumAbsAmount_categoryTotal.
  - rewrite (H4 e He) at 1.
    cbn [categoryEntry CategoryChange.previousMonth]. apply sumAbsAmount_categoryTotal.
  - rewrite E1. fold current. rewrite <- H5. apply Qsum_In_le.
    + apply Forall_forall. intros x Hx. apply in_map_iff in Hx.
      destruct Hx as [e' [<- He']]. apply (N e' He').
    + apply in_map, He.
  - rewrite E2. fold previous. rewrite <- H6. apply Qsum_In_le.
    + apply Forall_forall. intros x Hx. apply in_map_iff in Hx.
      destruct Hx as [e' [<- He']]. apply (N e' He').
    + apply in_map, He.
Qed.


End CategoryComparison.

(** ** The order the constructor leaves *)

Section StableSort.

Context {A : Type}.
Variable compare : A -> A -> Q.

(** The sort never moves an element past one it does not compare greater
    than: the elements of a class whose members compare as equal keep their
    order. *)
Lemma Array_insert_stable (p : A -> bool) a l :
  (forall b, p a = true -> p b = true -> ~ 0 < compare a b) ->
  filter p (Array_insert compare a l) = filter p (a :: l).
Proof.
  intros H. induction l as [| b l IH]; cbn [Array_insert]; [ reflexivity | ].
  destruct (Qltb_spec 0 (compare a b)) as [L | L]; [ | reflexivity ].
  cbn [filter] in *. rewrite IH.
  destruct (p a) eqn:Pa, (p b) eqn:Pb; try reflexivity.
  exfalso. exact (H b eq_refl Pb L).
Qed.

Lemma Array_sort_stable (p : A -> bool) l :
  (forall a b, p a = true -> p b = true -> ~ 0 < compare a b) ->
  filter p (Array_sort compare l) = filter p l.
Proof.
  intros H. induction l as [| a l IH]; cbn [Array_sort fold_right]; [ reflexivity | ].
  fold (Array_sort compare l). rewrite Array_insert_stable by (intros b; apply H).
  cbn [filter]. rewrite IH. reflexivity.
Qed.

(** Sorting a list that is in order already changes nothing. *)
Lemma Array_insert_head a l :
  Forall (fun b => ~ 0 < compare a b) l -> Array_insert compare a l = a :: l.
Proof.
  intros H. destruct H as [| b l Hb Hl]; cbn [Array_insert]; [ reflexivity | ].
  destruct (Qltb_spec 0 (compare a b)); [ contradiction | reflexivity ].
Qed.

Lemma Array_sort_sorted_id l :
  StronglySorted (fun a b => ~ 0 < compare a b) l -> Array_sort compare l = l.
Proof.
  induction 1 as [| a l Hs IH Ha]; cbn [Array_sort fold_right]; [ reflexivity | ].
  fold (Array_sort compare l). rewrite IH. apply Array_insert_head, Ha.
Qed.

End StableSort.

Lemma assign_assign h r a b : assign (assign h r a) r b = assign h r b.
Proof.
  revert r. induction h as [| x h IH]; intros [| r]; cbn [assign]; try reflexivity.
  rewrite IH. reflexivity.
Qed.

Section ConstructorOrder.

Variable Date_parse : string -> option Z.

Lemma sameDate_compare time a b :
  sameDate Date_parse time a = true -> sameDate Date_parse time b = true ->
  ~ 0 < compareByDateDesc Date_parse a b.
Proof.
  unfold sameDate, compareByDateDesc.
  destruct (Date_parse (Transaction.date a)) as [ta |]; [ | discriminate ].
  destruct (Date_parse (Transaction.date b)) as [tb |]; [ | discriminate ].
  intros Ea Eb. apply Z.eqb_eq in Ea, Eb. subst. rewrite Z.sub_diag. apply Qlt_irrefl.
Qed.

Lemma descending_compare l :
  Forall (fun t => Date_parse (Transaction.date t) <> None) l ->
  StronglySorted (descending (timeOf Date_parse)) l ->
  StronglySorted (fun a b => ~ 0 < compareByDateDesc Date_parse a b) l.
Proof.
  intros Hall Hs. induction Hs as [| a l Hs IH Ha]; constructor.
  - apply IH. inversion Hall; assumption.
  - inversion Hall as [| ? ? Hpa Hpl]; subst.
    apply Forall_forall. intros b Hb.
    pose proof (proj1 (Forall_forall _ _) Ha b Hb) as D.
    pose proof (proj1 (Forall_forall _ _) Hpl b Hb) as Hpb.
    unfold descending in D.
    pose proof (compareByDateDesc_key Date_parse a b Hpa Hpb) as K.
    intros L. apply Qltb_lt in L. rewrite K in L. apply Qltb_lt in L. lra.
Qed.

(** X10. When the reference is allocated and every date parses, the
    constructor leaves, behind the reference the engine keeps, the same
    transactions sorted from the latest date to the earliest, and every
    other array as it was; constructing an engine again on the sorted array
    changes nothing. *)
Theorem constructor_sorts_by_date (h : Heap) (transactions : nat) :
  (transactions < List.length h)%nat ->
  Forall (fun t => Date_parse (Transaction.date t) <> None) (deref h transactions) ->
  let result := constructor Date_parse h transactions in
  let sorted := deref (fst result) (AnalyticsEngine.transactions (snd result)) in
  Permutation sorted (deref h transactions)
  /\ StronglySorted (descending (timeOf Date_parse)) sorted
  /\ (forall other, other <> transactions -> deref (fst result) other = deref h other)
  /\ constructor Date_parse (fst result) transactions = result.
Proof.
  intros Hr Hall result sorted.
  destruct (constructor_frame Date_parse h transactions Hr) as (E & P & F).
  fold result in E, P, F.
  assert (S : StronglySorted (descending (timeOf Date_parse)) sorted).
  { unfold sorted. rewrite E. apply constructor_sorted; assumption. }
  assert (D : sorted = Array_sort (compareByDateDesc Date_parse) (deref h transactions)).
  { unfold sorted. rewrite E. unfold result, constructor. cbn [fst].
    apply deref_assign_same, Hr. }
  split; [ unfold sorted; rewrite E; exact P | ].
  split; [ exact S | ].
  split; [ exact F | ].
  assert (Hs : Array_sort (compareByDateDesc Date_parse) sorted = sorted).
  { apply Array_sort_sorted_id. apply descending_compare; [ | exact S ].
    rewrite D. eapply Permutation_Forall; [ symmetry; apply Array_sort_perm | exact Hall ]. }
  rewrite D in Hs. unfold result, constructor. cbn [fst].
  rewrite deref_assign_same by exact Hr. rewrite Hs, assign_assign. reflexivity.
Qed.

Lemma deref_assign_sort h r :
  deref (assign h r (Array_sort (compareByDateDesc Date_parse) (deref h r))) r
  = Array_sort (compareByDateDesc Date_parse) (deref h r).
Proof.
  unfold deref. revert r.
  induction h as [| a h IH]; intros [| r]; cbn [assign nth]; try reflexivity.
  apply IH.
Qed.

(** X11. The constructor's sort is stable: when every date parses (so that
    the comparator is a consistent ordering), the transactions that share a
    date keep the order they had in the caller's array. *)
Theorem constructor_keeps_order_of_equal_dates (h : Heap) (transactions : nat) :
  Forall (fun t => Date_parse (Transaction.date t) <> None) (deref h transactions) ->
  let result := constructor Date_parse h transactions in
  forall time,
    filter (sameDate Date_parse time)
      (deref (fst result) (AnalyticsEngine.transactions (snd result)))
    = filter (sameDate Date_parse time) (deref h transactions).
Proof.
  intros _ result time. unfold result, constructor.
  cbn [fst snd AnalyticsEngine.transactions].
  rewrite deref_assign_sort. apply Array_sort_stable. apply sameDate_compare.
Qed.

End ConstructorOrder.

(** ** The range of the health score *)



Section HealthScoreRange.

Variable Date_parse : string -> option Z.
Variable Math_sqrt : Q -> Q.


End HealthScoreRange.

(** ** The six months of the trend *)

Lemma filter_kept {A} (p keep : A -> bool) l :
  (forall x, In x l -> p x = true -> keep x = true) ->
  filter p (filter keep l) = filter p l.
Proof.
  induction l as [| x l IH]; intros H; cbn [filter]; [ reflexivity | ].
  assert (IH' : filter p (filter keep l) = filter p l)
    by (apply IH; intros y Hy; apply H; right; exact Hy).
  destruct (keep x) eqn:K; cbn [filter].
  - rewrite IH'. reflexivity.
  - destruct (p x) eqn:P; [ | exact IH' ].
    rewrite (H x (or_introl eq_refl) P) in K. discriminate.
Qed.

Lemma filter_dropped {A} (p keep : A -> bool) l :
  (forall x, In x l -> p x = true -> keep x = false) ->
  filter p (filter keep l) = [].
Proof.
  induction l as [| x l IH]; intros H; cbn [filter]; [ reflexivity | ].
  assert (IH' : filter p (filter keep l) = [])
    by (apply IH; intros y Hy; apply H; right; exact Hy).
  destruct (keep x) eqn:K; cbn [filter]; [ | exact IH' ].
  destruct (p x) eqn:P; [ | exact IH' ].
  rewrite (H x (or_introl eq_refl) P) in K. discriminate.
Qed.

Lemma Forall2_at {A B} (R : A -> B -> Prop) l l' :
  Forall2 R l l' ->
  forall k a b, nth_error l k = Some a -> nth_error l' k = Some b -> R a b.
Proof.
  induction 1 as [| x y l l' Hxy _ IH]; intros [| k] a b Ha Hb;
    cbn [nth_error] in Ha, Hb; try discriminate.
  - injection Ha as <-. injection Hb as <-. exact Hxy.
  - exact (IH k a b Ha Hb).
Qed.

Section TrendMonths.

Variable Date_parse : string -> option Z.
Variables (h : Heap) (this : AnalyticsEngine.t).

(** The point of a month, once the engine's array holds only the
    transactions that [keep] accepts. *)
Lemma trendOfMonth_keeping keep y m :
  let inMonth (t : Transaction.t) : bool :=
    match Date_parse (Transaction.date t) with
    | Some time => (monthStart y m <=? time)%Z && (time <=? monthStart y (m + 1) - 1)%Z
    | None => false
    end in
  ((forall t, In t (deref h (AnalyticsEngine.transactions this)) ->
              inMonth t = true -> keep t = true) ->
   trendOfMonth Date_parse (keeping keep h this) this y m
   = trendOfMonth Date_parse h this y m)
  /\ ((forall t, In t (deref h (AnalyticsEngine.transactions this)) ->
                 inMonth t = true -> keep t = false) ->
      trendOfMonth Date_parse (keeping keep h this) this y m
      = TrendPoint.mk (monthLabel y m) 0 0 0).
Proof.
  intros inMonth.
  assert (E : monthTransactions Date_parse (keeping keep h this) this y m
              = filter inMonth (filter keep (deref h (AnalyticsEngine.transactions this)))).
  { unfold monthTransactions, getTransactionsInPeriod, keeping.
    rewrite deref_assign_filter. reflexivity. }
  unfold trendOfMonth. rewrite E. split; intros H.
  - rewrite (filter_kept _ _ _ H). reflexivity.
  - rewrite (filter_dropped _ _ _ H). reflexivity.
Qed.

(** X14. For a date after the year 100, each point of [getSpendingTrends]
    reads the transactions of its own month and no others.  Let the
    engine's array be cut down to the transactions that some test [keep]
    accepts: a point whose month has all its transactions kept is what it
    was, and a point whose month has none of them kept has income,
    expenses and savings 0, whatever is kept or dropped in the other
    months.  The last point carries the [totalIncome], [totalExpenses] and
    [netAmount] of [getMonthlyAnalytics]. *)
Theorem each_trend_point_reads_its_own_month (now : Z) (keep : Transaction.t -> bool) :
  (100 < JSDate.getFullYear now)%Z ->
  let year := JSDate.getFullYear now in
  let month := JSDate.getMonth now in
  let transactions := deref h (AnalyticsEngine.transactions this) in
  let inMonth (m : Z) (t : Transaction.t) : bool :=
    match Date_parse (Transaction.date t) with
    | Some time =>
        (monthStart year m <=? time)%Z && (time <=? monthStart year (m + 1) - 1)%Z
    | None => false
    end in
  let trends := getSpendingTrends Date_parse h this now in
  let kept := getSpendingTrends Date_parse (keeping keep h this) this now in
  deref (keeping keep h this) (AnalyticsEngine.transactions this) = filter keep transactions
  /\ Forall2
       (fun (points : TrendPoint.t * TrendPoint.t) (m : Z) =>
          ((forall t, In t transactions -> inMonth m t = true -> keep t = true) ->
           snd points = fst points)
          /\ ((forall t, In t transactions -> inMonth m t = true -> keep t = false) ->
              snd points = TrendPoint.mk (monthLabel year m) 0 0 0))
       (combine trends kept)
       [month - 5; month - 4; month - 3; month - 2; month - 1; month]%Z
  /\ exists p,
       nth_error trends 5 = Some p
       /\ TrendPoint.income p
          = TimeBasedAnalytics.totalIncome (getMonthlyAnalytics Date_parse h this now)
       /\ TrendPoint.expenses p
          = TimeBasedAnalytics.totalExpenses (getMonthlyAnalytics Date_parse h this now)
       /\ TrendPoint.savings p
          = TimeBasedAnalytics.netAmount (getMonthlyAnalytics Date_parse h this now).
Proof.
  intros Hy year month transactions inMonth trends kept.
  assert (T : trends
              = map (trendOfMonth Date_parse h this year)
                  [month - 5; month - 4; month - 3; month - 2; month - 1; month]%Z)
    by (apply getSpendingTrends_months; exact Hy).
  assert (K : kept
              = map (trendOfMonth Date_parse (keeping keep h this) this year)
                  [month - 5; month - 4; month - 3; month - 2; month - 1; month]%Z)
    by (apply getSpendingTrends_months; exact Hy).
  split; [ apply deref_assign_filter | split ].
  - rewrite T, K. cbn [map combine].
    repeat (constructor; [ cbn [fst snd]; apply trendOfMonth_keeping | ]).
    constructor.
  - rewrite T. cbn [map nth_error]. eexists. split; [ reflexivity | ].
    change (getMonthlyAnalytics Date_parse h this now)
      with (periodData Date_parse h this now monthly).
    rewrite periodData_unfold. unfold windowTransactions.
    rewrite periodWindow_monthly by exact Hy. fold year month. cbn [fst snd].
    generalize (periodDays monthly now) (periodName monthly). intros days name.
    unfold trendOfMonth, monthTransactions.
    cbv beta iota zeta delta
      [calculatePeriodAnalytics TimeBasedAnalytics.totalIncome
       TimeBasedAnalytics.totalExpenses TimeBasedAnalytics.netAmount
       TrendPoint.income TrendPoint.expenses TrendPoint.savings].
    repeat split.
Qed.

End TrendMonths.

(** ** The signs of the rates and of the growth percentages *)



Section Rates.

Variable Date_parse : string -> option Z.
Variables (h : Heap) (this : AnalyticsEngine.t) (now : Z).


Lemma period_rates_savingsRate_le (timePeriod : TimePeriod) :
  TimeBasedAnalytics.savingsRate (periodData Date_parse h this now timePeriod) <= 100.
Proof.
  rewrite periodData_unfold.
  generalize (windowTransactions Date_parse h this timePeriod now) (periodName timePeriod)
             (periodDays timePeriod now).
  intros w name days.
  cbv beta iota zeta delta [calculatePeriodAnalytics TimeBasedAnalytics.savingsRate].
  pose proof (sumAbsAmount_nonneg (filter (hasType Expense) w)) as Hex.
  set (income := sumAbsAmount (filter (hasType Income) w)) in *.
  set (expenses := sumAbsAmount (filter (hasType Expense) w)) in *.
  destruct (Qltb_spec 0 income) as [L | L]; [ | lra ].
  assert (M : income * ((income - expenses) / income) == income - expenses)
    by (apply Qmult_div_r; lra).
  set (x := (income - expenses) / income) in *. nra.
Qed.


(** X16. In each of the four comparison queries, the [current] summary is
    the summary of the period query of the same period, field by field,
    under the label "Current ..." in place of "This ...". *)
Theorem comparison_current_is_the_period_summary (timePeriod : TimePeriod) :
  let s := periodData Date_parse h this now timePeriod in
  let c := MonthlyComparison.current (comparison Date_parse h this now timePeriod) in
  c = TimeBasedAnalytics.mk (currentName timePeriod)
        (TimeBasedAnalytics.totalIncome s) (TimeBasedAnalytics.totalExpenses s)
        (TimeBasedAnalytics.netAmount s) (TimeBasedAnalytics.transactionCount s)
        (TimeBasedAnalytics.topCategories s) (TimeBasedAnalytics.averageDaily s)
        (TimeBasedAnalytics.savingsRate s)
  /\ TimeBasedAnalytics.period s = periodName timePeriod.
Proof.
  intros s c. subst s c. rewrite periodData_unfold, comparison_unfold.
  generalize (windowTransactions Date_parse h this timePeriod now)
             (periodDays timePeriod now).
  intros w days. split; reflexivity.
Qed.


End Rates.

(** ** The signs of the amounts *)

Lemma Qabs_Qopp_eq x : Qabs (- x) = Qabs x.
Proof. destruct x as [n d]. cbn. rewrite Z.abs_opp. reflexivity. Qed.

Lemma Qabs_Qabs_eq x : Qabs (Qabs x) = Qabs x.
Proof. destruct x as [n d]. cbn. rewrite Z.abs_idemp. reflexivity. Qed.

Lemma deref_assign_map h r (g : Transaction.t -> Transaction.t) :
  deref (assign h r (map g (deref h r))) r = map g (deref h r).
Proof.
  unfold deref. revert r.
  induction h as [| a h IH]; intros [| r]; cbn [assign nth]; try reflexivity.
  apply IH.
Qed.

Lemma filter_map_commute {A} (p : A -> bool) (g : A -> A) l :
  (forall x, p (g x) = p x) -> filter p (map g l) = map g (filter p l).
Proof.
  intros H. induction l as [| x l IH]; cbn [map filter]; [ reflexivity | ].
  rewrite H. destruct (p x); cbn [map]; rewrite IH; reflexivity.
Qed.

Section Signs.

Variable Date_parse : string -> option Z.
Variable Math_sqrt : Q -> Q.
Variable f : Q -> Q.
Hypothesis f_abs : forall x, Qabs (f x) = Qabs x.

Lemma sumAbsAmount_mapAmount l : sumAbsAmount (map (mapAmount f) l) = sumAbsAmount l.
Proof.
  unfold sumAbsAmount. generalize 0. induction l as [| t l IH]; intros a;
    cbn [map fold_left]; [ reflexivity | ].
  rewrite IH. cbn [mapAmount Transaction.amount]. rewrite f_abs. reflexivity.
Qed.

Lemma tally_mapAmount l : forall m,
  fold_left tally (map (mapAmount f) l) m = fold_left tally l m.
Proof.
  induction l as [| t l IH]; intros m; cbn [map fold_left]; [ reflexivity | ].
  rewrite IH. unfold tally. cbn [mapAmount Transaction.amount Transaction.category].
  rewrite f_abs. reflexivity.
Qed.

Lemma hasType_mapAmount ty t : hasType ty (mapAmount f t) = hasType ty t.
Proof. reflexivity. Qed.

Lemma calculatePeriodAnalytics_mapAmount l name days :
  calculatePeriodAnalytics (map (mapAmount f) l) name days
  = calculatePeriodAnalytics l name days.
Proof.
  unfold calculatePeriodAnalytics.
  rewrite !(filter_map_commute _ (mapAmount f)) by (intros x; apply hasType_mapAmount).
  rewrite !sumAbsAmount_mapAmount, tally_mapAmount, length_map. reflexivity.
Qed.

Variables (h : Heap) (this : AnalyticsEngine.t).

Lemma getTransactionsInPeriod_mapAmount s e :
  getTransactionsInPeriod Date_parse (withAmounts f h this) this s e
  = map (mapAmount f) (getTransactionsInPeriod Date_parse h this s e).
Proof.
  unfold getTransactionsInPeriod, withAmounts. rewrite deref_assign_map.
  apply filter_map_commute. reflexivity.
Qed.

Lemma periodData_mapAmount now timePeriod :
  periodData Date_parse (withAmounts f h this) this now timePeriod
  = periodData Date_parse h this now timePeriod.
Proof.
  rewrite !periodData_unfold. unfold windowTransactions.
  rewrite getTransactionsInPeriod_mapAmount. apply calculatePeriodAnalytics_mapAmount.
Qed.

Lemma comparison_mapAmount now timePeriod :
  comparison Date_parse (withAmounts f h this) this now timePeriod
  = comparison Date_parse h this now timePeriod.
Proof.
  rewrite !comparison_unfold. unfold windowTransactions. cbv zeta.
  rewrite !getTransactionsInPeriod_mapAmount, !calculatePeriodAnalytics_mapAmount.
  reflexivity.
Qed.

Lemma getSpendingTrends_mapAmount now :
  getSpendingTrends Date_parse (withAmounts f h this) this now
  = getSpendingTrends Date_parse h this now.
Proof.
  unfold getSpendingTrends. apply map_ext. intros i. cbv zeta.
  rewrite getTransactionsInPeriod_mapAmount.
  rewrite !(filter_map_commute _ (mapAmount f)) by (intros x; apply hasType_mapAmount).
  rewrite !sumAbsAmount_mapAmount. reflexivity.
Qed.

Lemma categoryExpenses_mapAmount l k :
  categoryExpenses (map (mapAmount f) l) k = map (mapAmount f) (categoryExpenses l k).
Proof.
  unfold categoryExpenses.
  rewrite (filter_map_commute _ (mapAmount f)) by (intros x; apply hasType_mapAmount).
  apply filter_map_commute. reflexivity.
Qed.

Lemma getCategoryComparison_mapAmount now :
  getCategoryComparison Date_parse (withAmounts f h this) this now
  = getCategoryComparison Date_parse h this now.
Proof.
  rewrite !getCategoryComparison_unfold.
  unfold windowTransactions, previousTransactions.
  rewrite !getTransactionsInPeriod_mapAmount.
  rewrite !(filter_map_commute _ (mapAmount f)) by (intros x; apply hasType_mapAmount).
  rewrite !map_map. cbn [mapAmount Transaction.category].
  f_equal. apply map_ext. intros k. unfold categoryEntry.
  rewrite !categoryExpenses_mapAmount, !sumAbsAmount_mapAmount. reflexivity.
Qed.

Lemma getFinancialHealthScore_mapAmount now :
  getFinancialHealthScore Date_parse Math_sqrt (withAmounts f h this) this now
  = getFinancialHealthScore Date_parse Math_sqrt h this now.
Proof.
  unfold getFinancialHealthScore.
  change (getMonthlyAnalytics Date_parse (withAmounts f h this) this now)
    with (periodData Date_parse (withAmounts f h this) this now monthly).
  change (getMonthlyComparison Date_parse (withAmounts f h this) this now)
    with (comparison Date_parse (withAmounts f h this) this now monthly).
  rewrite periodData_mapAmount, comparison_mapAmount, getSpendingTrends_mapAmount.
  reflexivity.
Qed.

Lemma queries_mapAmount now :
  (forall timePeriod,
      periodData Date_parse (withAmounts f h this) this now timePeriod
      = periodData Date_parse h this now timePeriod)
  /\ (forall timePeriod,
        comparison Date_parse (withAmounts f h this) this now timePeriod
        = comparison Date_parse h this now timePeriod)
  /\ getSpendingTrends Date_parse (withAmounts f h this) this now
     = getSpendingTrends Date_parse h this now
  /\ getCategoryComparison Date_parse (withAmounts f h this) this now
     = getCategoryComparison Date_parse h this now
  /\ getFinancialHealthScore Date_parse Math_sqrt (withAmounts f h this) this now
     = getFinancialHealthScore Date_parse Math_sqrt h this now.
Proof.
  split; [ intros p; apply periodData_mapAmount | ].
  split; [ intros p; apply comparison_mapAmount | ].
  split; [ apply getSpendingTrends_mapAmount | ].
  split; [ apply getCategoryComparison_mapAmount | apply getFinancialHealthScore_mapAmount ].
Qed.

End Signs.

(** X18. The engine reads the amounts through [Math.abs] only: changing
    the amounts of the engine's transactions without changing their
    absolute values (the form stores an expense as a negative amount)
    changes the result of no query. *)
Theorem amount_signs_are_ignored (Date_parse : string -> option Z) (Math_sqrt : Q -> Q)
    (f : Q -> Q) (h : Heap) (this : AnalyticsEngine.t) (now : Z) :
  (forall x, Qabs (f x) = Qabs x) ->
  let changed := withAmounts f h this in
  deref changed (AnalyticsEngine.transactions this)
  = map (mapAmount f) (deref h (AnalyticsEngine.transactions this))
  /\ (forall timePeriod,
        periodData Date_parse changed this now timePeriod
        = periodData Date_parse h this now timePeriod)
  /\ (forall timePeriod,
        comparison Date_parse changed this now timePeriod
        = comparison Date_parse h this now timePeriod)
  /\ getSpendingTrends Date_parse changed this now
     = getSpendingTrends Date_parse h this now
  /\ getCategoryComparison Date_parse changed this now
     = getCategoryComparison Date_parse h this now
  /\ getFinancialHealthScore Date_parse Math_sqrt changed this now
     = getFinancialHealthScore Date_parse Math_sqrt h this now.
Proof.
  intros Hf changed.
  split; [ apply deref_assign_map | apply queries_mapAmount, Hf ].
Qed.

(** ** The dashboard *)

Section DashboardFacts.

Variable Date_parse : string -> option Z.
Variables (h : Heap) (this : AnalyticsEngine.t) (now : Z).

(** X19. For a date after the year 100, the trend of the dashboard,
    [getSpendingTrends().slice(-3)], is the points of the current month and
    of the two months before it, the oldest first. *)
Theorem dashboard_trends_last_three_months :
  (100 < JSDate.getFullYear now)%Z ->
  let year := JSDate.getFullYear now in
  let month := JSDate.getMonth now in
  Dashboard.trends Date_parse h this now
  = map (trendOfMonth Date_parse h this year) [month - 2; month - 1; month]%Z.
Proof.
  intros Hy year month. unfold Dashboard.trends.
  rewrite getSpendingTrends_months by exact Hy. reflexivity.
Qed.



End DashboardFacts.

(** ** The charts *)

Lemma Array_mapi_from_length {A B} (f : A -> Z -> B) l : forall i,
  List.length (Array_mapi_from f i l) = List.length l.
Proof.
  induction l as [| x l IH]; intros i; cbn [Array_mapi_from List.length];
    [ reflexivity | ].
  rewrite IH. reflexivity.
Qed.

Lemma Array_mapi_from_map {A B C} (f : A -> Z -> B) (g : B -> C) (k : A -> C) l :
  (forall x i, g (f x i) = k x) ->
  forall i, map g (Array_mapi_from f i l) = map k l.
Proof.
  intros H. induction l as [| x l IH]; intros i; cbn [Array_mapi_from map];
    [ reflexivity | ].
  rewrite H, IH. reflexivity.
Qed.

(** The colours of at most five slices whose hues are [step] apart. *)
Lemma Array_mapi_colors {A B} (f : A -> Z -> B) (color : B -> string) (step : Z) l :
  (forall x i, color (f x i) = hsl (i * step)) ->
  (List.length l <= 5)%nat ->
  map color (Array_mapi f l)
  = firstn (List.length l)
      (map hsl [0 * step; 1 * step; 2 * step; 3 * step; 4 * step]%Z).
Proof.
  intros H Hl. unfold Array_mapi.
  destruct l as [| c1 [| c2 [| c3 [| c4 [| c5 [| c6 l]]]]]];
    cbn [Array_mapi_from map List.length firstn Z.add Pos.add Pos.succ];
    rewrite ?H; try reflexivity.
  cbn [List.length] in Hl. lia.
Qed.

Lemma NoDup_hues_60 : NoDup (map hsl [0 * 60; 1 * 60; 2 * 60; 3 * 60; 4 * 60]%Z).
Proof. vm_compute. repeat constructor; cbn [In]; intuition discriminate. Qed.

Lemma NoDup_hues_45 : NoDup (map hsl [0 * 45; 1 * 45; 2 * 45; 3 * 45; 4 * 45]%Z).
Proof. vm_compute. repeat constructor; cbn [In]; intuition discriminate. Qed.

Section Charts.

Variable Date_parse : string -> option Z.
Variables (h : Heap) (this : AnalyticsEngine.t) (now : Z).

(** X21. The pie charts of the dashboard and of the analytics page have
    one slice for each top category of the period, named after it; the
    dashboard shows its percentage and the analytics page its amount; no
    two slices of a chart have the same name or the same colour. *)
Theorem chart_slices_are_distinct (timePeriod : TimePeriod) :
  let periodData := periodData Date_parse h this now timePeriod in
  let top := TimeBasedAnalytics.topCategories periodData in
  let slices := Dashboard.spendingCategories periodData in
  let analyticsSlices := AnalyticsDashboard.spendingCategories periodData in
  (map Slice.name slices = map CategorySummary.category top
   /\ map Slice.value slices = map CategorySummary.percentage top
   /\ NoDup (map Slice.name slices)
   /\ NoDup (map Slice.color slices))
  /\ (map CategorySlice.name analyticsSlices = map CategorySummary.category top
      /\ map CategorySlice.value analyticsSlices = map CategorySummary.amount top
      /\ NoDup (map CategorySlice.name analyticsSlices)
      /\ NoDup (map CategorySlice.color analyticsSlices)).
Proof.
  intros pd top slices analyticsSlices.
  assert (L : (List.length top <= 5)%nat).
  { unfold top, pd. rewrite periodData_unfold. apply top_properties. }
  assert (N : NoDup (map CategorySummary.category top)).
  { apply (top_categories_names_distinct Date_parse h this now timePeriod). }
  split.
  - assert (E : map Slice.name slices = map CategorySummary.category top)
      by (apply Array_mapi_from_map; reflexivity).
    split; [ exact E | ].
    split; [ apply Array_mapi_from_map; reflexivity | ].
    split; [ rewrite E; exact N | ].
    unfold slices, Dashboard.spendingCategories. fold top.
    rewrite (Array_mapi_colors _ Slice.color 60) by (try reflexivity; exact L).
    apply NoDup_firstn, NoDup_hues_60.
  - assert (E : map CategorySlice.name analyticsSlices = map CategorySummary.category top)
      by (apply Array_mapi_from_map; reflexivity).
    split; [ exact E | ].
    split; [ apply Array_mapi_from_map; reflexivity | ].
    split; [ rewrite E; exact N | ].
    unfold analyticsSlices, AnalyticsDashboard.spendingCategories. fold top.
    rewrite (Array_mapi_colors _ CategorySlice.color 45) by (try reflexivity; exact L).
    apply NoDup_firstn, NoDup_hues_45.
Qed.

End Charts.

(** ** The analytics page *)

Section AnalyticsPage.

Variable Date_parse : string -> option Z.
Variables (h : Heap) (this : AnalyticsEngine.t) (now : Z).

(** X22. The analytics page shows the first 8 entries of
    [getCategoryComparison]: they are sorted from the largest current
    amount to the smallest, and no entry left out has a larger current
    amount than one that is shown.  The [net] of each point of its trend is
    the point's [savings].  The width of its savings bar,
    [Math.min(savingsRate, 100)], is the savings rate itself: the cap never
    applies. *)
Theorem analytics_page_data (timePeriod : TimePeriod) :
  let categoryComparison := getCategoryComparison Date_parse h this now in
  let shown := AnalyticsDashboard.categoryTrendData categoryComparison in
  let periodData := periodData Date_parse h this now timePeriod in
  List.length shown = Nat.min 8 (List.length categoryComparison)
  /\ map CategoryTrend.category shown
     = firstn 8 (map CategoryChange.category categoryComparison)
  /\ StronglySorted (descending CategoryTrend.current) shown
  /\ Forall
       (fun dropped =>
          Forall (fun kept => CategoryChange.currentMonth dropped <= CategoryTrend.current kept)
            shown)
       (skipn 8 categoryComparison)
  /\ Forall (fun d => TrendDatum.net d = TrendDatum.savings d)
       (AnalyticsDashboard.trendData (getSpendingTrends Date_parse h this now))
  /\ AnalyticsDashboard.savingsBarWidth periodData
     == TimeBasedAnalytics.savingsRate periodData.
Proof.
  intros cc shown pd.
  assert (S : StronglySorted (descending CategoryChange.currentMonth) cc).
  { apply (category_comparison_facts Date_parse h this now). }
  split; [ | split; [ | split; [ | split; [ | split ] ] ] ].
  - unfold shown, AnalyticsDashboard.categoryTrendData.
    rewrite length_map, length_firstn. reflexivity.
  - unfold shown, AnalyticsDashboard.categoryTrendData.
    rewrite map_map, firstn_map. reflexivity.
  - unfold shown, AnalyticsDashboard.categoryTrendData.
    pose proof (StronglySorted_firstn _ 8 _ S) as S8.
    induction S8 as [| a l Hs IH Ha]; cbn [map]; constructor; [ exact IH | ].
    apply Forall_map. exact Ha.
  - apply Forall_forall. intros dropped Hd. apply Forall_forall. intros kept Hk.
    unfold shown, AnalyticsDashboard.categoryTrendData in Hk.
    apply in_map_iff in Hk. destruct Hk as [e [<- He]]. cbn [CategoryTrend.current].
    rewrite <- (firstn_skipn 8 cc) in S.
    exact (StronglySorted_app _ _ _ S e dropped He Hd).
  - unfold AnalyticsDashboard.trendData. apply Forall_map.
    unfold getSpendingTrends. apply Forall_map.
    apply Forall_forall. intros i _. reflexivity.
  - unfold AnalyticsDashboard.savingsBarWidth. apply Q.min_l.
    apply (period_rates_savingsRate_le Date_parse h this now timePeriod).
Qed.

End AnalyticsPage.

(** ** The insights *)

Section Insights.

Variable formatAmount : Q -> string.
Variable toLowerCase : string -> string.

Lemma filter_nil_existsb {A} (p : A -> bool) l : filter p l = [] <-> existsb p l = false.
Proof.
  induction l as [| x l IH]; cbn [filter existsb]; [ tauto | ].
  destruct (p x); cbn [orb]; [ split; discriminate | exact IH ].
Qed.

Lemma Array_sort_nil {A} (compare : A -> A -> Q) l : Array_sort compare l = [] <-> l = [].
Proof.
  split; intros H.
  - apply Permutation_nil. rewrite <- H. apply Array_sort_perm.
  - subst. reflexivity.
Qed.

Lemma generateInsights_kinds categoryComparison periodData :
  map Insight.type
    (AIInsights.generateInsights formatAmount toLowerCase categoryComparison periodData)
  = match insightKinds categoryComparison periodData with
    | [] => [Insight.positive]
    | kinds => kinds
    end.
Proof.
  cbv beta zeta delta [AIInsights.generateInsights insightKinds].
  set (high := Array_sort _ (filter _ categoryComparison)).
  assert (Hh : high = [] <-> existsb (fun cat => Qltb 20 (CategoryChange.change cat))
                             categoryComparison = false).
  { unfold high. rewrite Array_sort_nil. apply filter_nil_existsb. }
  destruct high as [| topCategory rest].
  - rewrite (proj1 Hh eq_refl).
    destruct (Qltb (TimeBasedAnalytics.savingsRate periodData) 10);
      [ | destruct (Qltb 30 (TimeBasedAnalytics.savingsRate periodData)) ];
      (destruct (TimeBasedAnalytics.topCategories periodData) as [| c cs];
       [ | destruct (Qltb 40 (CategorySummary.percentage c)) ]);
      reflexivity.
  - destruct (existsb (fun cat => Qltb 20 (CategoryChange.change cat)) categoryComparison)
      eqn:E; [ | discriminate (proj2 Hh eq_refl) ].
    destruct (Qltb (TimeBasedAnalytics.savingsRate periodData) 10);
      [ | destruct (Qltb 30 (TimeBasedAnalytics.savingsRate periodData)) ];
      (destruct (TimeBasedAnalytics.topCategories periodData) as [| c cs];
       [ | destruct (Qltb 40 (CategorySummary.percentage c)) ]);
      reflexivity.
Qed.

(** X23. [generateInsights] returns 1 to 3 insights, whose kinds are those
    of the rules that apply, in the order of the rules: a warning, then an
    alert or praise, then a suggestion; when no rule applies it returns the
    single insight "Your spending patterns look balanced!". *)
Theorem insights_follow_the_rules (categoryComparison : list CategoryChange.t)
    (periodData : TimeBasedAnalytics.t) :
  let insights :=
    AIInsights.generateInsights formatAmount toLowerCase categoryComparison periodData in
  map Insight.type insights
  = match insightKinds categoryComparison periodData with
    | [] => [Insight.positive]
    | kinds => kinds
    end
  /\ (1 <= List.length insights <= 3)%nat
  /\ (insightKinds categoryComparison periodData = [] ->
      insights
      = [ Insight.mk Insight.positive "Your spending patterns look balanced! 💚"
            "Keep up the good financial habits." "View Analytics" "General" ]).
Proof.
  intros insights.
  pose proof (generateInsights_kinds categoryComparison periodData) as K.
  fold insights in K.
  split; [ exact K | ]. split.
  - rewrite <- (length_map Insight.type), K. unfold insightKinds.
    destruct (existsb _ categoryComparison);
      (destruct (Qltb (TimeBasedAnalytics.savingsRate periodData) 10);
       [ | destruct (Qltb 30 (TimeBasedAnalytics.savingsRate periodData)) ]);
      (destruct (TimeBasedAnalytics.topCategories periodData) as [| c cs];
       [ | destruct (Qltb 40 (CategorySummary.percentage c)) ]);
      cbn; lia.
  - intros E. unfold insights.
    cbv beta zeta delta [AIInsights.generateInsights].
    unfold insightKinds in E.
    set (high := Array_sort _ (filter _ categoryComparison)).
    assert (Hh : high = []).
    { unfold high. apply Array_sort_nil, filter_nil_existsb.
      destruct (existsb _ categoryComparison); [ discriminate E | reflexivity ]. }
    rewrite Hh.
    destruct (existsb _ categoryComparison); [ discriminate E | ].
    destruct (Qltb (TimeBasedAnalytics.savingsRate periodData) 10); [ discriminate E | ].
    destruct (Qltb 30 (TimeBasedAnalytics.savingsRate periodData)); [ discriminate E | ].
    destruct (TimeBasedAnalytics.topCategories periodData) as [| c cs]; [ reflexivity | ].
    destruct (Qltb 40 (CategorySummary.percentage c)); [ discriminate E | reflexivity ].
Qed.




(** X24. When the spending of some category rose by more than 20 percent,
    the first insight (the one shown as the main insight) is the warning,
    and it names a category of the comparison whose change is over 20 and
    is the largest of all. *)
Theorem warning_names_the_largest_rise (categoryComparison : list CategoryChange.t)
    (periodData : TimeBasedAnalytics.t) :
  (exists e, In e categoryComparison /\ 20 < CategoryChange.change e) ->
  exists top,
    In top categoryComparison
    /\ 20 < CategoryChange.change top
    /\ (forall e, In e categoryComparison ->
          CategoryChange.change e <= CategoryChange.change top)
    /\ nth_error
         (AIInsights.generateInsights formatAmount toLowerCase categoryComparison periodData)
         0
       = Some
           (Insight.mk Insight.warning
              ("You spent " ++ toFixed1 (CategoryChange.change top) ++ "% more on "
                 ++ CategoryChange.category top ++ " this month")
              ("That's "
                 ++ formatAmount (CategoryChange.currentMonth top
                                  - CategoryChange.previousMonth top)
                 ++ " more than last month.")
              "Set Budget Reminder"
              (CategoryChange.category top)).
Proof.
  intros [e0 [He0 Le0]].
  cbv beta zeta delta [AIInsights.generateInsights].
  set (p := fun cat => Qltb 20 (CategoryChange.change cat)).
  pose proof (Array_sort_perm
                (fun a b => CategoryChange.change b - CategoryChange.change a)
                (filter p categoryComparison)) as P.
  pose proof (Array_sort_sorted CategoryChange.change (filter p categoryComparison)) as S.
  set (high := Array_sort _ (filter p categoryComparison)) in *.
  assert (Hin : forall e, In e high <-> In e categoryComparison /\ 20 < CategoryChange.change e).
  { intros e. split.
    - intros H. apply (Permutation_in _ P) in H. apply filter_In in H.
      destruct H as [H1 H2]. split; [ exact H1 | apply Qltb_lt, H2 ].
    - intros [H1 H2]. apply (Permutation_in _ (Permutation_sym P)).
      apply filter_In. split; [ exact H1 | apply Qltb_lt, H2 ]. }
  destruct high as [| top rest].
  { exfalso. apply (proj2 (Hin e0)). split; assumption. }
  exists top.
  destruct (proj1 (Hin top) (or_introl eq_refl)) as [T1 T2].
  split; [ exact T1 | split; [ exact T2 | split ] ].
  - intros e He. destruct (Qlt_le_dec 20 (CategoryChange.change e)) as [L | L]; [ | lra ].
    destruct (proj2 (Hin e) (conj He L)) as [<- | Hr]; [ apply Qle_refl | ].
    inversion S as [| ? ? _ Hall]; subst.
    exact (proj1 (Forall_forall _ _) Hall e Hr).
  - destruct (Qltb (TimeBasedAnalytics.savingsRate periodData) 10);
      [ | destruct (Qltb 30 (TimeBasedAnalytics.savingsRate periodData)) ];
      (destruct (TimeBasedAnalytics.topCategories periodData) as [| c cs];
       [ | destruct (Qltb 40 (CategorySummary.percentage c)) ]);
      reflexivity.
Qed.


End Insights.

(** ** The store of the transactions *)

Lemma Array_mapi_from_withId (newId : Z -> string) l : forall i,
  map withoutId
    (Array_mapi_from (fun t index => TransactionContext.withId (newId index) t) i l)
  = map withoutId l
  /\ map Transaction.date
       (Array_mapi_from (fun t index => TransactionContext.withId (newId index) t) i l)
     = map Transaction.date l.
Proof.
  induction l as [| t l IH]; intros i; cbn [Array_mapi_from map]; [ split; reflexivity | ].
  destruct (IH (i + 1)%Z) as [-> ->]. split; reflexivity.
Qed.

Section Store.

Variable Date_parse : string -> option Z.

(** X26. [addTransactions] stores the uploaded transactions, each under a
    new id, and drops what the store held, whatever the dates are.  When
    every date parses, they are stored from the latest date to the
    earliest, which is the order the engine sorts them in: constructing an
    engine on the stored array leaves the array as it is. *)
Theorem uploaded_statement_is_stored_in_engine_order (clock : Z -> Z)
    (newTransactions prev : list Transaction.t) (h : Heap) :
  let stored := TransactionContext.addTransactions Date_parse clock newTransactions prev in
  Permutation (map withoutId stored) (map withoutId newTransactions)
  /\ (Forall (fun t => Date_parse (Transaction.date t) <> None) newTransactions ->
      StronglySorted (descending (timeOf Date_parse)) stored
      /\ constructor Date_parse (stored :: h) 0 = (stored :: h, AnalyticsEngine.mk 0)).
Proof.
  intros stored.
  set (withIds :=
         Array_mapi
           (fun transaction index =>
              TransactionContext.withId
                (JSDate.decimal (clock index) ++ "-" ++ JSDate.decimal index)%string
                transaction)
           newTransactions).
  assert (E : stored = Array_sort (compareByDateDesc Date_parse) withIds) by reflexivity.
  destruct (Array_mapi_from_withId
              (fun index => (JSDate.decimal (clock index) ++ "-" ++ JSDate.decimal index)%string)
              newTransactions 0%Z) as [I D].
  fold (Array_mapi
          (fun transaction index =>
             TransactionContext.withId
               (JSDate.decimal (clock index) ++ "-" ++ JSDate.decimal index)%string
               transaction) newTransactions) in I, D.
  fold withIds in I, D.
  split.
  { rewrite <- I, E. apply Permutation_map, Array_sort_perm. }
  intros Hall.
  assert (V : Forall (fun t => Date_parse (Transaction.date t) <> None) withIds).
  { apply Forall_forall. intros t Ht. apply (in_map Transaction.date) in Ht.
    rewrite D in Ht. apply in_map_iff in Ht. destruct Ht as [t' [Et Ht']].
    rewrite <- Et. exact (proj1 (Forall_forall _ _) Hall t' Ht'). }
  assert (S : StronglySorted (descending (timeOf Date_parse)) stored).
  { rewrite E.
    rewrite (Array_sort_ext _ (fun a b => timeOf Date_parse b - timeOf Date_parse a)).
    - apply Array_sort_sorted.
    - intros a b Ha Hb. apply compareByDateDesc_key.
      + exact (proj1 (Forall_forall _ _) V a Ha).
      + exact (proj1 (Forall_forall _ _) V b Hb). }
  split; [ exact S | ].
  unfold constructor. cbn [deref nth assign]. f_equal. f_equal.
  apply Array_sort_sorted_id. apply descending_compare; [ | exact S ].
  rewrite E. eapply Permutation_Forall; [ symmetry; apply Array_sort_perm | exact V ].
Qed.

End Store.

(** X27. The store identifies a transaction by its id alone.
    [updateTransaction] keeps the ids and their order; after
    [deleteTransaction] no transaction has the deleted id; two
    transactions added at the same reading of the clock get the same id,
    and deleting it removes both; a transaction added under an id that no
    stored transaction has is removed again by deleting that id, which
    restores the store. *)
Theorem store_identifies_transactions_by_id (now : Z) (id : string)
    (first second updated : Transaction.t) (prev : list Transaction.t) :
  map Transaction.id (TransactionContext.updateTransaction id updated prev)
  = map Transaction.id prev
  /\ Forall (fun t => Transaction.id t <> id)
       (TransactionContext.deleteTransaction id prev)
  /\ TransactionContext.deleteTransaction (JSDate.decimal now)
       (TransactionContext.addTransaction now second
          (TransactionContext.addTransaction now first prev))
     = TransactionContext.deleteTransaction (JSDate.decimal now) prev
  /\ (Forall (fun t => Transaction.id t <> JSDate.decimal now) prev ->
      TransactionContext.deleteTransaction (JSDate.decimal now)
        (TransactionContext.addTransaction now first prev)
      = prev).
Proof.
  split; [ | split; [ | split ] ].
  - unfold TransactionContext.updateTransaction. rewrite map_map. apply map_ext.
    intros t. destruct (String.eqb_spec (Transaction.id t) id) as [E | N];
      [ symmetry; exact E | reflexivity ].
  - apply Forall_forall. intros t Ht.
    unfold TransactionContext.deleteTransaction in Ht. apply filter_In in Ht.
    destruct Ht as [_ Ht]. apply negb_true_iff in Ht.
    apply String.eqb_neq. exact Ht.
  - unfold TransactionContext.deleteTransaction, TransactionContext.addTransaction.
    cbv zeta. cbn [filter TransactionContext.withId Transaction.id].
    rewrite String.eqb_refl. reflexivity.
  - intros H. unfold TransactionContext.deleteTransaction, TransactionContext.addTransaction.
    cbv zeta. cbn [filter TransactionContext.withId Transaction.id].
    rewrite String.eqb_refl. cbn [negb].
    induction H as [| t l Ht Hl IH]; cbn [filter]; [ reflexivity | ].
    apply String.eqb_neq in Ht. rewrite Ht. cbn [negb]. rewrite IH. reflexivity.
Qed.

(** ** Concrete runs of the theorems with hypotheses *)


Lemma period_rates_guarded_witness :
  let s := periodData JSDate.parseISODate [sample] engine0 mid_march_2024 monthly in
  (100 < JSDate.getFullYear mid_march_2024)%Z
  /\ ~ TimeBasedAnalytics.totalIncome s == 0
  /\ (exists days : Q,
        TimeBasedAnalytics.averageDaily s = TimeBasedAnalytics.totalExpenses s / days
        /\ days == inject_Z (daysInMonth 2024 2))
  /\ TimeBasedAnalytics.savingsRate s
     = TimeBasedAnalytics.netAmount s / TimeBasedAnalytics.totalIncome s * 100.
Proof.
  cbv zeta.
  assert (H0 : (100 < JSDate.getFullYear mid_march_2024)%Z) by (vm_compute; reflexivity).
  assert (H1 : ~ TimeBasedAnalytics.totalIncome
                   (periodData JSDate.parseISODate [sample] engine0 mid_march_2024 monthly)
                 == 0)
    by (vm_compute; discriminate).
  split; [ exact H0 | split; [ exact H1 | ] ].
  pose proof (period_rates_guarded JSDate.parseISODate [sample] engine0
                mid_march_2024 monthly) as T.
  cbv zeta in T. destruct T as ([days (Ea & _ & Hd)] & _ & _ & T).
  split; [ exists days; split; [ exact Ea | exact (Hd H0) ] | exact (proj2 (T H1)) ].
Defined.

Lemma growth_percentage_helper_witness :
  0 <= 5 /\ 0 <= 0 /\ 0 == 0 /\ 0 < 5
  /\ calculateGrowth 5 0 = 100 /\ categoryChange 5 0 = 100.
Proof.
  assert (H1 : 0 <= 5) by (vm_compute; discriminate).
  assert (H2 : 0 <= 0) by (vm_compute; discriminate).
  assert (H3 : 0 == 0) by reflexivity.
  assert (H4 : 0 < 5) by reflexivity.
  repeat (split; [ assumption | ]).
  destruct (growth_percentage_helper JSDate.parseISODate) as [T _].
  destruct (T 5 0 H1 H2) as [T1 _]. exact (T1 H3 H4).
Defined.

Lemma expense_balance_bands_witness :
  two_categories <> [] /\ largestPercentage two_categories 60
  /\ calculateCategoryBalance two_categories = balanceBand 60.
Proof.
  assert (H1 : two_categories <> []) by discriminate.
  assert (H2 : largestPercentage two_categories 60).
  { split.
    - exists (CategorySummary.mk "Rent" 1200 1 60). split; [ left | ]; reflexivity.
    - intros c [<- | [<- | []]]; vm_compute; discriminate. }
  split; [ exact H1 | split; [ exact H2 | ] ].
  destruct expense_balance_bands as (_ & _ & T & _). exact (T two_categories 60 H1 H2).
Defined.

Lemma spending_trends_six_months_witness :
  (100 < JSDate.getFullYear mid_march_2024)%Z
  /\ List.length (getSpendingTrends JSDate.parseISODate [sample] engine0 mid_march_2024)
     = 6%nat
  /\ (monthStart 2024 2 <= mid_march_2024 < monthStart 2024 3)%Z.
Proof.
  assert (H : (100 < JSDate.getFullYear mid_march_2024)%Z) by (vm_compute; reflexivity).
  split; [ exact H | ].
  pose proof (spending_trends_six_months JSDate.parseISODate [sample] engine0
                mid_march_2024 H) as T.
  cbv zeta in T. destruct T as (T1 & _ & _ & T4).
  split; [ exact T1 | exact T4 ].
Defined.



Lemma monthly_queries_calendar_month_witness :
  (100 < JSDate.getFullYear mid_march_2024)%Z
  /\ (monthStart 2024 2 <= mid_march_2024
      < monthStart 2024 2 + daysInMonth 2024 2 * JSDate.msPerDay)%Z
  /\ getMonthlyAnalytics JSDate.parseISODate [sample] engine0 mid_march_2024
     = calculatePeriodAnalytics
         (spanTransactions JSDate.parseISODate [sample] engine0 (monthStart 2024 2)
            (daysInMonth 2024 2))
         "This Month" (inject_Z (daysInMonth 2024 2)).
Proof.
  assert (H : (100 < JSDate.getFullYear mid_march_2024)%Z) by (vm_compute; reflexivity).
  split; [ exact H | ].
  destruct (monthly_queries_calendar_month JSDate.parseISODate [sample] engine0
              mid_march_2024 H) as (T1 & _ & _ & T4 & _).
  split; [ exact T1 | exact T4 ].
Defined.

Lemma half_yearly_queries_calendar_half_witness :
  (100 < JSDate.getFullYear mid_march_2024)%Z
  /\ daysInHalf 2024 0 = (181 + leapDays 2024)%Z
  /\ (monthStart 2024 0 <= mid_march_2024
      < monthStart 2024 0 + daysInHalf 2024 0 * JSDate.msPerDay)%Z.
Proof.
  assert (H : (100 < JSDate.getFullYear mid_march_2024)%Z) by (vm_compute; reflexivity).
  split; [ exact H | ].
  destruct (half_yearly_queries_calendar_half JSDate.parseISODate [sample] engine0
              mid_march_2024 H) as (_ & T2 & _ & T4 & _).
  split; [ exact T2 | exact T4 ].
Defined.

Lemma yearly_queries_calendar_year_witness :
  (100 < JSDate.getFullYear mid_march_2024)%Z
  /\ (monthStart 2024 0 <= mid_march_2024
      < monthStart 2024 0 + JSDate.DaysInYear 2024 * JSDate.msPerDay)%Z
  /\ getAnnualAnalytics JSDate.parseISODate [sample] engine0 mid_march_2024
     = calculatePeriodAnalytics
         (spanTransactions JSDate.parseISODate [sample] engine0 (monthStart 2024 0)
            (JSDate.DaysInYear 2024))
         "This Year" 366.
Proof.
  assert (H : (100 < JSDate.getFullYear mid_march_2024)%Z) by (vm_compute; reflexivity).
  split; [ exact H | ].
  destruct (yearly_queries_calendar_year JSDate.parseISODate [sample] engine0
              mid_march_2024 H) as (T1 & _ & T3 & _).
  split; [ exact T1 | exact T3 ].
Defined.

Lemma top_categories_are_the_largest_witness :
  let window :=
    windowTransactions JSDate.parseISODate [six_categories] engine0 monthly mid_march_2024 in
  let top :=
    TimeBasedAnalytics.topCategories
      (periodData JSDate.parseISODate [six_categories] engine0 mid_march_2024 monthly) in
  let largest := hd (CategorySummary.mk "" 0 0 0) top in
  In "Other"%string (expenseCategories window)
  /\ ~ In "Other"%string (map CategorySummary.category top)
  /\ In largest top
  /\ categoryTotal window "Other" <= CategorySummary.amount largest.
Proof.
  intros window top largest.
  assert (H1 : In "Other"%string (expenseCategories window))
    by (vm_compute; repeat (first [ left; reflexivity | right ])).
  assert (H2 : ~ In "Other"%string (map CategorySummary.category top))
    by (vm_compute; intuition discriminate).
  assert (H3 : In largest top) by (vm_compute; left; reflexivity).
  split; [ exact H1 | split; [ exact H2 | split; [ exact H3 | ] ] ].
  exact (top_categories_are_the_largest JSDate.parseISODate [six_categories] engine0
           mid_march_2024 monthly "Other"%string largest H1 H2 H3).
Defined.


Lemma constructor_sorts_by_date_witness :
  (0 < List.length [oldest_first])%nat
  /\ Forall (fun t => JSDate.parseISODate (Transaction.date t) <> None)
       (deref [oldest_first] 0)
  /\ StronglySorted (descending (timeOf JSDate.parseISODate))
       (deref (fst (constructor JSDate.parseISODate [oldest_first] 0)) 0)
  /\ constructor JSDate.parseISODate
       (fst (constructor JSDate.parseISODate [oldest_first] 0)) 0
     = constructor JSDate.parseISODate [oldest_first] 0.
Proof.
  assert (H1 : (0 < List.length [oldest_first])%nat) by (cbn; lia).
  assert (H2 : Forall (fun t => JSDate.parseISODate (Transaction.date t) <> None)
                 (deref [oldest_first] 0))
    by (repeat constructor; vm_compute; discriminate).
  split; [ exact H1 | split; [ exact H2 | ] ].
  destruct (constructor_sorts_by_date JSDate.parseISODate [oldest_first] 0 H1 H2)
    as (_ & T2 & _ & T4).
  split; [ exact T2 | exact T4 ].
Defined.

Lemma constructor_keeps_order_of_equal_dates_witness :
  Forall (fun t => JSDate.parseISODate (Transaction.date t) <> None) (deref [same_day] 0)
  /\ map Transaction.id (deref (fst (constructor JSDate.parseISODate [same_day] 0)) 0)
     = [ "2"; "1"; "3" ]%string
  /\ filter (sameDate JSDate.parseISODate (monthStart 2024 2 + 4 * JSDate.msPerDay))
       (deref (fst (constructor JSDate.parseISODate [same_day] 0)) 0)
     = filter (sameDate JSDate.parseISODate (monthStart 2024 2 + 4 * JSDate.msPerDay))
         (deref [same_day] 0).
Proof.
  assert (H : Forall (fun t => JSDate.parseISODate (Transaction.date t) <> None)
                (deref [same_day] 0))
    by (repeat constructor; vm_compute; discriminate).
  split; [ exact H | ].
  split; [ vm_compute; reflexivity | ].
  exact (constructor_keeps_order_of_equal_dates JSDate.parseISODate [same_day] 0 H
           (monthStart 2024 2 + 4 * JSDate.msPerDay)%Z).
Defined.


Lemma each_trend_point_reads_its_own_month_witness :
  let inMarch (t : Transaction.t) : bool := String.prefix "2024-03" (Transaction.date t) in
  let trends := getSpendingTrends JSDate.parseISODate [recovery] engine0 mid_march_2024 in
  let kept :=
    getSpendingTrends JSDate.parseISODate (keeping inMarch [recovery] engine0) engine0
      mid_march_2024 in
  (100 < JSDate.getFullYear mid_march_2024)%Z
  /\ nth_error kept 5 = nth_error trends 5
  /\ nth_error kept 4 = Some (TrendPoint.mk "Feb 24" 0 0 0)
  /\ option_map TrendPoint.expenses (nth_error trends 4) = Some 2000.
Proof.
  intros inMarch trends kept.
  assert (H : (100 < JSDate.getFullYear mid_march_2024)%Z) by (vm_compute; reflexivity).
  split; [ exact H | ].
  destruct (each_trend_point_reads_its_own_month JSDate.parseISODate [recovery] engine0
              mid_march_2024 inMarch H) as (_ & T & _).
  assert (March : nth_error kept 5 = nth_error trends 5).
  { destruct (nth_error trends 5) as [p |] eqn:Ep; [ | discriminate Ep ].
    destruct (nth_error kept 5) as [p' |] eqn:Ep'; [ | discriminate Ep' ].
    assert (C : nth_error (combine trends kept) 5 = Some (p, p')).
    { vm_compute in Ep, Ep'. injection Ep as <-. injection Ep' as <-. reflexivity. }
    destruct (Forall2_at _ _ _ T 5%nat (p, p') _ C eq_refl) as [K _].
    cbn [fst snd] in K. rewrite K; [ reflexivity | ].
    intros t [<- | [<- | [<- | [<- | []]]]] Hm;
      first [ reflexivity | vm_compute in Hm; discriminate Hm ]. }
  assert (February : nth_error kept 4 = Some (TrendPoint.mk "Feb 24" 0 0 0)).
  { destruct (nth_error trends 4) as [p |] eqn:Ep; [ | discriminate Ep ].
    destruct (nth_error kept 4) as [p' |] eqn:Ep'; [ | discriminate Ep' ].
    assert (C : nth_error (combine trends kept) 4 = Some (p, p')).
    { vm_compute in Ep, Ep'. injection Ep as <-. injection Ep' as <-. reflexivity. }
    destruct (Forall2_at _ _ _ T 4%nat (p, p') _ C eq_refl) as [_ D].
    cbn [fst snd] in D. rewrite D; [ reflexivity | ].
    intros t [<- | [<- | [<- | [<- | []]]]] Hm;
      first [ reflexivity | vm_compute in Hm; discriminate Hm ]. }
  split; [ exact March | split; [ exact February | ] ].
  vm_compute. reflexivity.
Defined.

Lemma amount_signs_are_ignored_witness :
  (forall x, Qabs (- x) = Qabs x)
  /\ getSpendingTrends JSDate.parseISODate (withAmounts Qopp [sample] engine0) engine0
       mid_march_2024
     = getSpendingTrends JSDate.parseISODate [sample] engine0 mid_march_2024.
Proof.
  split; [ exact Qabs_Qopp_eq | ].
  destruct (amount_signs_are_ignored JSDate.parseISODate sqrt6 Qopp [sample] engine0
              mid_march_2024 Qabs_Qopp_eq) as (_ & _ & _ & T & _).
  exact T.
Defined.

Lemma dashboard_trends_last_three_months_witness :
  (100 < JSDate.getFullYear mid_march_2024)%Z
  /\ Dashboard.trends JSDate.parseISODate [sample] engine0 mid_march_2024
     = map (trendOfMonth JSDate.parseISODate [sample] engine0 2024) [0; 1; 2]%Z.
Proof.
  assert (H : (100 < JSDate.getFullYear mid_march_2024)%Z) by (vm_compute; reflexivity).
  split; [ exact H | ].
  exact (dashboard_trends_last_three_months JSDate.parseISODate [sample] engine0
           mid_march_2024 H).
Defined.

Lemma warning_names_the_largest_rise_witness :
  let categoryComparison :=
    getCategoryComparison JSDate.parseISODate [rising] engine0 mid_march_2024 in
  let periodData := getMonthlyAnalytics JSDate.parseISODate [rising] engine0 mid_march_2024 in
  (exists e, In e categoryComparison /\ 20 < CategoryChange.change e)
  /\ exists top,
       In top categoryComparison
       /\ 20 < CategoryChange.change top
       /\ option_map Insight.type
            (nth_error
               (AIInsights.generateInsights toFixed1 (fun s => s) categoryComparison
                  periodData) 0)
          = Some Insight.warning.
Proof.
  intros categoryComparison periodData.
  assert (H : exists e, In e categoryComparison /\ 20 < CategoryChange.change e).
  { exists (hd (CategoryChange.mk "" 0 0 0) categoryComparison).
    split; [ vm_compute; left; reflexivity | vm_compute; reflexivity ]. }
  split; [ exact H | ].
  destruct (warning_names_the_largest_rise toFixed1 (fun s => s) categoryComparison
              periodData H) as [top (T1 & T2 & _ & T4)].
  exists top. split; [ exact T1 | split; [ exact T2 | ] ].
  rewrite T4. reflexivity.
Defined.


Lemma uploaded_statement_is_stored_in_engine_order_witness :
  let stored :=
    TransactionContext.addTransactions JSDate.parseISODate (fun _ => mid_march_2024)
      oldest_first [] in
  Forall (fun t => JSDate.parseISODate (Transaction.date t) <> None) oldest_first
  /\ StronglySorted (descending (timeOf JSDate.parseISODate)) stored
  /\ constructor JSDate.parseISODate [stored] 0 = ([stored], AnalyticsEngine.mk 0).
Proof.
  intros stored.
  assert (H : Forall (fun t => JSDate.parseISODate (Transaction.date t) <> None)
                oldest_first)
    by (repeat constructor; vm_compute; discriminate).
  split; [ exact H | ].
  destruct (uploaded_statement_is_stored_in_engine_order JSDate.parseISODate
              (fun _ => mid_march_2024) oldest_first [] []) as (_ & T).
  exact (T H).
Defined.

(** ** The embedding on known values *)

(** 15 March 2024 is a Friday; its week runs from Sunday 10 March to
    Saturday 16 March, its half year from 1 January to 30 June. *)
Example fields_of_mid_march_2024 :
  (JSDate.getFullYear mid_march_2024, JSDate.getMonth mid_march_2024,
   JSDate.getDate mid_march_2024, JSDate.getDay mid_march_2024)
  = (2024, 2, 15, 5)%Z.
Proof. vm_compute. reflexivity. Qed.

Example windows_of_mid_march_2024 :
  map (fun p => periodWindow p mid_march_2024) [weekly; monthly; half_yearly; yearly]
  = [ (1710028800000, 1710633599999); (1709251200000, 1711929599999);
      (1704067200000, 1719791999999); (1704067200000, 1735689599999) ]%Z
  /\ map (fun p => previousWindow p mid_march_2024) [weekly; monthly; half_yearly; yearly]
     = [ (1709424000000, 1710028799999); (1706745600000, 1709251199999);
         (1688169600000, 1704067199999); (1672531200000, 1704067199999) ]%Z.
Proof. vm_compute. split; reflexivity. Qed.

Example days_of_mid_march_2024 :
  map (fun p => Qred (periodDays p mid_march_2024)) [weekly; monthly; half_yearly; yearly]
  = [7; 31; 182; 366]
  /\ map (fun p => Qred (previousDays p mid_march_2024))
       [weekly; monthly; half_yearly; yearly]
     = [7; 29; 184; 365].
Proof. vm_compute. split; reflexivity. Qed.

(** The [Date] constructor reads the year 50 as 1950. *)
Example two_digit_year : JSDate.getFullYear (JSDate.ofYMD 50 0 1) = 1950%Z.
Proof. vm_compute. reflexivity. Qed.

(** In January of the year 50 the trend windows are those of 1949 and
    1950: an expense of 10 January 50 is in none of them. *)
Example trends_in_the_year_50 :
  let now := JSDate.MakeDate (JSDate.MakeDay 50 0 15) 0 in
  JSDate.parseISODate "0050-01-10" = Some (JSDate.MakeDate (JSDate.MakeDay 50 0 10) 0)
  /\ (JSDate.getFullYear now, JSDate.getMonth now, JSDate.getDate now) = (50, 0, 15)%Z
  /\ map TrendPoint.expenses
       (getSpendingTrends JSDate.parseISODate
          [[tx "1" 100 "Food" "0050-01-10" Expense]] engine0 now)
     = [0; 0; 0; 0; 0; 0].
Proof. vm_compute. repeat split; reflexivity. Qed.

(** An income of 5000 on the 1st and a Food expense of 2000 on the 5th of
    the current month. *)
Example monthly_scenario :
  let s := getMonthlyAnalytics JSDate.parseISODate [sample] engine0 mid_march_2024 in
  (TimeBasedAnalytics.totalIncome s, TimeBasedAnalytics.totalExpenses s,
   TimeBasedAnalytics.netAmount s, Qred (TimeBasedAnalytics.savingsRate s),
   TimeBasedAnalytics.transactionCount s)
  = (5000, 2000, 3000, 60, 2%nat)
  /\ map (fun c => (CategorySummary.category c, CategorySummary.amount c,
                    CategorySummary.count c, Qred (CategorySummary.percentage c)))
       (TimeBasedAnalytics.topCategories s)
     = [ ("Food"%string, 2000, 1%Z, 100) ].
Proof. vm_compute. split; reflexivity. Qed.

Example trends_scenario :
  map (fun p => (TrendPoint.month p, TrendPoint.income p, TrendPoint.expenses p,
                 TrendPoint.savings p))
    (getSpendingTrends JSDate.parseISODate [sample] engine0 mid_march_2024)
  = [ ("Oct 23", 0, 0, 0); ("Nov 23", 0, 0, 0); ("Dec 23", 0, 0, 0);
      ("Jan 24", 0, 0, 0); ("Feb 24", 0, 0, 0); ("Mar 24", 5000, 2000, 3000) ]%string.
Proof. vm_compute. reflexivity. Qed.

Example comparison_scenario :
  let c := getMonthlyComparison JSDate.parseISODate [recovery] engine0 mid_march_2024 in
  (Qred (Growth.income (MonthlyComparison.growth c)),
   Qred (Growth.expenses (MonthlyComparison.growth c)),
   Qred (Growth.savings (MonthlyComparison.growth c)))
  = (200, -50 # 1, -300 # 1).
Proof. vm_compute. reflexivity. Qed.

(** The week of 15 March 2024 starts on Sunday 10 March. *)
Example week_of_mid_march_2024 :
  (weekStart mid_march_2024, JSDate.getDay (weekStart mid_march_2024))
  = (1710028800000, 0)%Z.
Proof. vm_compute. reflexivity. Qed.

(** 2100 is no leap year: its window has 365 days, and the yearly query
    divides by 366. *)
Example divisor_of_the_year_2100 :
  let now := JSDate.MakeDate (JSDate.MakeDay 2100 5 15) 0 in
  (JSDate.getFullYear now, JSDate.DaysInYear 2100,
   (snd (periodWindow yearly now) + 1 - fst (periodWindow yearly now)) / JSDate.msPerDay)%Z
  = (2100, 365, 365)%Z
  /\ Qred (periodDays yearly now) = 366.
Proof. vm_compute. split; reflexivity. Qed.

(** Rent fell from 2000 to 1000. *)
Example category_comparison_scenario :
  map (fun c => (CategoryChange.category c, Qred (CategoryChange.currentMonth c),
                 Qred (CategoryChange.previousMonth c), Qred (CategoryChange.change c)))
    (getCategoryComparison JSDate.parseISODate [recovery] engine0 mid_march_2024)
  = [ ("Rent"%string, 1000, 2000, -50 # 1) ].
Proof. vm_compute. reflexivity. Qed.

(** The dashboard in March 2024: a net amount of 3000 against a monthly
    target of 1000, and nothing saved in a month of deficit. *)
Example dashboard_scenario :
  (Qred (Dashboard.savingsProgress
           (getMonthlyAnalytics JSDate.parseISODate [sample] engine0 mid_march_2024)
           monthly 1000),
   Qred (Dashboard.savingsProgress
           (getMonthlyAnalytics JSDate.parseISODate [overspent] engine0 mid_march_2024)
           monthly 1000),
   Qred (Dashboard.totalBalance sample))
  = (300, 0, 3000)
  /\ map TrendPoint.month
       (Dashboard.trends JSDate.parseISODate [sample] engine0 mid_march_2024)
     = [ "Jan 24"; "Feb 24"; "Mar 24" ]%string
  /\ map (fun s => (Slice.name s, Slice.color s))
       (Dashboard.spendingCategories
          (getMonthlyAnalytics JSDate.parseISODate [six_categories] engine0 mid_march_2024))
     = [ ("Rent", "hsl(0, 70%, 60%)"); ("Food", "hsl(60, 70%, 60%)");
         ("Transport", "hsl(120, 70%, 60%)"); ("Bills", "hsl(180, 70%, 60%)");
         ("Shopping", "hsl(240, 70%, 60%)") ]%string.
Proof. vm_compute. repeat split; reflexivity. Qed.

(** The insights on Food spending that rose from 100 to 150 without any
    income, with [toFixed1] standing in for [formatAmount] and the
    identity for [toLowerCase]. *)
Example insights_scenario :
  map (fun i => (Insight.type i, Insight.message i, Insight.category i))
    (AIInsights.generateInsights toFixed1 (fun s => s)
       (getCategoryComparison JSDate.parseISODate [rising] engine0 mid_march_2024)
       (getMonthlyAnalytics JSDate.parseISODate [rising] engine0 mid_march_2024))
  = [ (Insight.warning, "You spent 50.0% more on Food this month", "Food");
      (Insight.alert, "Your savings rate is only 0.0%", "Savings");
      (Insight.suggestion, "Food takes up 100.0% of your expenses", "Food") ]%string.
Proof. vm_compute. reflexivity. Qed.

(** An upload of two transactions, the older one first, into a store that
    holds others. *)
Example upload_scenario :
  map (fun t => (Transaction.id t, Transaction.date t))
    (TransactionContext.addTransactions JSDate.parseISODate (fun _ => mid_march_2024)
       oldest_first sample)
  = [ ("1710498600000-1", "2024-03-10"); ("1710498600000-0", "2024-03-05") ]%string.
Proof. vm_compute. reflexivity. Qed.

(** The monthly scenario on doubles: the numbers are those of the
    rationals, which are exact here. *)
Example monthly_scenario_on_doubles :
  let s :=
    Binary64.getMonthlyAnalytics JSDate.parseISODate sample_in_doubles mid_march_2024 in
  (Binary64.TimeBasedAnalytics.totalIncome s, Binary64.TimeBasedAnalytics.totalExpenses s,
   Binary64.TimeBasedAnalytics.netAmount s, Binary64.TimeBasedAnalytics.savingsRate s,
   Binary64.TimeBasedAnalytics.transactionCount s)
  = (5000, 2000, 3000, 60, 2%nat)%float
  /\ map (fun c => (Binary64.CategorySummary.category c, Binary64.CategorySummary.amount c,
                    Binary64.CategorySummary.count c,
                    Binary64.CategorySummary.percentage c))
       (Binary64.TimeBasedAnalytics.topCategories s)
     = [ ("Food"%string, 2000%float, 1%Z, 100%float) ].
Proof. vm_compute. split; reflexivity. Qed.

(** The day counts of the four queries on doubles, in March 2024. *)
Example days_on_doubles :
  map (fun p =>
         Binary64.TimeBasedAnalytics.averageDaily
           (Binary64.periodData JSDate.parseISODate two_expenses mid_march_2024 p))
    [ weekly; monthly; half_yearly; yearly ]
  = [ 11 / 7; 11 / 31; 11 / 182; 11 / 366 ]%float.
Proof. vm_compute. reflexivity. Qed.

(** A day past the end of its month runs over into the next month. *)
Example day_past_the_end_of_february :
  JSDate.parseISODate "2024-02-30" = JSDate.parseISODate "2024-03-01"
  /\ JSDate.parseISODate "2024-02-32" = None.
Proof. vm_compute. split; reflexivity. Qed.
